(** * Idara Wallet: the server's authentication core

  A shallow embedding of the OTP ledger, the per-recipient rate limiter,
  the user directory, the WebAuthn ceremony handlers, the OTP routes and
  the pure part of the DID utilities of the server
  ([server/src/utils/otp.ts], the class [UserModel] that the other files
  import as [../models/user], [server/src/routes/webauthn.ts],
  [server/src/routes/auth.ts], [server/src/utils/did.ts]), with the
  properties of the specification, and further properties of the code,
  stated and proved over it.

  Conventions of the embedding.
  - A JavaScript string is its list of UTF-16 code units ([jsstring]);
    string literals of the source that are only ever produced (error
    names and messages) are kept as Rocq strings.
  - A [Map] is an insertion-ordered association list ([JsMap]).
  - A [Date] is its millisecond time stamp, a [number] an integer ([Z]).
  - [new Date()], [uuidv4()], the code generator, the delivery providers
    and the WebAuthn verifier are outside the program: what they return
    is an argument of the function that calls them.  Every function
    body reads the clock once; two functions read it separately.
  - [throw new Error(m)] is the result [Throw m]; the state reached
    when the exception leaves the function is returned with it. *)

From Stdlib Require Import ZArith NArith List String Ascii Bool Lia.
From Stdlib Require Strings.Byte.
From stdpp Require Import base decidable option numbers list strings.
Import ListNotations.
Open Scope Z_scope.

(** ** JavaScript strings and the two regular expressions *)

Module Js.

(** UTF-16 code units. *)
Abbreviation jsstring := (list N).

(** The code units of an ASCII literal. *)
Fixpoint js (s : string) : jsstring :=
  match s with
  | EmptyString => []
  | String c r => N_of_ascii c :: js r
  end.

(** [!s] is false exactly for the empty string. *)
Definition truthy (s : jsstring) : bool :=
  match s with [] => false | _ :: _ => true end.

(** Truthiness of an optional string field: [undefined] and [''] are
    both falsy. *)
Definition truthy_opt (o : option jsstring) : bool :=
  match o with Some s => truthy s | None => false end.

(** [\s] of an ECMAScript regular expression without the [u] flag:
    TAB, LF, VT, FF, CR, SP, NBSP, the Zs characters, LS, PS and BOM. *)
Definition is_space (c : N) : bool :=
  ((9 <=? c) && (c <=? 13) || (c =? 32) || (c =? 160) || (c =? 5760)
   || (8192 <=? c) && (c <=? 8202) || (c =? 8232) || (c =? 8233)
   || (c =? 8239) || (c =? 8287) || (c =? 12288) || (c =? 65279))%N.

(** [\d]: the ASCII digits. *)
Definition is_digit (c : N) : bool := ((48 <=? c) && (c <=? 57))%N.

(** Regular expressions over code units, with character classes as
    predicates. *)
Inductive regex : Type :=
| Void : regex
| Eps : regex
| Cls : (N -> bool) -> regex
| Cat : regex -> regex -> regex
| Alt : regex -> regex -> regex
| Star : regex -> regex.

Fixpoint nullable (r : regex) : bool :=
  match r with
  | Void => false
  | Eps => true
  | Cls _ => false
  | Cat r1 r2 => nullable r1 && nullable r2
  | Alt r1 r2 => nullable r1 || nullable r2
  | Star _ => true
  end.

(** Brzozowski derivative. *)
Fixpoint deriv (c : N) (r : regex) : regex :=
  match r with
  | Void => Void
  | Eps => Void
  | Cls p => if p c then Eps else Void
  | Cat r1 r2 =>
      if nullable r1
      then Alt (Cat (deriv c r1) r2) (deriv c r2)
      else Cat (deriv c r1) r2
  | Alt r1 r2 => Alt (deriv c r1) (deriv c r2)
  | Star r1 => Cat (deriv c r1) (Star r1)
  end.

(** [/^r$/.test(s)]: the whole string matches [r] (no [m] flag, so [$]
    is the end of the input). *)
Fixpoint test (r : regex) (s : jsstring) : bool :=
  match s with
  | [] => nullable r
  | c :: s' => test (deriv c r) s'
  end.

(** [r+] *)
Definition Plus (r : regex) : regex := Cat r (Star r).

(** [r?] *)
Definition Opt (r : regex) : regex := Alt r Eps.

(** [r{1,n+1}] *)
Fixpoint Upto (n : nat) (r : regex) : regex :=
  match n with
  | O => r
  | S n' => Cat r (Opt (Upto n' r))
  end.

Definition chr (a : ascii) : regex := Cls (fun c => (c =? N_of_ascii a)%N).

(** [[^\s@]] *)
Definition not_space_at (c : N) : bool :=
  negb (is_space c || (c =? 64)%N).

(** [[1-9]] *)
Definition is_digit19 (c : N) : bool := ((49 <=? c) && (c <=? 57))%N.

(** [s.startsWith(p)] *)
Fixpoint startsWith (p s : jsstring) : bool :=
  match p, s with
  | [], _ => true
  | _ :: _, [] => false
  | a :: p', b :: s' => (a =? b)%N && startsWith p' s'
  end.

(** [s.includes(p)] *)
Fixpoint includes (p s : jsstring) : bool :=
  startsWith p s
  || match s with
     | [] => false
     | _ :: s' => includes p s'
     end.

(** [s[i]] in a concatenation: the code unit at [i] as a string, and
    ["undefined"] past the end. *)
Definition index (s : jsstring) (i : N) : jsstring :=
  match nth_error s (N.to_nat i) with
  | Some c => [c]
  | None => js "undefined"
  end.

(** [s.split(sep)] for a separator of one code unit. *)
Fixpoint split (sep : N) (s : jsstring) : list jsstring :=
  match s with
  | [] => [[]]
  | c :: r =>
      if (c =? sep)%N then [] :: split sep r
      else match split sep r with
           | part :: parts => (c :: part) :: parts
           | [] => [[c]]
           end
  end.

(** What it means for a string to match a regular expression. *)
Inductive matches : regex -> jsstring -> Prop :=
| matches_eps : matches Eps []
| matches_cls p c : p c = true -> matches (Cls p) [c]
| matches_cat r1 r2 s1 s2 :
    matches r1 s1 -> matches r2 s2 -> matches (Cat r1 r2) (s1 ++ s2)
| matches_alt_l r1 r2 s : matches r1 s -> matches (Alt r1 r2) s
| matches_alt_r r1 r2 s : matches r2 s -> matches (Alt r1 r2) s
| matches_star_nil r : matches (Star r) []
| matches_star_app r s1 s2 :
    matches r s1 -> matches (Star r) s2 -> matches (Star r) (s1 ++ s2).

End Js.

Import Js.

(** ** [Map]: insertion-ordered, one entry per key *)

Module JsMap.

Section Ops.
Context {V : Type}.

Definition t : Type := list (jsstring * V).

Definition empty : t := [].

(** [m.get(k)] *)
Fixpoint get (k : jsstring) (m : t) : option V :=
    match m with
    | [] => None
    | (k', v) :: r => if decide (k = k') then Some v else get k r
    end.

(** [m.has(k)] *)
Definition has (k : jsstring) (m : t) : bool :=
    match get k m with Some _ => true | None => false end.

(** [m.set(k, v)]: an existing key keeps its place, a new key goes
      to the end. *)
Fixpoint set (k : jsstring) (v : V) (m : t) : t :=
    match m with
    | [] => [(k, v)]
    | (k', v') :: r =>
        if decide (k = k') then (k, v) :: r else (k', v') :: set k v r
    end.

(** [m.delete(k)] *)
Fixpoint delete (k : jsstring) (m : t) : t :=
    match m with
    | [] => []
    | (k', v') :: r =>
        if decide (k = k') then delete k r else (k', v') :: delete k r
    end.

(** [m.values()], in insertion order. *)
Definition values (m : t) : list V := map snd m.

Definition keys (m : t) : list jsstring := map fst m.

(** [m.forEach((v, k) => { if (p(v)) m.set(k, f(v)) })]: entries are
      visited in insertion order, and the callback writes only the key it
      is visiting, so each visit sees the value the map had at the
      start. *)
Definition forEach_set (p : V -> bool) (f : V -> V) (m : t) : t :=
    fold_left (fun acc kv => if p (snd kv) then set (fst kv) (f (snd kv)) acc else acc)
              m m.

(** [m.forEach((v, k) => { if (p(v)) m.delete(k) })] *)
Definition forEach_delete (p : V -> bool) (m : t) : t :=
    fold_left (fun acc kv => if p (snd kv) then delete (fst kv) acc else acc)
              m m.

(** The representation invariant of a [Map]: no key twice. *)
Definition wf (m : t) : Prop := NoDup (keys m).

End Ops.

Arguments t : clear implicits.

End JsMap.

(** ** [Set] of strings: insertion-ordered, no duplicates *)

Module JsSet.

Definition t : Type := list jsstring.

Definition has (x : jsstring) (s : t) : bool := bool_decide (x ∈ s).

(** [s.add(x)] *)
Definition add (x : jsstring) (s : t) : t :=
  if has x s then s else s ++ [x].

(** [s.delete(x)] *)
Definition delete (x : jsstring) (s : t) : t :=
  filter (fun y => y <> x) s.

(** [s.size] *)
Definition size (s : t) : Z := Z.of_nat (length s).

End JsSet.

(** ** Results of functions that may throw *)

Inductive result (A : Type) : Type :=
| Return (a : A)
| Throw (message : string).

Arguments Return {A} a.
Arguments Throw {A} message.

(** ** [server/src/types]: the records of the data model *)

Inductive AuthMethod : Type := AuthEMAIL | AuthPHONE | AuthWEBAUTHN.

Inductive OtpStatus : Type := PENDING | VERIFIED | EXPIRED | INVALID.

Inductive OtpDeliveryMethod : Type := EMAIL | SMS.

#[export] Instance AuthMethod_eq_dec : EqDecision AuthMethod.
Proof. solve_decision. Defined.

#[export] Instance OtpStatus_eq_dec : EqDecision OtpStatus.
Proof. solve_decision. Defined.

#[export] Instance OtpDeliveryMethod_eq_dec : EqDecision OtpDeliveryMethod.
Proof. solve_decision. Defined.

Module UserProfile.
Record t : Type := mk {
  name : jsstring;
  email : option jsstring;
  phone : option jsstring;
  createdAt : Z;
  updatedAt : Z
}.
End UserProfile.

(** [Partial<UserProfile>]: [None] is a key that is not there. *)
Module UserUpdates.
Record t : Type := mk {
  name : option jsstring;
  email : option jsstring;
  phone : option jsstring;
  createdAt : option Z
}.
End UserUpdates.

Module User.
Record t : Type := mk {
  id : jsstring;
  name : jsstring;
  email : option jsstring;
  phone : option jsstring;
  createdAt : Z;
  updatedAt : Z;
  did : option jsstring;
  didDocument : option jsstring;
  authMethods : list AuthMethod;
  isEmailVerified : bool;
  isPhoneVerified : bool;
  lastLogin : option Z
}.
End User.

Module OtpRecord.
Record t : Type := mk {
  id : jsstring;
  userId : option jsstring;
  recipient : jsstring;
  code : jsstring;
  method : OtpDeliveryMethod;
  status : OtpStatus;
  attempts : Z;
  maxAttempts : Z;
  createdAt : Z;
  expiresAt : Z;
  verifiedAt : option Z
}.

(** [{ ...otp, status: s }] *)
Definition with_status (s : OtpStatus) (otp : t) : t :=
  mk (id otp) (userId otp) (recipient otp) (code otp) (method otp) s
     (attempts otp) (maxAttempts otp) (createdAt otp) (expiresAt otp)
     (verifiedAt otp).

(** [{ ...otp, attempts: n }] *)
Definition with_attempts (n : Z) (otp : t) : t :=
  mk (id otp) (userId otp) (recipient otp) (code otp) (method otp) (status otp)
     n (maxAttempts otp) (createdAt otp) (expiresAt otp) (verifiedAt otp).

(** [otp.verifiedAt = d] *)
Definition with_verifiedAt (d : Z) (otp : t) : t :=
  mk (id otp) (userId otp) (recipient otp) (code otp) (method otp) (status otp)
     (attempts otp) (maxAttempts otp) (createdAt otp) (expiresAt otp) (Some d).
End OtpRecord.

#[export] Instance OtpRecord_eq_dec : EqDecision OtpRecord.t.
Proof. solve_decision. Defined.

Module WebAuthnCredential.
Record t : Type := mk {
  id : jsstring;
  userId : jsstring;
  credentialId : jsstring;
  publicKey : jsstring;
  counter : Z;
  transports : list jsstring;
  deviceType : option jsstring;
  createdAt : Z;
  lastUsed : option Z
}.
End WebAuthnCredential.

(** ** [server/src/models/user.ts]: the in-memory store *)

Module UserModel.

Record t : Type := mk {
  users : JsMap.t User.t;
  emailIndex : JsMap.t jsstring;
  phoneIndex : JsMap.t jsstring;
  didIndex : JsMap.t jsstring;
  otpRecords : JsMap.t OtpRecord.t;
  webauthnCredentials : JsMap.t WebAuthnCredential.t;
  webauthnCredentialsByUser : JsMap.t JsSet.t
}.

Definition empty : t :=
  mk JsMap.empty JsMap.empty JsMap.empty JsMap.empty JsMap.empty JsMap.empty
     JsMap.empty.

Definition set_users (v : JsMap.t User.t) (m : t) : t :=
  mk v (emailIndex m) (phoneIndex m) (didIndex m) (otpRecords m)
     (webauthnCredentials m) (webauthnCredentialsByUser m).

Definition set_emailIndex (v : JsMap.t jsstring) (m : t) : t :=
  mk (users m) v (phoneIndex m) (didIndex m) (otpRecords m)
     (webauthnCredentials m) (webauthnCredentialsByUser m).

Definition set_phoneIndex (v : JsMap.t jsstring) (m : t) : t :=
  mk (users m) (emailIndex m) v (didIndex m) (otpRecords m)
     (webauthnCredentials m) (webauthnCredentialsByUser m).

Definition set_didIndex (v : JsMap.t jsstring) (m : t) : t :=
  mk (users m) (emailIndex m) (phoneIndex m) v (otpRecords m)
     (webauthnCredentials m) (webauthnCredentialsByUser m).

Definition set_otpRecords (v : JsMap.t OtpRecord.t) (m : t) : t :=
  mk (users m) (emailIndex m) (phoneIndex m) (didIndex m) v
     (webauthnCredentials m) (webauthnCredentialsByUser m).

Definition set_webauthnCredentials (v : JsMap.t WebAuthnCredential.t) (m : t) : t :=
  mk (users m) (emailIndex m) (phoneIndex m) (didIndex m) (otpRecords m)
     v (webauthnCredentialsByUser m).

Definition set_webauthnCredentialsByUser (v : JsMap.t JsSet.t) (m : t) : t :=
  mk (users m) (emailIndex m) (phoneIndex m) (didIndex m) (otpRecords m)
     (webauthnCredentials m) v.

Section WithLowerCase.

(** [String.prototype.toLowerCase], a built-in of the language. *)
Variable toLowerCase : jsstring -> jsstring.

(** [createUser(profile, authMethod)]; [userId] is the fresh [uuidv4()]. *)
Definition createUser (now : Z) (userId : jsstring) (profile : UserProfile.t)
    (authMethod : AuthMethod) (m : t) : result User.t * t :=
  if negb (truthy (UserProfile.name profile)) then
    (Throw "Name is required", m)
  else if negb (truthy_opt (UserProfile.email profile))
          && negb (truthy_opt (UserProfile.phone profile)) then
    (Throw "Either email or phone is required", m)
  else if match UserProfile.email profile with
          | Some e => truthy e && JsMap.has (toLowerCase e) (emailIndex m)
          | None => false
          end then
    (Throw "User with this email already exists", m)
  else if match UserProfile.phone profile with
          | Some p => truthy p && JsMap.has p (phoneIndex m)
          | None => false
          end then
    (Throw "User with this phone already exists", m)
  else
    let user :=
      User.mk userId (UserProfile.name profile) (UserProfile.email profile)
              (UserProfile.phone profile) now now None None [authMethod]
              false false None in
    let m1 := set_users (JsMap.set userId user (users m)) m in
    let m2 :=
      match UserProfile.email profile with
      | Some e =>
          if truthy e
          then set_emailIndex (JsMap.set (toLowerCase e) userId (emailIndex m1)) m1
          else m1
      | None => m1
      end in
    let m3 :=
      match UserProfile.phone profile with
      | Some p =>
          if truthy p
          then set_phoneIndex (JsMap.set p userId (phoneIndex m2)) m2
          else m2
      | None => m2
      end in
    (Return user, m3).

(** [getUserById(id)] *)
Definition getUserById (id : jsstring) (m : t) : option User.t :=
  JsMap.get id (users m).

(** [getUserByEmail(email)] *)
Definition getUserByEmail (email : jsstring) (m : t) : option User.t :=
  match JsMap.get (toLowerCase email) (emailIndex m) with
  | Some userId => if truthy userId then JsMap.get userId (users m) else None
  | None => None
  end.

(** [getUserByPhone(phone)] *)
Definition getUserByPhone (phone : jsstring) (m : t) : option User.t :=
  match JsMap.get phone (phoneIndex m) with
  | Some userId => if truthy userId then JsMap.get userId (users m) else None
  | None => None
  end.

(** [setUserDid(userId, did, didDocument)] *)
Definition setUserDid (now : Z) (userId did : jsstring)
    (didDocument : option jsstring) (m : t) : result (option User.t) * t :=
  match JsMap.get userId (users m) with
  | None => (Return None, m)
  | Some user =>
      if match JsMap.get did (didIndex m) with
         | Some existingUserId =>
             truthy existingUserId && bool_decide (existingUserId ≠ userId)
         | None => false
         end then
        (Throw "DID already assigned to another user", m)
      else
        let updatedUser :=
          User.mk (User.id user) (User.name user) (User.email user)
                  (User.phone user) (User.createdAt user) now (Some did)
                  didDocument (User.authMethods user)
                  (User.isEmailVerified user) (User.isPhoneVerified user)
                  (User.lastLogin user) in
        let m1 := set_users (JsMap.set userId updatedUser (users m)) m in
        (Return (Some updatedUser),
         set_didIndex (JsMap.set did userId (didIndex m1)) m1)
  end.

(** [verifyEmail(userId)] *)
Definition verifyEmail (now : Z) (userId : jsstring) (m : t) : option User.t * t :=
  match JsMap.get userId (users m) with
  | None => (None, m)
  | Some user =>
      let updatedUser :=
        User.mk (User.id user) (User.name user) (User.email user)
                (User.phone user) (User.createdAt user) now (User.did user)
                (User.didDocument user) (User.authMethods user)
                true (User.isPhoneVerified user) (User.lastLogin user) in
      (Some updatedUser, set_users (JsMap.set userId updatedUser (users m)) m)
  end.

(** [verifyPhone(userId)] *)
Definition verifyPhone (now : Z) (userId : jsstring) (m : t) : option User.t * t :=
  match JsMap.get userId (users m) with
  | None => (None, m)
  | Some user =>
      let updatedUser :=
        User.mk (User.id user) (User.name user) (User.email user)
                (User.phone user) (User.createdAt user) now (User.did user)
                (User.didDocument user) (User.authMethods user)
                (User.isEmailVerified user) true (User.lastLogin user) in
      (Some updatedUser, set_users (JsMap.set userId updatedUser (users m)) m)
  end.

(** [updateLastLogin(userId)] *)
Definition updateLastLogin (now : Z) (userId : jsstring) (m : t) : option User.t * t :=
  match JsMap.get userId (users m) with
  | None => (None, m)
  | Some user =>
      let updatedUser :=
        User.mk (User.id user) (User.name user) (User.email user)
                (User.phone user) (User.createdAt user) now (User.did user)
                (User.didDocument user) (User.authMethods user)
                (User.isEmailVerified user) (User.isPhoneVerified user)
                (Some now) in
      (Some updatedUser, set_users (JsMap.set userId updatedUser (users m)) m)
  end.

(** [addAuthMethod(userId, method)] *)
Definition addAuthMethod (now : Z) (userId : jsstring) (method : AuthMethod)
    (m : t) : option User.t * t :=
  match JsMap.get userId (users m) with
  | None => (None, m)
  | Some user =>
      if bool_decide (method ∈ User.authMethods user) then (Some user, m)
      else
        let updatedUser :=
          User.mk (User.id user) (User.name user) (User.email user)
                  (User.phone user) (User.createdAt user) now (User.did user)
                  (User.didDocument user) (User.authMethods user ++ [method])
                  (User.isEmailVerified user) (User.isPhoneVerified user)
                  (User.lastLogin user) in
        (Some updatedUser, set_users (JsMap.set userId updatedUser (users m)) m)
  end.

(** *** OTP methods *)

(** [createOtp(recipient, method, code, userId)]; [id] is the fresh
    [uuidv4()]. *)
Definition createOtp (now : Z) (id recipient : jsstring)
    (method : OtpDeliveryMethod) (code : jsstring) (userId : option jsstring)
    (m : t) : OtpRecord.t * t :=
  let expiresAt := now + 10 * 60 * 1000 in
  let otp :=
    OtpRecord.mk id userId recipient code method PENDING 0 3 now expiresAt None in
  (otp, set_otpRecords (JsMap.set id otp (otpRecords m)) m).

(** [getOtpById(id)] *)
Definition getOtpById (id : jsstring) (m : t) : option OtpRecord.t :=
  JsMap.get id (otpRecords m).

(** [verifyOtp(id, code)] *)
Definition verifyOtp (now : Z) (id code : jsstring) (m : t)
    : option OtpRecord.t * t :=
  match JsMap.get id (otpRecords m) with
  | None => (None, m)
  | Some otp =>
      if OtpRecord.expiresAt otp <? now then
        let expiredOtp := OtpRecord.with_status EXPIRED otp in
        (Some expiredOtp, set_otpRecords (JsMap.set id expiredOtp (otpRecords m)) m)
      else if OtpRecord.maxAttempts otp <=? OtpRecord.attempts otp then
        (Some otp, m)
      else
        let updatedOtp := OtpRecord.with_attempts (OtpRecord.attempts otp + 1) otp in
        let updatedOtp :=
          if bool_decide (code = OtpRecord.code otp)
          then OtpRecord.with_verifiedAt now (OtpRecord.with_status VERIFIED updatedOtp)
          else OtpRecord.with_status INVALID updatedOtp in
        (Some updatedOtp, set_otpRecords (JsMap.set id updatedOtp (otpRecords m)) m)
  end.

(** [invalidateOtps(recipient)] *)
Definition invalidateOtps (recipient : jsstring) (m : t) : t :=
  set_otpRecords
    (JsMap.forEach_set
       (fun otp => bool_decide (OtpRecord.recipient otp = recipient)
                   && bool_decide (OtpRecord.status otp = PENDING))
       (OtpRecord.with_status INVALID)
       (otpRecords m))
    m.

(** *** WebAuthn methods *)

(** [storeWebAuthnCredential(credential)]; the argument has no [id] of its
    own ([Omit<WebAuthnCredential, 'id'>]): the field [id] of [credential]
    is not read.  [id] is the fresh [uuidv4()]. *)
Definition storeWebAuthnCredential (now : Z) (id : jsstring)
    (credential : WebAuthnCredential.t) (m : t) : WebAuthnCredential.t * t :=
  let userId := WebAuthnCredential.userId credential in
  let webauthnCredential :=
    WebAuthnCredential.mk id userId
      (WebAuthnCredential.credentialId credential)
      (WebAuthnCredential.publicKey credential)
      (WebAuthnCredential.counter credential)
      (WebAuthnCredential.transports credential)
      (WebAuthnCredential.deviceType credential)
      now
      (WebAuthnCredential.lastUsed credential) in
  let m1 :=
    set_webauthnCredentials
      (JsMap.set id webauthnCredential (webauthnCredentials m)) m in
  let userCredentials :=
    match JsMap.get userId (webauthnCredentialsByUser m1) with
    | Some s => s
    | None => []
    end in
  let m2 :=
    set_webauthnCredentialsByUser
      (JsMap.set userId (JsSet.add id userCredentials)
                 (webauthnCredentialsByUser m1)) m1 in
  (webauthnCredential, snd (addAuthMethod now userId AuthWEBAUTHN m2)).

(** [getWebAuthnCredentialById(id)] *)
Definition getWebAuthnCredentialById (id : jsstring) (m : t)
    : option WebAuthnCredential.t :=
  JsMap.get id (webauthnCredentials m).

(** [getWebAuthnCredentialByCredentialId(credentialId)]: the first stored
    credential, in insertion order, with that credential id. *)
Definition getWebAuthnCredentialByCredentialId (credentialId : jsstring) (m : t)
    : option WebAuthnCredential.t :=
  List.find
    (fun credential =>
       bool_decide (WebAuthnCredential.credentialId credential = credentialId))
    (JsMap.values (webauthnCredentials m)).

(** [getWebAuthnCredentialsByUserId(userId)] *)
Definition getWebAuthnCredentialsByUserId (userId : jsstring) (m : t)
    : list WebAuthnCredential.t :=
  match JsMap.get userId (webauthnCredentialsByUser m) with
  | None => []
  | Some credentialIds =>
      omap (fun id => JsMap.get id (webauthnCredentials m)) credentialIds
  end.

(** [updateWebAuthnCredentialCounter(id, counter)] *)
Definition updateWebAuthnCredentialCounter (now : Z) (id : jsstring)
    (counter : Z) (m : t) : option WebAuthnCredential.t * t :=
  match JsMap.get id (webauthnCredentials m) with
  | None => (None, m)
  | Some credential =>
      let updatedCredential :=
        WebAuthnCredential.mk
          (WebAuthnCredential.id credential)
          (WebAuthnCredential.userId credential)
          (WebAuthnCredential.credentialId credential)
          (WebAuthnCredential.publicKey credential)
          counter
          (WebAuthnCredential.transports credential)
          (WebAuthnCredential.deviceType credential)
          (WebAuthnCredential.createdAt credential)
          (Some now) in
      (Some updatedCredential,
       set_webauthnCredentials
         (JsMap.set id updatedCredential (webauthnCredentials m)) m)
  end.

(** [getUserByDid(did)] *)
Definition getUserByDid (did : jsstring) (m : t) : option User.t :=
  match JsMap.get did (didIndex m) with
  | Some userId => if truthy userId then JsMap.get userId (users m) else None
  | None => None
  end.

(** The store when the e-mail part of [updateUser] throws: the old
    address is already out of the index. *)
Definition updateUser_email_thrown (user : User.t) (m : t) : t :=
  match User.email user with
  | Some old =>
      if truthy old
      then set_emailIndex (JsMap.delete (toLowerCase old) (emailIndex m)) m
      else m
  | None => m
  end.

(** The e-mail part of [updateUser]. *)
Definition updateUser_email (id : jsstring) (user : User.t)
    (updates : UserUpdates.t) (m : t) : result t :=
  match UserUpdates.email updates with
  | Some email =>
      if truthy email && bool_decide (Some email <> User.email user) then
        let m1 := updateUser_email_thrown user m in
        if JsMap.has (toLowerCase email) (emailIndex m1) then Throw "Email already in use"
        else Return (set_emailIndex (JsMap.set (toLowerCase email) id (emailIndex m1)) m1)
      else Return m
  | None => Return m
  end.

(** The store when the phone part of [updateUser] throws. *)
Definition updateUser_phone_thrown (user : User.t) (m : t) : t :=
  match User.phone user with
  | Some old =>
      if truthy old
      then set_phoneIndex (JsMap.delete old (phoneIndex m)) m
      else m
  | None => m
  end.

(** The phone part of [updateUser]. *)
Definition updateUser_phone (id : jsstring) (user : User.t)
    (updates : UserUpdates.t) (m : t) : result t :=
  match UserUpdates.phone updates with
  | Some phone =>
      if truthy phone && bool_decide (Some phone <> User.phone user) then
        let m1 := updateUser_phone_thrown user m in
        if JsMap.has phone (phoneIndex m1) then Throw "Phone already in use"
        else Return (set_phoneIndex (JsMap.set phone id (phoneIndex m1)) m1)
      else Return m
  | None => Return m
  end.

(** [updateUser(id, updates)] *)
Definition updateUser (now : Z) (id : jsstring) (updates : UserUpdates.t) (m : t)
    : result (option User.t) * t :=
  match JsMap.get id (users m) with
  | None => (Return None, m)
  | Some user =>
      match updateUser_email id user updates m with
      | Throw message => (Throw message, updateUser_email_thrown user m)
      | Return m1 =>
          match updateUser_phone id user updates m1 with
          | Throw message => (Throw message, updateUser_phone_thrown user m1)
          | Return m2 =>
              let updatedUser :=
                User.mk (User.id user)
                        (default (User.name user) (UserUpdates.name updates))
                        (match UserUpdates.email updates with
                         | Some e => Some e
                         | None => User.email user
                         end)
                        (match UserUpdates.phone updates with
                         | Some p => Some p
                         | None => User.phone user
                         end)
                        (default (User.createdAt user) (UserUpdates.createdAt updates))
                        now (User.did user) (User.didDocument user)
                        (User.authMethods user) (User.isEmailVerified user)
                        (User.isPhoneVerified user) (User.lastLogin user) in
              (Return (Some updatedUser),
               set_users (JsMap.set id updatedUser (users m2)) m2)
          end
      end
  end.

(** [deleteUser(id)] *)
Definition deleteUser (id : jsstring) (m : t) : bool * t :=
  match JsMap.get id (users m) with
  | None => (false, m)
  | Some user =>
      let m1 :=
        match User.email user with
        | Some e =>
            if truthy e
            then set_emailIndex (JsMap.delete (toLowerCase e) (emailIndex m)) m
            else m
        | None => m
        end in
      let m2 :=
        match User.phone user with
        | Some p =>
            if truthy p then set_phoneIndex (JsMap.delete p (phoneIndex m1)) m1 else m1
        | None => m1
        end in
      let m3 :=
        match User.did user with
        | Some d =>
            if truthy d then set_didIndex (JsMap.delete d (didIndex m2)) m2 else m2
        | None => m2
        end in
      let m4 :=
        match JsMap.get id (webauthnCredentialsByUser m3) with
        | Some credentialIds =>
            set_webauthnCredentialsByUser
              (JsMap.delete id (webauthnCredentialsByUser m3))
              (set_webauthnCredentials
                 (fold_left (fun creds credId => JsMap.delete credId creds)
                            credentialIds (webauthnCredentials m3))
                 m3)
        | None => m3
        end in
      (true, set_users (JsMap.delete id (users m4)) m4)
  end.

(** [deleteWebAuthnCredential(id)] *)
Definition deleteWebAuthnCredential (now : Z) (id : jsstring) (m : t) : bool * t :=
  match JsMap.get id (webauthnCredentials m) with
  | None => (false, m)
  | Some credential =>
      let userId := WebAuthnCredential.userId credential in
      let m1 :=
        match JsMap.get userId (webauthnCredentialsByUser m) with
        | Some userCredentials =>
            let userCredentials := JsSet.delete id userCredentials in
            let m0 :=
              set_webauthnCredentialsByUser
                (JsMap.set userId userCredentials (webauthnCredentialsByUser m)) m in
            if bool_decide (JsSet.size userCredentials = 0) then
              match JsMap.get userId (users m0) with
              | Some user =>
                  let updatedUser :=
                    User.mk (User.id user) (User.name user) (User.email user)
                            (User.phone user) (User.createdAt user) now
                            (User.did user) (User.didDocument user)
                            (filter (fun method => method <> AuthWEBAUTHN)
                                    (User.authMethods user))
                            (User.isEmailVerified user) (User.isPhoneVerified user)
                            (User.lastLogin user) in
                  set_users (JsMap.set userId updatedUser (users m0)) m0
              | None => m0
              end
            else m0
        | None => m
        end in
      (true,
       set_webauthnCredentials (JsMap.delete id (webauthnCredentials m1)) m1)
  end.

(** [getAllUsers()] *)
Definition getAllUsers (m : t) : list User.t := JsMap.values (users m).

(** [clearAll()] *)
Definition clearAll (m : t) : t := empty.

End WithLowerCase.

End UserModel.

(** ** The process state: the store and the two module-level caches *)

Module RateLimitRecord.
Record t : Type := mk {
  count : Z;
  firstAttempt : Z;
  lastAttempt : Z
}.
End RateLimitRecord.

Inductive UserVerification : Type := Required | Preferred | Discouraged.

Module WebAuthnSession.
Record t : Type := mk {
  challenge : jsstring;
  userId : option jsstring;
  email : option jsstring;
  phone : option jsstring;
  expires : Z;
  userVerification : option UserVerification
}.
End WebAuthnSession.

Module World.
Record t : Type := mk {
  userModel : UserModel.t;
  rateLimitCache : JsMap.t RateLimitRecord.t;
  webAuthnSessions : JsMap.t WebAuthnSession.t
}.

Definition set_userModel (v : UserModel.t) (w : t) : t :=
  mk v (rateLimitCache w) (webAuthnSessions w).

Definition set_rateLimitCache (v : JsMap.t RateLimitRecord.t) (w : t) : t :=
  mk (userModel w) v (webAuthnSessions w).

Definition set_webAuthnSessions (v : JsMap.t WebAuthnSession.t) (w : t) : t :=
  mk (userModel w) (rateLimitCache w) v.

Definition empty : t := mk UserModel.empty JsMap.empty JsMap.empty.
End World.

(** [process.env], as far as the modelled code reads it. *)
Module Env.
Record t : Type := mk {
  OTP_PROVIDER : option string;
  NODE_ENV : option string
}.
End Env.

(** ** [server/src/utils/otp.ts] *)

Module OtpUtils.

(** [process.env.OTP_PROVIDER || 'console'] *)
Definition OTP_PROVIDER (env : Env.t) : string :=
  match Env.OTP_PROVIDER env with
  | Some EmptyString | None => "console"
  | Some s => s
  end.

Definition MAX_OTP_ATTEMPTS : Z := 3.

(** What one call of [createAndSendOtp] gets from outside the program, in
    the order in which it asks. *)
Record Outside : Type := mkOutside {
  (** [new Date()] in [isRateLimited] *)
  clock_isRateLimited : Z;
  (** [generateOtp()] *)
  generateOtp : jsstring;
  (** [uuidv4()] and [new Date()] in [createOtp] *)
  uuidv4 : jsstring;
  clock_createOtp : Z;
  (** [new Date()] in [updateRateLimit] *)
  clock_updateRateLimit : Z;
  (** what [sendOtpViaEmail] and [sendOtpViaSms] would answer *)
  sendOtpViaEmail : bool;
  sendOtpViaSms : bool
}.

(** [isRateLimited(recipient)] *)
Definition isRateLimited (now : Z) (recipient : jsstring)
    (cache : JsMap.t RateLimitRecord.t) : bool * JsMap.t RateLimitRecord.t :=
  match JsMap.get recipient cache with
  | None => (false, cache)
  | Some record =>
      let hourAgo := now - 60 * 60 * 1000 in
      if RateLimitRecord.firstAttempt record <? hourAgo then
        (false, JsMap.delete recipient cache)
      else
        (5 <=? RateLimitRecord.count record, cache)
  end.

(** [updateRateLimit(recipient)] *)
Definition updateRateLimit (now : Z) (recipient : jsstring)
    (cache : JsMap.t RateLimitRecord.t) : JsMap.t RateLimitRecord.t :=
  match JsMap.get recipient cache with
  | None => JsMap.set recipient (RateLimitRecord.mk 1 now now) cache
  | Some record =>
      JsMap.set recipient
        (RateLimitRecord.mk (RateLimitRecord.count record + 1)
                            (RateLimitRecord.firstAttempt record) now)
        cache
  end.

(** [/^[^\s@]+@[^\s@]+\.[^\s@]+$/] *)
Definition emailRegex : regex :=
  Cat (Plus (Cls not_space_at))
      (Cat (chr "@")
           (Cat (Plus (Cls not_space_at))
                (Cat (chr ".") (Plus (Cls not_space_at))))).

(** [isValidEmail(email)] *)
Definition isValidEmail (email : jsstring) : bool := test emailRegex email.

(** [/^\+[1-9]\d{1,14}$/] *)
Definition phoneRegex : regex :=
  Cat (chr "+") (Cat (Cls is_digit19) (Upto 13 (Cls is_digit))).

(** [isValidPhone(phone)] *)
Definition isValidPhone (phone : jsstring) : bool := test phoneRegex phone.

(** The delivery block of [createAndSendOtp]: the value of [sent] when the
    function reaches [if (!sent)]. *)
Definition deliver (env : Env.t) (out : Outside) (method : OtpDeliveryMethod) : bool :=
  let provider := OTP_PROVIDER env in
  let sent := false in
  let sent :=
    if String.eqb provider "console"
       || bool_decide (Env.NODE_ENV env = Some "development"%string)
    then true else sent in
  let sent :=
    if String.eqb provider "sendgrid" && bool_decide (method = EMAIL)
    then sendOtpViaEmail out
    else if String.eqb provider "twilio" && bool_decide (method = SMS)
    then sendOtpViaSms out
    else sent in
  let sent :=
    if negb sent && negb (String.eqb provider "console") then true else sent in
  sent.

(** [createAndSendOtp(recipient, method, purpose, userId)] *)
Definition createAndSendOtp (env : Env.t) (out : Outside)
    (recipient : jsstring) (method : OtpDeliveryMethod) (purpose : jsstring)
    (userId : option jsstring) (w : World.t) : result OtpRecord.t * World.t :=
  if bool_decide (method = EMAIL) && negb (isValidEmail recipient) then
    (Throw "Invalid email format", w)
  else if bool_decide (method = SMS) && negb (isValidPhone recipient) then
    (Throw "Invalid phone number format", w)
  else
    let (limited, cache1) :=
      isRateLimited (clock_isRateLimited out) recipient (World.rateLimitCache w) in
    let w1 := World.set_rateLimitCache cache1 w in
    if limited then
      (Throw "Rate limit exceeded. Please try again later.", w1)
    else
      let w2 :=
        World.set_userModel
          (UserModel.invalidateOtps recipient (World.userModel w1)) w1 in
      let otp := generateOtp out in
      let (otpRecord, um) :=
        UserModel.createOtp (clock_createOtp out) (uuidv4 out) recipient method
                            otp userId (World.userModel w2) in
      let w3 := World.set_userModel um w2 in
      let w4 :=
        World.set_rateLimitCache
          (updateRateLimit (clock_updateRateLimit out) recipient
                           (World.rateLimitCache w3)) w3 in
      if negb (deliver env out method) then
        (* the message of the source also names the recipient and the method *)
        (Throw "Failed to send OTP", w4)
      else
        (Return otpRecord, w4).

(** [verifyOtp(otpId, code)]; [now] is the clock read here, [now'] the one
    read afterwards inside [userModel.verifyOtp]. *)
Definition verifyOtp (now now' : Z) (otpId code : jsstring) (m : UserModel.t)
    : result (option OtpRecord.t) * UserModel.t :=
  match UserModel.getOtpById otpId m with
  | None => (Throw "Invalid OTP ID", m)
  | Some otpRecord =>
      if OtpRecord.expiresAt otpRecord <? now then
        (Return (Some (OtpRecord.with_status EXPIRED otpRecord)), m)
      else if MAX_OTP_ATTEMPTS <=? OtpRecord.attempts otpRecord then
        (Throw "Maximum verification attempts reached", m)
      else
        match UserModel.verifyOtp now' otpId code m with
        | (None, m') => (Throw "Failed to verify OTP", m')
        | (Some verifiedOtp, m') => (Return (Some verifiedOtp), m')
        end
  end.

End OtpUtils.

(** ** HTTP responses *)

Module Http.

(** The JSON body of an error response.  [fallbackToOtp] is [true] when
    the body carries [fallbackToOtp: true]; [attemptsLeft] is the field of
    that name when the body has one.  (The [details] array of a validation
    error comes from the validation library and is not modelled.) *)
Record ErrorBody : Type := mkError {
  error : string;
  message : string;
  fallbackToOtp : bool;
  attemptsLeft : option Z
}.

(** [res.status(200).json(payload)] or [res.status(code).json(errorBody)]. *)
Inductive Response (A : Type) : Type :=
| Ok200 (payload : A)
| Failure (status : Z) (body : ErrorBody).

Arguments Ok200 {A} payload.
Arguments Failure {A} status body.

Definition fail {A : Type} (status : Z) (error message : string) : Response A :=
  Failure status (mkError error message false None).

Definition fail_fallback {A : Type} (status : Z) (error message : string)
    : Response A :=
  Failure status (mkError error message true None).

Definition status_of {A : Type} (r : Response A) : Z :=
  match r with
  | Ok200 _ => 200
  | Failure status _ => status
  end.

End Http.

Import Http.

(** [m || d] for an error message. *)
Definition message_or (m d : string) : string :=
  match m with
  | EmptyString => d
  | _ => m
  end.

(** ** [server/src/routes/webauthn.ts] *)

Module WebAuthnRoutes.

(** The client's credential payload, as far as the handlers read it; the
    rest goes to the verifier untouched. *)
Module Credential.
Record t : Type := mk {
  id : jsstring;
  transports : option (list jsstring)
}.
End Credential.

(** [registrationInfo] of a [VerifiedRegistrationResponse]; the two binary
    fields are kept in the base64url form [isoBase64URL.fromBuffer] gives
    them. *)
Module RegistrationInfo.
Record t : Type := mk {
  credentialID : jsstring;
  credentialPublicKey : jsstring;
  counter : Z
}.
End RegistrationInfo.

Module VerifiedRegistrationResponse.
Record t : Type := mk {
  verified : bool;
  registrationInfo : option RegistrationInfo.t
}.
End VerifiedRegistrationResponse.

Module AuthenticationInfo.
Record t : Type := mk {
  newCounter : Z
}.
End AuthenticationInfo.

Module VerifiedAuthenticationResponse.
Record t : Type := mk {
  verified : bool;
  authenticationInfo : option AuthenticationInfo.t
}.
End VerifiedAuthenticationResponse.

(** What a handler gets from outside the program.  Every handler uses the
    fields it needs, in the order of the source. *)
Record Outside : Type := mkOutside {
  (** [validationResult(req).isEmpty()] *)
  valid : bool;
  (** whether the [isoBase64URL.toBuffer] calls on stored strings return *)
  toBuffer : result unit;
  (** the [challenge] of [generateRegistrationOptions] or
      [generateAuthenticationOptions] *)
  generateOptions : result jsstring;
  (** [uuidv4()] and [Date.now()] for the new session *)
  uuidv4 : jsstring;
  clock_session : Z;
  (** [isoBase64URL.fromBuffer(credential.id)] *)
  fromBuffer : result jsstring;
  (** [verifyRegistrationResponse(verifyOptions)] *)
  verifyRegistrationResponse : result VerifiedRegistrationResponse.t;
  (** [verifyAuthenticationResponse(verifyOptions)] *)
  verifyAuthenticationResponse : result VerifiedAuthenticationResponse.t;
  (** [new Date()] in [storeWebAuthnCredential] or
      [updateWebAuthnCredentialCounter] *)
  clock_credential : Z;
  (** [new Date()] in [addAuthMethod] or [updateLastLogin] *)
  clock_user : Z;
  (** [authUtils.generateToken(user, AuthMethod.WEBAUTHN)] *)
  generateToken : result jsstring
}.

Module RegisterOk.
Record t : Type := mk { sessionId : jsstring; challenge : jsstring }.
End RegisterOk.

Module VerifyRegistrationOk.
Record t : Type := mk { credentialId : jsstring }.
End VerifyRegistrationOk.

Module VerifyAuthenticationOk.
Record t : Type := mk { token : jsstring; user : User.t }.
End VerifyAuthenticationOk.

(** The callback of [setInterval]: drop the sessions that expired. *)
Definition sweep (now : Z) (w : World.t) : World.t :=
  World.set_webAuthnSessions
    (JsMap.forEach_delete (fun session => WebAuthnSession.expires session <? now)
                          (World.webAuthnSessions w))
    w.

(** [POST /register], after [authUtils.authenticate] has put the token's
    payload in the request; [authenticatedUserId] is its [id]. *)
Definition register (out : Outside) (userId authenticatedUserId : jsstring)
    (w : World.t) : Response RegisterOk.t * World.t :=
  if negb (valid out) then
    (fail 400 "Validation Error" "Invalid request data", w)
  else if bool_decide (userId ≠ authenticatedUserId) then
    (fail 403 "Forbidden"
          "You can only register WebAuthn credentials for your own account", w)
  else
    match UserModel.getUserById userId (World.userModel w) with
    | None => (fail 404 "Not Found" "User not found", w)
    | Some user =>
        let existingCredentials :=
          UserModel.getWebAuthnCredentialsByUserId userId (World.userModel w) in
        let excludeCredentials :=
          match existingCredentials with
          | [] => Return tt
          | _ :: _ => toBuffer out
          end in
        match excludeCredentials, generateOptions out with
        | Return _, Return challenge =>
            let sessionId := uuidv4 out in
            let session :=
              WebAuthnSession.mk challenge (Some userId) None None
                (clock_session out + 10 * 60 * 1000) (Some Preferred) in
            (Ok200 (RegisterOk.mk sessionId challenge),
             World.set_webAuthnSessions
               (JsMap.set sessionId session (World.webAuthnSessions w)) w)
        | _, _ =>
            (fail 500 "Internal Server Error"
                  "Failed to generate registration options", w)
        end
    end.

(** [POST /verify-registration].  A session without [userId] finds no
    user: [users.get(undefined)] is [undefined]. *)
Definition verifyRegistration (out : Outside) (sessionId : jsstring)
    (credential : Credential.t) (w : World.t)
    : Response VerifyRegistrationOk.t * World.t :=
  if negb (valid out) then
    (fail 400 "Validation Error" "Invalid request data", w)
  else
    match JsMap.get sessionId (World.webAuthnSessions w) with
    | None =>
        (fail 400 "Invalid Session" "Registration session not found or expired", w)
    | Some session =>
        match WebAuthnSession.userId session with
        | None => (fail 404 "Not Found" "User not found", w)
        | Some userId =>
        match UserModel.getUserById userId (World.userModel w) with
        | None => (fail 404 "Not Found" "User not found", w)
        | Some user =>
            match verifyRegistrationResponse out with
            | Throw message =>
                (fail 400 "Verification Error"
                      (message_or message "Failed to verify registration"), w)
            | Return verification =>
                match VerifiedRegistrationResponse.verified verification,
                      VerifiedRegistrationResponse.registrationInfo verification
                with
                | true, Some registrationInfo =>
                    let (credentialRecord, um1) :=
                      UserModel.storeWebAuthnCredential
                        (clock_credential out) (uuidv4 out)
                        (WebAuthnCredential.mk [] userId
                           (RegistrationInfo.credentialID registrationInfo)
                           (RegistrationInfo.credentialPublicKey registrationInfo)
                           (RegistrationInfo.counter registrationInfo)
                           (default [] (Credential.transports credential))
                           (Some (js "platform")) 0 None)
                        (World.userModel w) in
                    let sessions :=
                      JsMap.delete sessionId (World.webAuthnSessions w) in
                    let um2 :=
                      snd (UserModel.addAuthMethod (clock_user out) userId
                                                   AuthWEBAUTHN um1) in
                    (Ok200 (VerifyRegistrationOk.mk
                              (WebAuthnCredential.credentialId credentialRecord)),
                     World.set_webAuthnSessions sessions
                       (World.set_userModel um2 w))
                | _, _ =>
                    (fail 400 "Verification Error"
                          "Registration verification failed", w)
                end
            end
        end
        end
    end.

Section WithLowerCase.

Variable toLowerCase : jsstring -> jsstring.

(** [POST /authenticate] *)
Definition authenticate (out : Outside) (email phone : option jsstring)
    (w : World.t) : Response RegisterOk.t * World.t :=
  if negb (valid out) then
    (fail 400 "Validation Error" "Invalid request data", w)
  else if negb (truthy_opt email) && negb (truthy_opt phone) then
    (fail 400 "Validation Error" "Either email or phone is required", w)
  else
    let user :=
      if truthy_opt email
      then UserModel.getUserByEmail toLowerCase (default [] email) (World.userModel w)
      else UserModel.getUserByPhone (default [] phone) (World.userModel w) in
    match user with
    | None =>
        (fail 404 "Not Found"
              (if truthy_opt email
               then "No account found with this email"
               else "No account found with this phone number"), w)
    | Some user =>
        let credentials :=
          UserModel.getWebAuthnCredentialsByUserId (User.id user)
                                                   (World.userModel w) in
        match credentials with
        | [] =>
            (fail_fallback 400 "Authentication Error"
                           "No WebAuthn credentials found for this user", w)
        | _ :: _ =>
            match toBuffer out, generateOptions out with
            | Return _, Return challenge =>
                let sessionId := uuidv4 out in
                let session :=
                  WebAuthnSession.mk challenge (Some (User.id user))
                    (User.email user) (User.phone user)
                    (clock_session out + 10 * 60 * 1000) (Some Preferred) in
                (Ok200 (RegisterOk.mk sessionId challenge),
                 World.set_webAuthnSessions
                   (JsMap.set sessionId session (World.webAuthnSessions w)) w)
            | _, _ =>
                (fail 500 "Internal Server Error"
                      "Failed to generate authentication options", w)
            end
        end
    end.

End WithLowerCase.

(** [POST /verify-authentication] *)
Definition verifyAuthentication (out : Outside) (sessionId : jsstring)
    (credential : Credential.t) (w : World.t)
    : Response VerifyAuthenticationOk.t * World.t :=
  let internal :=
    fail 500 "Internal Server Error" "Failed to verify authentication" in
  if negb (valid out) then
    (fail 400 "Validation Error" "Invalid request data", w)
  else
    match JsMap.get sessionId (World.webAuthnSessions w) with
    | None =>
        (fail 400 "Invalid Session" "Authentication session not found or expired", w)
    | Some session =>
        match WebAuthnSession.userId session with
        | None => (fail 404 "Not Found" "User not found", w)
        | Some userId =>
        match UserModel.getUserById userId (World.userModel w) with
        | None => (fail 404 "Not Found" "User not found", w)
        | Some user =>
        match fromBuffer out with
        | Throw _ => (internal, w)
        | Return credentialId =>
        match UserModel.getWebAuthnCredentialByCredentialId
                credentialId (World.userModel w) with
        | None =>
            (fail_fallback 400 "Authentication Error" "Unknown credential", w)
        | Some storedCredential =>
            if bool_decide (WebAuthnCredential.userId storedCredential ≠ User.id user)
            then
              (fail 403 "Forbidden" "Credential does not belong to this user", w)
            else
              match toBuffer out with
              | Throw _ => (internal, w)
              | Return _ =>
              match verifyAuthenticationResponse out with
              | Throw message =>
                  (fail_fallback 400 "Verification Error"
                     (message_or message "Failed to verify authentication"), w)
              | Return verification =>
                  match VerifiedAuthenticationResponse.verified verification,
                        VerifiedAuthenticationResponse.authenticationInfo verification
                  with
                  | true, Some authenticationInfo =>
                      let um1 :=
                        snd (UserModel.updateWebAuthnCredentialCounter
                               (clock_credential out)
                               (WebAuthnCredential.id storedCredential)
                               (AuthenticationInfo.newCounter authenticationInfo)
                               (World.userModel w)) in
                      let um2 :=
                        snd (UserModel.updateLastLogin (clock_user out)
                                                       (User.id user) um1) in
                      let w2 := World.set_userModel um2 w in
                      match generateToken out with
                      | Throw _ => (internal, w2)
                      | Return token =>
                          (Ok200 (VerifyAuthenticationOk.mk token user),
                           World.set_webAuthnSessions
                             (JsMap.delete sessionId (World.webAuthnSessions w2))
                             w2)
                      end
                  | _, _ =>
                      (fail_fallback 400 "Verification Error"
                                     "Authentication verification failed", w)
                  end
              end
              end
        end
        end
        end
        end
    end.

(** The credential as [GET /credentials] shows it: no keys, no counter. *)
Module CredentialSummary.
Record t : Type := mk {
  id : jsstring;
  credentialId : jsstring;
  deviceType : option jsstring;
  createdAt : Z;
  lastUsed : option Z
}.
End CredentialSummary.

(** [GET /credentials], after [authUtils.authenticate]; [userId] is the
    [id] of the token's payload. *)
Definition getCredentials (userId : jsstring) (w : World.t)
    : Response (list CredentialSummary.t) :=
  Ok200
    (map (fun cred =>
            CredentialSummary.mk (WebAuthnCredential.id cred)
              (WebAuthnCredential.credentialId cred)
              (WebAuthnCredential.deviceType cred)
              (WebAuthnCredential.createdAt cred)
              (WebAuthnCredential.lastUsed cred))
         (UserModel.getWebAuthnCredentialsByUserId userId (World.userModel w))).

(** [DELETE /credentials/:id], after [authUtils.authenticate]; [now] is
    the clock read of [deleteWebAuthnCredential]. *)
Definition deleteCredential (now : Z) (userId credentialId : jsstring)
    (w : World.t) : Response unit * World.t :=
  match UserModel.getWebAuthnCredentialById credentialId (World.userModel w) with
  | None => (fail 404 "Not Found" "Credential not found", w)
  | Some credential =>
      if bool_decide (WebAuthnCredential.userId credential <> userId) then
        (fail 403 "Forbidden" "You can only delete your own credentials", w)
      else
        (Ok200 tt,
         World.set_userModel
           (snd (UserModel.deleteWebAuthnCredential now credentialId
                                                    (World.userModel w))) w)
  end.

(** [out], with a verifier that accepts the assertion and reports the
    signature counter [n]. *)
Definition reporting (n : Z) (out : Outside) : Outside :=
  mkOutside (valid out) (toBuffer out) (generateOptions out) (uuidv4 out)
    (clock_session out) (fromBuffer out) (verifyRegistrationResponse out)
    (Return (VerifiedAuthenticationResponse.mk true
               (Some (AuthenticationInfo.mk n))))
    (clock_credential out) (clock_user out) (generateToken out).

(** *** The life of the session store

    Only the four handlers above and the sweep touch [webAuthnSessions];
    everything else in the server can change the user store and the rate
    limit cache, but not the sessions. *)

Inductive Event : Type :=
| ERegister (out : Outside) (userId authenticatedUserId : jsstring)
| EVerifyRegistration (out : Outside) (sessionId : jsstring)
                      (credential : Credential.t)
| EAuthenticate (out : Outside) (email phone : option jsstring)
| EVerifyAuthentication (out : Outside) (sessionId : jsstring)
                        (credential : Credential.t)
| ESweep (now : Z)
| EElsewhere (userModel : UserModel.t)
             (rateLimitCache : JsMap.t RateLimitRecord.t).

Section Events.

Variable toLowerCase : jsstring -> jsstring.

Definition apply_event (e : Event) (w : World.t) : World.t :=
  match e with
  | ERegister out userId authenticatedUserId =>
      snd (register out userId authenticatedUserId w)
  | EVerifyRegistration out sessionId credential =>
      snd (verifyRegistration out sessionId credential w)
  | EAuthenticate out email phone =>
      snd (authenticate toLowerCase out email phone w)
  | EVerifyAuthentication out sessionId credential =>
      snd (verifyAuthentication out sessionId credential w)
  | ESweep now => sweep now w
  | EElsewhere userModel rateLimitCache =>
      World.set_rateLimitCache rateLimitCache (World.set_userModel userModel w)
  end.

Definition run (events : list Event) (w : World.t) : World.t :=
  fold_left (fun w e => apply_event e w) events w.

End Events.

(** The session id an event may create. *)
Definition new_session_id (e : Event) : option jsstring :=
  match e with
  | ERegister out _ _ | EAuthenticate out _ _ => Some (uuidv4 out)
  | _ => None
  end.

End WebAuthnRoutes.

(** ** [server/src/routes/auth.ts] *)

Module AuthRoutes.

(** What the two handlers get from outside the program. *)
Record Outside : Type := mkOutside {
  (** [validationResult(req).isEmpty()] *)
  valid : bool;
  (** for [otpUtils.createAndSendOtp] *)
  issue : OtpUtils.Outside;
  (** the two clock reads of [otpUtils.verifyOtp] *)
  clock_verifyOtp : Z;
  clock_userModel_verifyOtp : Z;
  (** [uuidv4()] and [new Date()] in [createUser] *)
  uuidv4 : jsstring;
  clock_createUser : Z;
  (** [new Date()] in [verifyEmail] or [verifyPhone] *)
  clock_verifyContact : Z;
  (** [didUtils.generateDID()]: the [did] and the [didDocument] *)
  generateDID : result (jsstring * option jsstring);
  clock_setUserDid : Z;
  clock_updateLastLogin : Z;
  (** [authUtils.generateToken(user, authMethod)] *)
  generateToken : result jsstring;
  (** [req.headers['user-agent']] *)
  userAgent : option jsstring
}.

Module RequestOtpOk.
Record t : Type := mk {
  otpId : jsstring;
  expiresAt : Z;
  method : OtpDeliveryMethod
}.
End RequestOtpOk.

Module VerifyOtpOk.
Record t : Type := mk {
  token : jsstring;
  user : User.t;
  isNewUser : bool;
  supportsWebAuthn : option bool
}.
End VerifyOtpOk.

Section WithLowerCase.

Variable toLowerCase : jsstring -> jsstring.
Variable env : Env.t.

(** The [catch] of [POST /request-otp]. *)
Definition requestOtp_catch (message : string) : Response RequestOtpOk.t :=
  if String.eqb message "Rate limit exceeded. Please try again later." then
    fail 429 "Too Many Requests" message
  else
    fail 500 "Internal Server Error" "Failed to send OTP. Please try again later.".

(** [POST /request-otp] *)
Definition requestOtp (out : Outside) (email phone : option jsstring)
    (purpose : jsstring) (w : World.t) : Response RequestOtpOk.t * World.t :=
  if negb (valid out) then
    (fail 400 "Validation Error" "Invalid request data", w)
  else if negb (truthy_opt email) && negb (truthy_opt phone) then
    (fail 400 "Validation Error" "Either email or phone is required", w)
  else if truthy_opt email && truthy_opt phone then
    (fail 400 "Validation Error" "Provide either email or phone, not both", w)
  else
    let method := if truthy_opt email then EMAIL else SMS in
    let recipient := if truthy_opt email then default [] email else default [] phone in
    let lookup :=
      if truthy_opt email
      then UserModel.getUserByEmail toLowerCase recipient (World.userModel w)
      else UserModel.getUserByPhone recipient (World.userModel w) in
    let send (userId : option jsstring) :=
      match OtpUtils.createAndSendOtp env (issue out) recipient method purpose
                                      userId w with
      | (Return otpRecord, w') =>
          (Ok200 (RequestOtpOk.mk (OtpRecord.id otpRecord)
                                  (OtpRecord.expiresAt otpRecord) method), w')
      | (Throw message, w') => (requestOtp_catch message, w')
      end in
    if bool_decide (purpose = js "login") then
      match lookup with
      | None =>
          (fail 404 "Not Found"
                (if truthy_opt email
                 then "No account found with this email. Please register first."
                 else "No account found with this phone number. Please register first."),
           w)
      | Some user => send (Some (User.id user))
      end
    else if bool_decide (purpose = js "registration") then
      match lookup with
      | Some existingUser =>
          (fail 409 "Conflict"
                (if truthy_opt email
                 then "Account with this email already exists. Please login instead."
                 else "Account with this phone number already exists. Please login instead."),
           w)
      | None => send None
      end
    else send None.

(** The [catch] of [POST /verify-otp]. *)
Definition verifyOtp_catch : Response VerifyOtpOk.t :=
  fail 500 "Internal Server Error" "Failed to verify OTP. Please try again later.".

(** [req.headers['user-agent']?.includes('Chrome') || ...] *)
Definition supportsWebAuthn (userAgent : option jsstring) : option bool :=
  match userAgent with
  | None => None
  | Some ua =>
      Some (includes (js "Chrome") ua || includes (js "Firefox") ua
            || includes (js "Safari") ua)
  end.

(** The end of [POST /verify-otp]: last login, token, response. *)
Definition verifyOtp_login (out : Outside) (user : User.t)
    (authMethod : AuthMethod) (isNewUser : bool) (m : UserModel.t)
    : Response VerifyOtpOk.t * UserModel.t :=
  let m1 := snd (UserModel.updateLastLogin (clock_updateLastLogin out)
                                           (User.id user) m) in
  match generateToken out with
  | Throw _ => (verifyOtp_catch, m1)
  | Return token =>
      (Ok200 (VerifyOtpOk.mk token user isNewUser
                             (supportsWebAuthn (userAgent out))), m1)
  end.

(** [POST /verify-otp] *)
Definition verifyOtp (out : Outside) (otpId code : jsstring)
    (registerUser : bool) (name : option jsstring) (w : World.t)
    : Response VerifyOtpOk.t * World.t :=
  if negb (valid out) then
    (fail 400 "Validation Error" "Invalid request data", w)
  else
    let back (r : Response VerifyOtpOk.t * UserModel.t) :=
      (fst r, World.set_userModel (snd r) w) in
    match OtpUtils.verifyOtp (clock_verifyOtp out) (clock_userModel_verifyOtp out)
                             otpId code (World.userModel w) with
    | (Throw _, m) => back (verifyOtp_catch, m)
    | (Return None, m) => back (fail 400 "Verification Error" "Invalid OTP ID", m)
    | (Return (Some otpRecord), m) =>
        if bool_decide (OtpRecord.status otpRecord = EXPIRED) then
          back (fail 400 "Verification Error"
                     "OTP has expired. Please request a new one.", m)
        else if bool_decide (OtpRecord.status otpRecord ≠ VERIFIED) then
          back (Failure 400
                  (mkError "Verification Error" "Invalid OTP code" false
                     (Some (OtpRecord.maxAttempts otpRecord
                            - OtpRecord.attempts otpRecord))), m)
        else
          let byEmail := bool_decide (OtpRecord.method otpRecord = EMAIL) in
          let authMethod := if byEmail then AuthEMAIL else AuthPHONE in
          if truthy_opt (OtpRecord.userId otpRecord) then
            match UserModel.getUserById (default [] (OtpRecord.userId otpRecord)) m with
            | None => back (fail 404 "Not Found" "User not found", m)
            | Some user => back (verifyOtp_login out user authMethod false m)
            end
          else
            let recipient := OtpRecord.recipient otpRecord in
            let found :=
              if byEmail
              then UserModel.getUserByEmail toLowerCase recipient m
              else UserModel.getUserByPhone recipient m in
            match found with
            | Some user => back (verifyOtp_login out user authMethod false m)
            | None =>
                if registerUser then
                  if negb (truthy_opt name) then
                    back (fail 400 "Validation Error"
                               "Name is required for registration", m)
                  else
                    let userProfile :=
                      UserProfile.mk (default [] name)
                        (if byEmail then Some recipient else None)
                        (if byEmail then None else Some recipient)
                        (clock_createUser out) (clock_createUser out) in
                    match UserModel.createUser toLowerCase (clock_createUser out)
                            (uuidv4 out) userProfile authMethod m with
                    | (Throw _, m1) => back (verifyOtp_catch, m1)
                    | (Return user, m1) =>
                        let m2 :=
                          if byEmail
                          then snd (UserModel.verifyEmail (clock_verifyContact out)
                                                          (User.id user) m1)
                          else snd (UserModel.verifyPhone (clock_verifyContact out)
                                                          (User.id user) m1) in
                        let m3 :=
                          match generateDID out with
                          | Return (did, didDocument) =>
                              snd (UserModel.setUserDid (clock_setUserDid out)
                                     (User.id user) did didDocument m2)
                          | Throw _ => m2
                          end in
                        back (verifyOtp_login out user authMethod true m3)
                    end
                else
                  back (fail 404 "Not Found"
                          (if byEmail
                           then "No account found with this email. Please register first."
                           else "No account found with this phone number. Please register first."),
                        m)
            end
    end.

End WithLowerCase.

End AuthRoutes.

(** ** Runs of requests, and the data of the examples *)

Module Run.

(** One issuance request for a recipient: the arguments of
    [createAndSendOtp] other than the recipient, and what the call gets
    from outside. *)
Record Issue : Type := mkIssue {
  out : OtpUtils.Outside;
  method : OtpDeliveryMethod;
  purpose : jsstring;
  userId : option jsstring
}.

(** [createAndSendOtp] for the request [r]. *)
Definition issue (env : Env.t) (recipient : jsstring) (r : Issue) (w : World.t)
    : result OtpRecord.t * World.t :=
  OtpUtils.createAndSendOtp env (out r) recipient (method r) (purpose r)
                            (userId r) w.

(** The requests of [rs], one after the other, for the same recipient. *)
Fixpoint issues (env : Env.t) (recipient : jsstring) (rs : list Issue)
    (w : World.t) : list (result OtpRecord.t) * World.t :=
  match rs with
  | [] => ([], w)
  | r :: rs' =>
      let (res, w1) := issue env recipient r w in
      let (ress, w2) := issues env recipient rs' w1 in
      (res :: ress, w2)
  end.

(** The recipient has the shape its channel asks for. *)
Definition valid_recipient (recipient : jsstring) (method : OtpDeliveryMethod)
    : bool :=
  match method with
  | EMAIL => OtpUtils.isValidEmail recipient
  | SMS => OtpUtils.isValidPhone recipient
  end.

(** The recipient has no rate limit window at [now], or one that
    [isRateLimited] would drop. *)
Definition no_window (now : Z) (recipient : jsstring)
    (cache : JsMap.t RateLimitRecord.t) : Prop :=
  match JsMap.get recipient cache with
  | None => True
  | Some record => RateLimitRecord.firstAttempt record < now - 60 * 60 * 1000
  end.

(** The wrong answers to a verify call that found a record and threw or
    returned nothing are all alike; this is the status of the record a
    verify call returned, if it returned one. *)
Definition returned_status (r : result (option OtpRecord.t)) : option OtpStatus :=
  match r with
  | Return (Some otp) => Some (OtpRecord.status otp)
  | _ => None
  end.

(** The attestation verifier did not accept: it threw, or answered
    [verified: false], or gave no [registrationInfo]. *)
Definition attestation_failed
    (r : result WebAuthnRoutes.VerifiedRegistrationResponse.t) : Prop :=
  match r with
  | Throw _ => True
  | Return v =>
      WebAuthnRoutes.VerifiedRegistrationResponse.verified v = false
      \/ WebAuthnRoutes.VerifiedRegistrationResponse.registrationInfo v = None
  end.

(** An entry of the credential store whose key is the [id] of the
    credential. *)
Definition filed_under_id (kv : jsstring * WebAuthnCredential.t) : Prop :=
  WebAuthnCredential.id (snd kv) = fst kv.

(** The credential store is a [Map] and files every credential under its
    own [id], as [storeWebAuthnCredential] does. *)
Definition credentials_ok (m : UserModel.t) : Prop :=
  JsMap.wf (UserModel.webauthnCredentials m)
  /\ Forall filed_under_id (UserModel.webauthnCredentials m).

End Run.

Module Example.

Definition env : Env.t := Env.mk None None.

(** Lower case for the ASCII letters, enough for the examples. *)
Definition toLowerCase (s : jsstring) : jsstring :=
  map (fun c => if ((65 <=? c) && (c <=? 90))%N then (c + 32)%N else c) s.

Definition ada : jsstring := js "ada@example.org".

(** An issuance at time [t] that draws the record id [id] and the code
    [code]. *)
Definition issue_at (t : Z) (id code : string) : Run.Issue :=
  Run.mkIssue (OtpUtils.mkOutside t (js code) (js id) t t true true)
              EMAIL (js "login") None.

(** The store after a first issuance to [ada], at time 1000. *)
Definition issued_once : World.t :=
  snd (Run.issue env ada (issue_at 1000 "otp-1" "111111") World.empty).

(** ... and after a second one, at time 2000. *)
Definition issued_twice : World.t :=
  snd (Run.issue env ada (issue_at 2000 "otp-2" "222222") issued_once).

(** The store after five issuances to [ada], one minute apart. *)
Definition issued_five : World.t :=
  snd (Run.issues env ada
         [issue_at 1000 "otp-1" "111111"; issue_at 61000 "otp-2" "222222";
          issue_at 121000 "otp-3" "333333"; issue_at 181000 "otp-4" "444444";
          issue_at 241000 "otp-5" "555555"] World.empty).

(** A verify call on the first record with a code that was never issued. *)
Definition wrong_guess (t : Z) (m : UserModel.t) : UserModel.t :=
  snd (OtpUtils.verifyOtp t t (js "otp-1") (js "000000") m).

(** The user store after one issuance and three wrong guesses. *)
Definition struck_out : UserModel.t :=
  wrong_guess 5000 (wrong_guess 4000 (wrong_guess 3000 (World.userModel issued_once))).

(** The first record as [createOtp] made it, and after the three guesses. *)
Definition first_record : OtpRecord.t :=
  OtpRecord.mk (js "otp-1") None ada (js "111111") EMAIL PENDING 0 3
               1000 601000 None.

Definition first_record_struck_out : OtpRecord.t :=
  OtpRecord.mk (js "otp-1") None ada (js "111111") EMAIL INVALID 3 3
               1000 601000 None.

(** What the handlers of [routes/auth.ts] get from outside in the
    examples: every clock reads [t], a new account gets the id [id]. *)
Definition auth_outside (t : Z) (id otpId code : string) : AuthRoutes.Outside :=
  AuthRoutes.mkOutside true
    (OtpUtils.mkOutside t (js code) (js otpId) t t true true)
    t t (js id) t t
    (Return (js "did:key:z6Mk", None)) t t (Return (js "token"))
    (Some (js "Mozilla/5.0 Chrome/120")).

(** *** A WebAuthn enrolment and a login *)

(** What the handlers of the example get from outside: the session or
    credential id [id], the time [t], and a verifier that accepts and
    reports the signature counter [n]. *)
Definition outside (id : string) (t n : Z) : WebAuthnRoutes.Outside :=
  WebAuthnRoutes.mkOutside true (Return tt) (Return (js "challenge")) (js id) t
    (Return (js "AAAA"))
    (Return (WebAuthnRoutes.VerifiedRegistrationResponse.mk true
               (Some (WebAuthnRoutes.RegistrationInfo.mk (js "AAAA") (js "BBBB") n))))
    (Return (WebAuthnRoutes.VerifiedAuthenticationResponse.mk true
               (Some (WebAuthnRoutes.AuthenticationInfo.mk n))))
    t t (Return (js "token")).

Definition credential : WebAuthnRoutes.Credential.t :=
  WebAuthnRoutes.Credential.mk (js "AAAA") None.

(** The account of the examples, as [createUser] makes it and as it is
    after the enrolment below. *)
Definition ada_created : User.t :=
  User.mk (js "user-1") (js "Ada") (Some ada) None 100 100 None None
          [AuthEMAIL] false false None.

Definition ada_enrolled : User.t :=
  User.mk (js "user-1") (js "Ada") (Some ada) None 100 300 None None
          [AuthEMAIL; AuthWEBAUTHN] false false None.

(** One account. *)
Definition registered : World.t :=
  World.set_userModel
    (snd (UserModel.createUser toLowerCase 100 (js "user-1")
            (UserProfile.mk (js "Ada") (Some ada) None 100 100) AuthEMAIL
            UserModel.empty))
    World.empty.

(** The account starts a registration ceremony ... *)
Definition registering : World.t :=
  snd (WebAuthnRoutes.register (outside "session-1" 200 0) (js "user-1")
                               (js "user-1") registered).

(** ... and completes it, with an authenticator whose counter is 0. *)
Definition enrolled : World.t :=
  snd (WebAuthnRoutes.verifyRegistration (outside "credential-1" 300 0)
                                         (js "session-1") credential registering).

(** The account starts an authentication ceremony ... *)
Definition authenticating : World.t :=
  snd (WebAuthnRoutes.authenticate toLowerCase (outside "session-2" 400 0)
                                   (Some ada) None enrolled).

(** ... and completes it; the authenticator reports the counter 0 again. *)
Definition authenticated : World.t :=
  snd (WebAuthnRoutes.verifyAuthentication (outside "unused" 500 0)
                                           (js "session-2") credential
                                           authenticating).

End Example.

(** ** Statements of the specification that the code does not meet, as
    the specification words them *)

Module Stated.

(** "After a failed verification attempt that does not exhaust the attempt
    limit, the stored status stays pending." *)
Definition failed_attempt_stays_pending : Prop :=
  forall (m : UserModel.t) (id code : jsstring) (now : Z) (otp : OtpRecord.t),
    JsMap.get id (UserModel.otpRecords m) = Some otp ->
    OtpRecord.status otp = PENDING ->
    now <= OtpRecord.expiresAt otp ->
    OtpRecord.attempts otp + 1 < OtpRecord.maxAttempts otp ->
    code <> OtpRecord.code otp ->
    OtpRecord.status
      <$> JsMap.get id (UserModel.otpRecords (snd (UserModel.verifyOtp now id code m)))
    = Some PENDING.

(** "After every successful WebAuthn authentication completion, the stored
    signature counter of the used credential equals the verifier-reported
    new counter and is strictly greater than the previously stored
    counter."  The assertion is one the verifier accepted, in a session
    used once. *)
Definition counter_strictly_increases : Prop :=
  forall (out : WebAuthnRoutes.Outside) (sessionId credentialId : jsstring)
         (credential : WebAuthnRoutes.Credential.t) (w w' : World.t)
         (payload : WebAuthnRoutes.VerifyAuthenticationOk.t)
         (stored : WebAuthnCredential.t) (info : WebAuthnRoutes.AuthenticationInfo.t),
    Run.credentials_ok (World.userModel w) ->
    WebAuthnRoutes.verifyAuthentication out sessionId credential w
    = (Ok200 payload, w') ->
    WebAuthnRoutes.fromBuffer out = Return credentialId ->
    UserModel.getWebAuthnCredentialByCredentialId credentialId (World.userModel w)
    = Some stored ->
    WebAuthnRoutes.verifyAuthenticationResponse out
    = Return (WebAuthnRoutes.VerifiedAuthenticationResponse.mk true (Some info)) ->
    exists updated,
      UserModel.getWebAuthnCredentialById (WebAuthnCredential.id stored)
                                          (World.userModel w')
      = Some updated
      /\ WebAuthnCredential.counter updated
         = WebAuthnRoutes.AuthenticationInfo.newCounter info
      /\ WebAuthnCredential.counter stored < WebAuthnCredential.counter updated.

End Stated.

(** ** Invariants of the stores *)

Module Inv.

(** A rate limit window has counted between one and five issuances. *)
Definition window_ok (kv : jsstring * RateLimitRecord.t) : Prop :=
  1 <= RateLimitRecord.count (snd kv) <= 5.

Definition windows_ok (cache : JsMap.t RateLimitRecord.t) : Prop :=
  Forall window_ok cache.

(** An OTP record is filed under its [id], allows three attempts, has
    used between none and three of them and expires ten minutes after it
    was created. *)
Definition otp_ok (kv : jsstring * OtpRecord.t) : Prop :=
  OtpRecord.id (snd kv) = fst kv
  /\ OtpRecord.maxAttempts (snd kv) = 3
  /\ 0 <= OtpRecord.attempts (snd kv) <= 3
  /\ OtpRecord.expiresAt (snd kv) = OtpRecord.createdAt (snd kv) + 600000.

Definition records_ok (m : UserModel.t) : Prop :=
  Forall otp_ok (UserModel.otpRecords m).

End Inv.

(** ** [server/src/utils/did.ts]: the pure part *)

Module DidUtils.

(** A [Buffer]. *)
Abbreviation Buffer := (list Byte.byte).

Definition base58Chars : jsstring :=
  js "123456789ABCDEFGHJKLMNPQRSTUVWXYZabcdefghijkmnopqrstuvwxyz".

(** The first loop of [encodeBase58]: the buffer as a big-endian number. *)
Definition toBigInt (buffer : Buffer) : N :=
  fold_left (fun num byte => N.shiftl num 8 + Byte.to_N byte)%N buffer 0%N.

(** The [while (num > 0)] loop, for at most [fuel] rounds. *)
Fixpoint digits (fuel : nat) (num : N) (result : jsstring) : jsstring :=
  match fuel with
  | O => result
  | S fuel' =>
      if (0 <? num)%N then
        let remainder := (num mod 58)%N in
        digits fuel' (num / 58)%N (index base58Chars remainder ++ result)
      else result
  end.

(** The last loop: one ['1'] for every leading zero byte. *)
Fixpoint leadingOnes (buffer : Buffer) (result : jsstring) : jsstring :=
  match buffer with
  | byte :: rest =>
      if (Byte.to_N byte =? 0)%N then leadingOnes rest (js "1" ++ result)
      else result
  | [] => result
  end.

(** [encodeBase58(buffer)]; a number of [n] bits is used up after at most
    [n] divisions by 58. *)
Definition encodeBase58 (buffer : Buffer) : jsstring :=
  let num := toBigInt buffer in
  let result := digits (N.to_nat (N.size num)) num [] in
  leadingOnes buffer result.

(** [encodeMultibase(buffer, prefix = 'z')] *)
Definition encodeMultibase (buffer : Buffer) (prefix : option jsstring) : jsstring :=
  default (js "z") prefix ++ encodeBase58 buffer.

(** A value returned, or the message of the [Error] thrown; the messages
    of this file quote their argument. *)
Inductive outcome (A : Type) : Type :=
| Returned (a : A)
| Thrown (message : jsstring).

Arguments Returned {A} a.
Arguments Thrown {A} message.

(** The multicodec prefix of a supported key type. *)
Definition multicodec (keyType : jsstring) : option Buffer :=
  if bool_decide (keyType = js "ed25519") then Some [Byte.xed; Byte.x01]
  else if bool_decide (keyType = js "secp256k1") then Some [Byte.xe7; Byte.x01]
  else None.

(** [publicKeyToDIDKey(publicKey, keyType = 'ed25519')] *)
Definition publicKeyToDIDKey (publicKey : Buffer) (keyType : option jsstring)
    : outcome jsstring :=
  let keyType := default (js "ed25519") keyType in
  match multicodec keyType with
  | Some prefix =>
      let multicodecKey := prefix ++ publicKey in
      let multibaseEncoded := encodeMultibase multicodecKey None in
      Returned (js "did:key:" ++ multibaseEncoded)
  | None => Thrown (js "Unsupported key type: " ++ keyType)
  end.

(** [createHederaDID(accountId, network = 'testnet')] *)
Definition createHederaDID (accountId : jsstring) (network : option jsstring)
    : jsstring :=
  js "did:hedera:" ++ default (js "testnet") network ++ js ":" ++ accountId.

(** [isValidDID(did)] *)
Definition isValidDID (did : jsstring) : bool :=
  if startsWith (js "did:key:") did then
    let parts := split 58 did in
    match parts with
    | [_; _; part2] => (0 <? length part2)%nat
    | _ => false
    end
  else if startsWith (js "did:hedera:") did then
    let parts := split 58 did in
    match parts with
    | [_; _; part2; part3] =>
        bool_decide (part2 ∈ [js "testnet"; js "mainnet"; js "previewnet"])
        && (0 <? length part3)%nat
    | _ => false
    end
  else false.

Module KeyPair.
Record t : Type := mk {
  id : jsstring;
  type : jsstring;
  publicKeyMultibase : option jsstring
}.
End KeyPair.

Module VerificationMethod.
Record t : Type := mk {
  id : jsstring;
  type : jsstring;
  controller : jsstring;
  publicKeyMultibase : option jsstring
}.
End VerificationMethod.

Module DIDDocument.
Record t : Type := mk {
  id : jsstring;
  verificationMethod : list VerificationMethod.t;
  authentication : list jsstring;
  assertionMethod : list jsstring;
  capabilityInvocation : list jsstring;
  capabilityDelegation : list jsstring;
  keyAgreement : list jsstring
}.
End DIDDocument.

(** [createDIDKeyDocument(did, keyPair)] *)
Definition createDIDKeyDocument (did : jsstring) (keyPair : KeyPair.t)
    : DIDDocument.t :=
  let verificationMethodId := did ++ js "#" ++ KeyPair.id keyPair in
  let verificationMethod :=
    VerificationMethod.mk verificationMethodId (KeyPair.type keyPair) did
                          (KeyPair.publicKeyMultibase keyPair) in
  DIDDocument.mk did [verificationMethod] [verificationMethodId]
    [verificationMethodId] [verificationMethodId] [verificationMethodId]
    [verificationMethodId].

(** The [did:key] branch of [resolveDID(did)]; [uuidv4] is the id drawn
    for the key pair. *)
Definition resolveDIDKey (uuidv4 : jsstring) (did : jsstring) : DIDDocument.t :=
  let publicKeyMultibase := nth_error (split 58 did) 2 in
  let keyPair :=
    KeyPair.mk uuidv4 (js "Ed25519VerificationKey2020") publicKeyMultibase in
  createDIDKeyDocument did keyPair.

(** The place of a code unit in a string, and the number a string of
    base-58 digits stands for.  The source has no decoder; these two say
    what an encoding means. *)
Fixpoint position (c : N) (s : jsstring) : N :=
  match s with
  | [] => 0%N
  | c' :: r => if (c =? c')%N then 0%N else N.succ (position c r)
  end.

Definition fromBase58 (s : jsstring) : N :=
  fold_left (fun value c => value * 58 + position c base58Chars)%N s 0%N.

(** What the [while] loop of [encodeBase58] computes, as a relation
    between the number and the string at its start and the string at its
    end. *)
Inductive loop : N -> jsstring -> jsstring -> Prop :=
| loop_done result : loop 0 result result
| loop_round num result result' :
    (0 < num)%N ->
    loop (num / 58) (index base58Chars (num mod 58) ++ result) result' ->
    loop num result result'.

End DidUtils.

(** ** [server/src/utils/auth.ts]: the gate in front of the protected routes *)

Module UserJwtPayload.
Record t : Type := mk {
  id : jsstring;
  did : option jsstring;
  email : option jsstring;
  phone : option jsstring;
  name : jsstring;
  authMethod : AuthMethod;
  exp : option Z
}.
End UserJwtPayload.

Module AuthUtils.

Section WithJwt.

(** [process.env.JWT_SECRET], and [jwt.verify(token, JWT_SECRET)], which
    returns the decoded payload or throws. *)
Variable JWT_SECRET : option jsstring.
Variable jwt_verify : jsstring -> jsstring -> result UserJwtPayload.t.

(** [verifyToken(token)] *)
Definition verifyToken (token : jsstring) : result (option UserJwtPayload.t) :=
  if negb (truthy_opt JWT_SECRET) then Throw "JWT secret not configured"
  else
    match jwt_verify token (default [] JWT_SECRET) with
    | Return decoded => Return (Some decoded)
    | Throw _ => Return None
    end.

(** [extractTokenFromHeader(req)]; [authorization] is
    [req.headers.authorization]. *)
Definition extractTokenFromHeader (authorization : option jsstring)
    : option jsstring :=
  if negb (truthy_opt authorization)
     || negb (startsWith (js "Bearer ") (default [] authorization))
  then None
  else nth_error (split 32 (default [] authorization)) 1.

(** What the middleware does with the request: it answers it, or it puts
    the payload in [req.user] and calls [next()]. *)
Inductive Passage : Type :=
| Answered (status : Z) (body : Http.ErrorBody)
| Next (user : UserJwtPayload.t).

(** [authenticate(req, res, next)] *)
Definition authenticate (authorization : option jsstring) : result Passage :=
  let token := extractTokenFromHeader authorization in
  if negb (truthy_opt token) then
    Return (Answered 401
              (Http.mkError "Unauthorized" "Authentication token is missing" false None))
  else
    match verifyToken (default [] token) with
    | Throw message => Throw message
    | Return None =>
        Return (Answered 401
                  (Http.mkError "Unauthorized" "Invalid or expired token" false None))
    | Return (Some payload) => Return (Next payload)
    end.

End WithJwt.

End AuthUtils.

(** * Properties *)

(** ** The two recipient formats, on examples *)

Example isValidEmail_accepts :
  OtpUtils.isValidEmail (js "ada@example.org") = true.
Proof. reflexivity. Qed.

Example isValidEmail_rejects_space :
  OtpUtils.isValidEmail (js "ada @example.org") = false.
Proof. reflexivity. Qed.

Example isValidEmail_rejects_no_break_space :
  OtpUtils.isValidEmail (js "ada" ++ [160%N] ++ js "@example.org") = false.
Proof. reflexivity. Qed.

Example isValidEmail_accepts_dots_in_domain :
  OtpUtils.isValidEmail (js "a.b@mail.example.co.uk") = true.
Proof. reflexivity. Qed.

Example isValidEmail_rejects_no_dot :
  OtpUtils.isValidEmail (js "ada@example") = false.
Proof. reflexivity. Qed.

Example isValidEmail_rejects_two_at :
  OtpUtils.isValidEmail (js "a@b@c.de") = false.
Proof. reflexivity. Qed.

Example isValidPhone_accepts :
  OtpUtils.isValidPhone (js "+15551234567") = true.
Proof. reflexivity. Qed.

Example isValidPhone_rejects_leading_zero :
  OtpUtils.isValidPhone (js "+05551234567") = false.
Proof. reflexivity. Qed.

Example isValidPhone_rejects_short :
  OtpUtils.isValidPhone (js "+1") = false.
Proof. reflexivity. Qed.

Example isValidPhone_longest :
  OtpUtils.isValidPhone (js "+123456789012345") = true
  /\ OtpUtils.isValidPhone (js "+1234567890123456") = false.
Proof. split; reflexivity. Qed.

(** ** [Map] laws *)

Section JsMapLaws.
Context {V : Type}.
Implicit Types (m : JsMap.t V) (k : jsstring) (v : V).

Lemma get_set_eq m k v : JsMap.get k (JsMap.set k v m) = Some v.
Proof.
  induction m as [|[k' v'] m IH]; simpl.
  - by rewrite decide_True.
  - destruct (decide (k = k')) as [->|Hne]; simpl.
    + by rewrite decide_True.
    + by rewrite decide_False.
Qed.

Lemma get_set_ne m k k' v :
  k ≠ k' -> JsMap.get k' (JsMap.set k v m) = JsMap.get k' m.
Proof.
  intros Hne. induction m as [|[k0 v0] m IH]; simpl.
  - by rewrite decide_False.
  - destruct (decide (k = k0)) as [->|Hk]; simpl.
    + by rewrite !decide_False.
    + destruct (decide (k' = k0)); [done | apply IH].
Qed.

Lemma get_set m k k' v :
  JsMap.get k' (JsMap.set k v m)
  = if decide (k = k') then Some v else JsMap.get k' m.
Proof.
  destruct (decide (k = k')) as [->|Hne];
    [apply get_set_eq | by apply get_set_ne].
Qed.

Lemma get_delete_eq m k : JsMap.get k (JsMap.delete k m) = None.
Proof.
  induction m as [|[k' v'] m IH]; simpl; [done|].
  destruct (decide (k = k')) as [->|Hne]; simpl; [done|].
  by rewrite decide_False.
Qed.

Lemma get_delete_ne m k k' :
  k ≠ k' -> JsMap.get k' (JsMap.delete k m) = JsMap.get k' m.
Proof.
  intros Hne. induction m as [|[k0 v0] m IH]; simpl; [done|].
  destruct (decide (k = k0)) as [->|Hk]; simpl.
  - by rewrite decide_False.
  - destruct (decide (k' = k0)); [done | apply IH].
Qed.

Lemma get_delete_None m k k' :
  JsMap.get k' m = None -> JsMap.get k' (JsMap.delete k m) = None.
Proof.
  intros H. destruct (decide (k = k')) as [->|Hne].
  - apply get_delete_eq.
  - by rewrite get_delete_ne.
Qed.

(** Writing back what is already there changes nothing. *)
Lemma set_get_id m k v : JsMap.get k m = Some v -> JsMap.set k v m = m.
Proof.
  induction m as [|[k' v'] m IH]; simpl; [done|].
  destruct (decide (k = k')) as [->|Hne]; intros H.
  - by simplify_eq.
  - f_equal. by apply IH.
Qed.

Lemma get_None_not_key m k : JsMap.get k m = None <-> k ∉ JsMap.keys m.
Proof.
  induction m as [|[k' v'] m IH]; simpl.
  - split; [intros _; apply not_elem_of_nil | done].
  - rewrite not_elem_of_cons. destruct (decide (k = k')) as [->|Hne].
    + split; [done | intros [? _]; done].
    + rewrite IH. tauto.
Qed.

Lemma keys_set_present m k v :
  k ∈ JsMap.keys m -> JsMap.keys (JsMap.set k v m) = JsMap.keys m.
Proof.
  induction m as [|[k' v'] m IH]; simpl.
  - intros H. by apply elem_of_nil in H.
  - intros H. destruct (decide (k = k')) as [->|Hne]; simpl; [done|].
    f_equal. apply IH. apply elem_of_cons in H as [?|?]; done.
Qed.

Lemma keys_set_absent m k v :
  k ∉ JsMap.keys m -> JsMap.keys (JsMap.set k v m) = JsMap.keys m ++ [k].
Proof.
  induction m as [|[k' v'] m IH]; simpl; [done|].
  intros H. apply not_elem_of_cons in H as [Hne H].
  rewrite decide_False by done. simpl. f_equal. by apply IH.
Qed.

(** [set] keeps a [Map] a [Map]. *)
Lemma wf_set m k v : JsMap.wf m -> JsMap.wf (JsMap.set k v m).
Proof.
  unfold JsMap.wf. intros Hwf.
  destruct (decide (k ∈ JsMap.keys m)) as [Hin|Hnin].
  - by rewrite keys_set_present.
  - rewrite keys_set_absent by done.
    apply NoDup_app. split_and!; [done | | apply NoDup_singleton].
    intros x Hx Hx'. apply list_elem_of_singleton in Hx'. by subst.
Qed.

Lemma keys_delete_subset m k x :
  x ∈ JsMap.keys (JsMap.delete k m) -> x ∈ JsMap.keys m.
Proof.
  induction m as [|[k' v'] m IH]; simpl; [done|].
  destruct (decide (k = k')) as [->|Hne]; simpl.
  - intros H. apply elem_of_cons. right. by apply IH.
  - rewrite !elem_of_cons. intros [?|?]; [by left | right; by apply IH].
Qed.

(** [delete] keeps a [Map] a [Map]. *)
Lemma wf_delete m k : JsMap.wf m -> JsMap.wf (JsMap.delete k m).
Proof.
  unfold JsMap.wf. induction m as [|[k' v'] m IH]; simpl; [done|].
  intros Hwf. apply NoDup_cons in Hwf as [Hnin Hwf].
  destruct (decide (k = k')) as [->|Hne]; simpl; [by apply IH|].
  apply NoDup_cons. split; [|by apply IH].
  intros Hin. apply Hnin. by eapply keys_delete_subset.
Qed.

(** One pass of [forEach] with a conditional [set], entry by entry. *)
Lemma forEach_set_fold (p : V -> bool) (f : V -> V) (l : JsMap.t V) m k :
  JsMap.wf l ->
  JsMap.get k
    (fold_left (fun acc kv =>
                  if p (snd kv) then JsMap.set (fst kv) (f (snd kv)) acc else acc)
               l m)
  = match JsMap.get k l with
    | Some v => if p v then Some (f v) else JsMap.get k m
    | None => JsMap.get k m
    end.
Proof.
  unfold JsMap.wf. revert m.
  induction l as [|[k' v'] l IH]; intros m Hwf; simpl; [done|].
  apply NoDup_cons in Hwf as [Hnin Hwf]. simpl in Hnin. rewrite IH by done.
  destruct (decide (k = k')) as [->|Hne].
  - apply get_None_not_key in Hnin. rewrite Hnin.
    destruct (p v'); [apply get_set_eq | done].
  - destruct (JsMap.get k l) as [v|]; destruct (p v'); simpl;
      rewrite ?get_set_ne by done; done.
Qed.

(** What [forEach] with a conditional [set] leaves under each key. *)
Lemma get_forEach_set (p : V -> bool) (f : V -> V) m k :
  JsMap.wf m ->
  JsMap.get k (JsMap.forEach_set p f m)
  = (fun v => if p v then f v else v) <$> JsMap.get k m.
Proof.
  intros Hwf. unfold JsMap.forEach_set. rewrite forEach_set_fold by done.
  destruct (JsMap.get k m) as [v|]; simpl; [|done].
  by destruct (p v).
Qed.

(** [forEach] with a conditional [delete] never adds a key. *)
Lemma get_forEach_delete_None (p : V -> bool) m k :
  JsMap.get k m = None -> JsMap.get k (JsMap.forEach_delete p m) = None.
Proof.
  unfold JsMap.forEach_delete. generalize m at 1 3 as acc. generalize m as l.
  induction l as [|[k' v'] l IH]; intros acc Hacc; simpl; [done|].
  apply IH. destruct (p v'); [by apply get_delete_None | done].
Qed.

End JsMapLaws.

(** ** The OTP ledger and the rate limiter *)

Lemma World_set_rateLimitCache_id (w : World.t) :
  World.set_rateLimitCache (World.rateLimitCache w) w = w.
Proof. by destruct w. Qed.

Lemma World_set_userModel_id (w : World.t) :
  World.set_userModel (World.userModel w) w = w.
Proof. by destruct w. Qed.

Lemma UserModel_set_otpRecords_id (m : UserModel.t) :
  UserModel.set_otpRecords (UserModel.otpRecords m) m = m.
Proof. by destruct m. Qed.

(** When [isRateLimited] answers yes it has not touched the cache. *)
Lemma isRateLimited_true now recipient cache cache' :
  OtpUtils.isRateLimited now recipient cache = (true, cache') -> cache' = cache.
Proof.
  unfold OtpUtils.isRateLimited.
  destruct (JsMap.get recipient cache) as [record|]; [|congruence].
  destruct (_ <? _); congruence.
Qed.

(** The delivery block always ends with [sent] true: a provider other
    than the console falls back to the console. *)
Lemma deliver_true env out method : OtpUtils.deliver env out method = true.
Proof.
  unfold OtpUtils.deliver. generalize (OtpUtils.OTP_PROVIDER env) as provider.
  intros provider. cbv zeta.
  destruct (String.eqb provider "console") eqn:Hconsole; simpl.
  - by apply String.eqb_eq in Hconsole as ->.
  - rewrite ?andb_true_r. repeat case_match; try done.
    all: by apply negb_false_iff.
Qed.

(** A request that passes the format check and the rate limiter issues a
    record and counts the attempt. *)
Lemma createAndSendOtp_allowed env out recipient method purpose userId w cache1 :
  Run.valid_recipient recipient method = true ->
  OtpUtils.isRateLimited (OtpUtils.clock_isRateLimited out) recipient
                         (World.rateLimitCache w) = (false, cache1) ->
  exists otpRecord w',
    OtpUtils.createAndSendOtp env out recipient method purpose userId w
    = (Return otpRecord, w')
    /\ World.rateLimitCache w'
       = OtpUtils.updateRateLimit (OtpUtils.clock_updateRateLimit out) recipient cache1
    /\ otpRecord
       = fst (UserModel.createOtp (OtpUtils.clock_createOtp out) (OtpUtils.uuidv4 out)
                recipient method (OtpUtils.generateOtp out) userId
                (UserModel.invalidateOtps recipient (World.userModel w)))
    /\ World.userModel w'
       = snd (UserModel.createOtp (OtpUtils.clock_createOtp out) (OtpUtils.uuidv4 out)
                recipient method (OtpUtils.generateOtp out) userId
                (UserModel.invalidateOtps recipient (World.userModel w))).
Proof.
  intros Hvalid Hrl. unfold OtpUtils.createAndSendOtp.
  assert (bool_decide (method = EMAIL) && negb (OtpUtils.isValidEmail recipient) = false) as ->.
  { destruct method; simpl in *; [by rewrite Hvalid | done]. }
  assert (bool_decide (method = SMS) && negb (OtpUtils.isValidPhone recipient) = false) as ->.
  { destruct method; simpl in *; [done | by rewrite Hvalid]. }
  rewrite Hrl. rewrite deliver_true. simpl.
  eexists _, _. split; [reflexivity|]. by destruct w.
Qed.

(** A request that passes the format check and is rate limited throws and
    leaves the world as it was. *)
Lemma createAndSendOtp_limited env out recipient method purpose userId w cache1 :
  Run.valid_recipient recipient method = true ->
  OtpUtils.isRateLimited (OtpUtils.clock_isRateLimited out) recipient
                         (World.rateLimitCache w) = (true, cache1) ->
  OtpUtils.createAndSendOtp env out recipient method purpose userId w
  = (Throw "Rate limit exceeded. Please try again later.", w).
Proof.
  intros Hvalid Hrl. unfold OtpUtils.createAndSendOtp.
  assert (bool_decide (method = EMAIL) && negb (OtpUtils.isValidEmail recipient) = false) as ->.
  { destruct method; simpl in *; [by rewrite Hvalid | done]. }
  assert (bool_decide (method = SMS) && negb (OtpUtils.isValidPhone recipient) = false) as ->.
  { destruct method; simpl in *; [done | by rewrite Hvalid]. }
  rewrite Hrl. apply isRateLimited_true in Hrl as ->.
  by rewrite World_set_rateLimitCache_id.
Qed.

(** *** The rate limit window, request by request *)

Lemma isRateLimited_no_window now recipient cache :
  Run.no_window now recipient cache ->
  exists cache1,
    OtpUtils.isRateLimited now recipient cache = (false, cache1)
    /\ JsMap.get recipient cache1 = None.
Proof.
  unfold Run.no_window, OtpUtils.isRateLimited.
  destruct (JsMap.get recipient cache) as [record|] eqn:Hget; intros Hstale.
  - apply Z.ltb_lt in Hstale. rewrite Hstale.
    eexists. split; [reflexivity | apply get_delete_eq].
  - by exists cache.
Qed.

Lemma isRateLimited_in_window now recipient cache record :
  JsMap.get recipient cache = Some record ->
  now - 60 * 60 * 1000 <= RateLimitRecord.firstAttempt record ->
  OtpUtils.isRateLimited now recipient cache
  = (5 <=? RateLimitRecord.count record, cache).
Proof.
  unfold OtpUtils.isRateLimited. intros -> Hin.
  apply Z.ltb_ge in Hin. by rewrite Hin.
Qed.

(** The first allowed request opens a window. *)
Lemma issue_opens_window env recipient r w :
  Run.valid_recipient recipient (Run.method r) = true ->
  Run.no_window (OtpUtils.clock_isRateLimited (Run.out r)) recipient
                (World.rateLimitCache w) ->
  exists otpRecord w',
    Run.issue env recipient r w = (Return otpRecord, w')
    /\ JsMap.get recipient (World.rateLimitCache w')
       = Some (RateLimitRecord.mk 1 (OtpUtils.clock_updateRateLimit (Run.out r))
                                    (OtpUtils.clock_updateRateLimit (Run.out r))).
Proof.
  intros Hvalid Hno. apply isRateLimited_no_window in Hno as (cache1 & Hrl & Hnone).
  destruct (createAndSendOtp_allowed env (Run.out r) recipient (Run.method r)
              (Run.purpose r) (Run.userId r) w cache1 Hvalid Hrl)
    as (otpRecord & w' & Hrun & Hcache & _).
  exists otpRecord, w'. split; [done|].
  rewrite Hcache. unfold OtpUtils.updateRateLimit. rewrite Hnone.
  apply get_set_eq.
Qed.

(** A request inside the window, below the ceiling, is allowed and
    counted; the start of the window stays. *)
Lemma issue_counts env recipient r w record :
  Run.valid_recipient recipient (Run.method r) = true ->
  JsMap.get recipient (World.rateLimitCache w) = Some record ->
  OtpUtils.clock_isRateLimited (Run.out r) - 60 * 60 * 1000
    <= RateLimitRecord.firstAttempt record ->
  RateLimitRecord.count record < 5 ->
  exists otpRecord w',
    Run.issue env recipient r w = (Return otpRecord, w')
    /\ JsMap.get recipient (World.rateLimitCache w')
       = Some (RateLimitRecord.mk (RateLimitRecord.count record + 1)
                                  (RateLimitRecord.firstAttempt record)
                                  (OtpUtils.clock_updateRateLimit (Run.out r))).
Proof.
  intros Hvalid Hget Hin Hcount.
  pose proof (isRateLimited_in_window _ _ _ _ Hget Hin) as Hrl.
  assert ((5 <=? RateLimitRecord.count record) = false) as Hlt by (apply Z.leb_gt; lia).
  rewrite Hlt in Hrl.
  destruct (createAndSendOtp_allowed env (Run.out r) recipient (Run.method r)
              (Run.purpose r) (Run.userId r) w _ Hvalid Hrl)
    as (otpRecord & w' & Hrun & Hcache & _).
  exists otpRecord, w'. split; [done|].
  rewrite Hcache. unfold OtpUtils.updateRateLimit. rewrite Hget.
  apply get_set_eq.
Qed.

(** A request inside the window, at the ceiling, is rejected. *)
Lemma issue_rejected env recipient r w record :
  Run.valid_recipient recipient (Run.method r) = true ->
  JsMap.get recipient (World.rateLimitCache w) = Some record ->
  OtpUtils.clock_isRateLimited (Run.out r) - 60 * 60 * 1000
    <= RateLimitRecord.firstAttempt record ->
  5 <= RateLimitRecord.count record ->
  Run.issue env recipient r w
  = (Throw "Rate limit exceeded. Please try again later.", w).
Proof.
  intros Hvalid Hget Hin Hcount.
  pose proof (isRateLimited_in_window _ _ _ _ Hget Hin) as Hrl.
  assert ((5 <=? RateLimitRecord.count record) = true) as Hge by (apply Z.leb_le; lia).
  rewrite Hge in Hrl.
  by eapply createAndSendOtp_limited.
Qed.

(** C5: from no window (or a stale one), five requests of a recipient
    whose rate limit checks fall within one hour of the first recorded
    attempt are all allowed and the sixth is rejected with the rate limit
    error; a request whose check comes more than one hour after the first
    recorded attempt is allowed again. *)
Theorem rate_limit_five_per_hour env recipient (r1 r2 r3 r4 r5 r6 : Run.Issue) w :
  let first := OtpUtils.clock_updateRateLimit (Run.out r1) in
  Run.no_window (OtpUtils.clock_isRateLimited (Run.out r1)) recipient
                (World.rateLimitCache w) ->
  Forall (fun r => Run.valid_recipient recipient (Run.method r) = true)
         [r1; r2; r3; r4; r5; r6] ->
  Forall (fun r => OtpUtils.clock_isRateLimited (Run.out r) - 60 * 60 * 1000 <= first)
         [r2; r3; r4; r5; r6] ->
  exists o1 o2 o3 o4 o5 w6,
    Run.issues env recipient [r1; r2; r3; r4; r5; r6] w
    = ([Return o1; Return o2; Return o3; Return o4; Return o5;
        Throw "Rate limit exceeded. Please try again later."], w6)
    /\ forall r7,
         Run.valid_recipient recipient (Run.method r7) = true ->
         first < OtpUtils.clock_isRateLimited (Run.out r7) - 60 * 60 * 1000 ->
         exists o7 w7, Run.issue env recipient r7 w6 = (Return o7, w7).
Proof.
  intros first Hno Hvalid Hin.
  repeat (apply Forall_cons in Hvalid as [? Hvalid]).
  repeat (apply Forall_cons in Hin as [? Hin]).
  destruct (issue_opens_window env recipient r1 w) as (o1 & w1 & E1 & G1); [done..|].
  destruct (issue_counts env recipient r2 w1 _ ltac:(done) G1) as (o2 & w2 & E2 & G2);
    [done | simpl; lia |]. simpl in G2.
  destruct (issue_counts env recipient r3 w2 _ ltac:(done) G2) as (o3 & w3 & E3 & G3);
    [done | simpl; lia |]. simpl in G3.
  destruct (issue_counts env recipient r4 w3 _ ltac:(done) G3) as (o4 & w4 & E4 & G4);
    [done | simpl; lia |]. simpl in G4.
  destruct (issue_counts env recipient r5 w4 _ ltac:(done) G4) as (o5 & w5 & E5 & G5);
    [done | simpl; lia |]. simpl in G5.
  pose proof (issue_rejected env recipient r6 w5 _ ltac:(done) G5) as E6.
  exists o1, o2, o3, o4, o5, w5. split.
  - simpl. rewrite E1, E2, E3, E4, E5, E6; [done | done | simpl; lia].
  - intros r7 Hvalid7 Hlate.
    destruct (issue_opens_window env recipient r7 w5) as (o7 & w7 & E7 & _);
      [done | | by exists o7, w7].
    unfold Run.no_window. by rewrite G5.
Qed.

(** C5, on an example: six requests for one recipient, one minute
    apart, then a seventh two hours later. *)
Lemma rate_limit_five_per_hour_witness :
  exists o1 o2 o3 o4 o5 w6,
    Run.issues Example.env Example.ada
      [Example.issue_at 1000 "otp-1" "111111";
       Example.issue_at 61000 "otp-2" "222222";
       Example.issue_at 121000 "otp-3" "333333";
       Example.issue_at 181000 "otp-4" "444444";
       Example.issue_at 241000 "otp-5" "555555";
       Example.issue_at 301000 "otp-6" "666666"] World.empty
    = ([Return o1; Return o2; Return o3; Return o4; Return o5;
        Throw "Rate limit exceeded. Please try again later."], w6)
    /\ forall r7,
         Run.valid_recipient Example.ada (Run.method r7) = true ->
         1000 < OtpUtils.clock_isRateLimited (Run.out r7) - 60 * 60 * 1000 ->
         exists o7 w7, Run.issue Example.env Example.ada r7 w6 = (Return o7, w7).
Proof.
  apply (rate_limit_five_per_hour Example.env Example.ada
           (Example.issue_at 1000 "otp-1" "111111")
           (Example.issue_at 61000 "otp-2" "222222")
           (Example.issue_at 121000 "otp-3" "333333")
           (Example.issue_at 181000 "otp-4" "444444")
           (Example.issue_at 241000 "otp-5" "555555")
           (Example.issue_at 301000 "otp-6" "666666") World.empty).
  - exact I.
  - repeat constructor.
  - repeat constructor; simpl; lia.
Defined.

(** C10: a call of [createAndSendOtp] that throws has changed nothing:
    the rate limit cache (so the recipient's window and its count) and
    the OTP records (so every pending record of the recipient) are as
    before.  The only rejections are the two format errors and the rate
    limit error. *)
Theorem rejected_issue_changes_nothing env out recipient method purpose userId
    w message w' :
  OtpUtils.createAndSendOtp env out recipient method purpose userId w
  = (Throw message, w') ->
  w' = w
  /\ (message = "Invalid email format"%string
      /\ method = EMAIL /\ OtpUtils.isValidEmail recipient = false
      \/ message = "Invalid phone number format"%string
         /\ method = SMS /\ OtpUtils.isValidPhone recipient = false
      \/ message = "Rate limit exceeded. Please try again later."%string
         /\ fst (OtpUtils.isRateLimited (OtpUtils.clock_isRateLimited out) recipient
                                        (World.rateLimitCache w)) = true).
Proof.
  unfold OtpUtils.createAndSendOtp.
  destruct (bool_decide (method = EMAIL) && negb (OtpUtils.isValidEmail recipient))
    eqn:Hemail.
  { intros [= <- <-]. apply andb_true_iff in Hemail as [Hm Hv].
    apply bool_decide_eq_true in Hm. apply negb_true_iff in Hv. auto. }
  destruct (bool_decide (method = SMS) && negb (OtpUtils.isValidPhone recipient))
    eqn:Hsms.
  { intros [= <- <-]. apply andb_true_iff in Hsms as [Hm Hv].
    apply bool_decide_eq_true in Hm. apply negb_true_iff in Hv. auto 6. }
  destruct (OtpUtils.isRateLimited _ _ _) as [[|] cache1] eqn:Hrl.
  - intros [= <- <-]. apply isRateLimited_true in Hrl as ->.
    rewrite World_set_rateLimitCache_id. auto 6.
  - rewrite deliver_true. simpl. discriminate.
Qed.

(** C10, on an example: a sixth request inside the window. *)
Lemma rejected_issue_changes_nothing_witness :
  Run.issue Example.env Example.ada (Example.issue_at 301000 "otp-6" "666666")
            Example.issued_five
  = (Throw "Rate limit exceeded. Please try again later.", Example.issued_five)
  /\ Example.issued_five = Example.issued_five.
Proof.
  split; [reflexivity|].
  apply (rejected_issue_changes_nothing Example.env
           (Run.out (Example.issue_at 301000 "otp-6" "666666"))
           Example.ada EMAIL (js "login") None Example.issued_five
           "Rate limit exceeded. Please try again later." Example.issued_five).
  reflexivity.
Defined.

(** *** Verification *)

(** Attempts used up, at the level of [OtpUtils.verifyOtp]. *)
Lemma OtpUtils_verifyOtp_exhausted m otpId code now now' otp :
  UserModel.getOtpById otpId m = Some otp ->
  now <= OtpRecord.expiresAt otp ->
  OtpUtils.MAX_OTP_ATTEMPTS <= OtpRecord.attempts otp ->
  OtpUtils.verifyOtp now now' otpId code m
  = (Throw "Maximum verification attempts reached", m).
Proof.
  intros Hget Hnow Hmax. unfold OtpUtils.verifyOtp. rewrite Hget.
  apply Z.ltb_ge in Hnow. rewrite Hnow.
  apply Z.leb_le in Hmax. by rewrite Hmax.
Qed.

(** C2: on an unexpired record on which three attempts have been made,
    [verifyOtp] throws the attempts-exhausted error whatever the code, and
    the store is unchanged; the check of the store itself,
    [UserModel.verifyOtp], hands back the record as it is and writes
    nothing either. *)
Theorem verifyOtp_attempts_exhausted (m : UserModel.t) (otpId code : jsstring)
    (now now' : Z) (otp : OtpRecord.t) :
  UserModel.getOtpById otpId m = Some otp ->
  now <= OtpRecord.expiresAt otp ->
  3 <= OtpRecord.attempts otp ->
  OtpUtils.verifyOtp now now' otpId code m
  = (Throw "Maximum verification attempts reached", m)
  /\ (OtpRecord.maxAttempts otp = 3 ->
      UserModel.verifyOtp now otpId code m = (Some otp, m)).
Proof.
  intros Hget Hnow Hatt. split.
  - by apply (OtpUtils_verifyOtp_exhausted m otpId code now now' otp).
  - intros Hmax. unfold UserModel.verifyOtp.
    unfold UserModel.getOtpById in Hget. rewrite Hget.
    apply Z.ltb_ge in Hnow. rewrite Hnow.
    assert ((OtpRecord.maxAttempts otp <=? OtpRecord.attempts otp) = true) as ->
      by (apply Z.leb_le; lia).
    done.
Qed.

(** What a check of [UserModel.verifyOtp] with a wrong code does to an
    unexpired record below its limit: one more attempt, status invalid. *)
Lemma UserModel_verifyOtp_wrong m id code now otp :
  JsMap.get id (UserModel.otpRecords m) = Some otp ->
  now <= OtpRecord.expiresAt otp ->
  OtpRecord.attempts otp < OtpRecord.maxAttempts otp ->
  code <> OtpRecord.code otp ->
  let otp' :=
    OtpRecord.with_status INVALID
      (OtpRecord.with_attempts (OtpRecord.attempts otp + 1) otp) in
  UserModel.verifyOtp now id code m
  = (Some otp',
     UserModel.set_otpRecords (JsMap.set id otp' (UserModel.otpRecords m)) m).
Proof.
  intros Hget Hnow Hatt Hcode. unfold UserModel.verifyOtp. rewrite Hget.
  apply Z.ltb_ge in Hnow. rewrite Hnow.
  assert ((OtpRecord.maxAttempts otp <=? OtpRecord.attempts otp) = false) as ->
    by (apply Z.leb_gt; lia).
  by rewrite bool_decide_eq_false_2.
Qed.

(** ... and with the right code: one more attempt, status verified. *)
Lemma UserModel_verifyOtp_right m id now otp :
  JsMap.get id (UserModel.otpRecords m) = Some otp ->
  now <= OtpRecord.expiresAt otp ->
  OtpRecord.attempts otp < OtpRecord.maxAttempts otp ->
  let otp' :=
    OtpRecord.with_verifiedAt now
      (OtpRecord.with_status VERIFIED
         (OtpRecord.with_attempts (OtpRecord.attempts otp + 1) otp)) in
  UserModel.verifyOtp now id (OtpRecord.code otp) m
  = (Some otp',
     UserModel.set_otpRecords (JsMap.set id otp' (UserModel.otpRecords m)) m).
Proof.
  intros Hget Hnow Hatt. unfold UserModel.verifyOtp. rewrite Hget.
  apply Z.ltb_ge in Hnow. rewrite Hnow.
  assert ((OtpRecord.maxAttempts otp <=? OtpRecord.attempts otp) = false) as ->
    by (apply Z.leb_gt; lia).
  by rewrite bool_decide_eq_true_2.
Qed.

(** C2, on an example: after three wrong guesses the right code is
    refused. *)
Lemma verifyOtp_attempts_exhausted_witness :
  UserModel.getOtpById (js "otp-1") Example.struck_out
  = Some Example.first_record_struck_out
  /\ OtpUtils.verifyOtp 6000 6000 (js "otp-1") (js "111111") Example.struck_out
     = (Throw "Maximum verification attempts reached", Example.struck_out)
  /\ (OtpRecord.maxAttempts Example.first_record_struck_out = 3 ->
      UserModel.verifyOtp 6000 (js "otp-1") (js "111111") Example.struck_out
      = (Some Example.first_record_struck_out, Example.struck_out)).
Proof.
  split; [reflexivity|].
  apply (verifyOtp_attempts_exhausted Example.struck_out (js "otp-1") (js "111111")
           6000 6000 Example.first_record_struck_out).
  - reflexivity.
  - simpl. lia.
  - simpl. lia.
Defined.

(** [OtpUtils.verifyOtp] with a wrong code on an unexpired record below
    the limit hands on what [UserModel.verifyOtp] does. *)
Lemma OtpUtils_verifyOtp_wrong m id code now now' otp :
  JsMap.get id (UserModel.otpRecords m) = Some otp ->
  now <= OtpRecord.expiresAt otp ->
  now' <= OtpRecord.expiresAt otp ->
  OtpRecord.attempts otp < OtpUtils.MAX_OTP_ATTEMPTS ->
  OtpRecord.attempts otp < OtpRecord.maxAttempts otp ->
  code <> OtpRecord.code otp ->
  let otp' :=
    OtpRecord.with_status INVALID
      (OtpRecord.with_attempts (OtpRecord.attempts otp + 1) otp) in
  OtpUtils.verifyOtp now now' id code m
  = (Return (Some otp'),
     UserModel.set_otpRecords (JsMap.set id otp' (UserModel.otpRecords m)) m).
Proof.
  intros Hget Hnow Hnow' Hatt Hmax Hcode. unfold OtpUtils.verifyOtp.
  unfold UserModel.getOtpById. rewrite Hget.
  apply Z.ltb_ge in Hnow. rewrite Hnow.
  assert ((OtpUtils.MAX_OTP_ATTEMPTS <=? OtpRecord.attempts otp) = false) as ->
    by (apply Z.leb_gt; lia).
  by rewrite (UserModel_verifyOtp_wrong m id code now' otp).
Qed.

(** Three wrong codes in a row on a fresh record, all before it expires:
    the fourth call throws the attempts-exhausted error, also for the
    right code, and writes nothing. *)
Lemma three_wrong_codes_exhaust m id otp c1 c2 c3 c4 t1 t1' t2 t2' t3 t3' t4 t4' :
  JsMap.get id (UserModel.otpRecords m) = Some otp ->
  OtpRecord.attempts otp = 0 ->
  OtpRecord.maxAttempts otp = 3 ->
  Forall (fun t => t <= OtpRecord.expiresAt otp) [t1; t1'; t2; t2'; t3; t3'; t4] ->
  Forall (fun c => c <> OtpRecord.code otp) [c1; c2; c3] ->
  let m1 := snd (OtpUtils.verifyOtp t1 t1' id c1 m) in
  let m2 := snd (OtpUtils.verifyOtp t2 t2' id c2 m1) in
  let m3 := snd (OtpUtils.verifyOtp t3 t3' id c3 m2) in
  OtpUtils.verifyOtp t4 t4' id c4 m3
  = (Throw "Maximum verification attempts reached", m3).
Proof.
  intros Hget Hatt Hmax Ht Hc.
  repeat (apply Forall_cons in Ht as [? Ht]).
  repeat (apply Forall_cons in Hc as [? Hc]).
  destruct otp as [oid ouser orec ocode ometh ostat oatt omax ocre oexp over].
  simpl in *. subst oatt omax.
  rewrite (OtpUtils_verifyOtp_wrong m id c1 t1 t1' _ Hget);
    [| simpl; unfold OtpUtils.MAX_OTP_ATTEMPTS; try lia; done ..].
  simpl.
  erewrite (OtpUtils_verifyOtp_wrong _ id c2 t2 t2');
    [| simpl; apply get_set_eq | simpl; unfold OtpUtils.MAX_OTP_ATTEMPTS; try lia; done ..].
  simpl.
  erewrite (OtpUtils_verifyOtp_wrong _ id c3 t3 t3');
    [| simpl; apply get_set_eq | simpl; unfold OtpUtils.MAX_OTP_ATTEMPTS; try lia; done ..].
  simpl.
  eapply OtpUtils_verifyOtp_exhausted.
  - unfold UserModel.getOtpById. simpl. apply get_set_eq.
  - simpl. lia.
  - simpl. unfold OtpUtils.MAX_OTP_ATTEMPTS. lia.
Qed.

(** C3, as stated, fails: one wrong guess on the fresh record of the
    example leaves it stored with status invalid. *)
Lemma failed_attempt_does_not_stay_pending :
  ~ Stated.failed_attempt_stays_pending.
Proof.
  intros Hclaim.
  specialize (Hclaim (World.userModel Example.issued_once) (js "otp-1")
                     (js "000000") 3000 Example.first_record).
  assert (Some INVALID = Some PENDING) as Habs; [|discriminate Habs].
  apply Hclaim; [reflexivity | reflexivity | simpl; lia | simpl; lia | discriminate].
Qed.

(** C3, amended: a failed check (wrong code, record unexpired and below
    its limit) stores the record with status invalid and one more
    attempt, whatever its status was, and touches no other record; the
    record still takes checks, and the right code, while unexpired and
    below the limit, then makes it verified. *)
Theorem failed_attempt_stores_invalid (m : UserModel.t) (id code : jsstring)
    (now : Z) (otp : OtpRecord.t) :
  JsMap.get id (UserModel.otpRecords m) = Some otp ->
  now <= OtpRecord.expiresAt otp ->
  OtpRecord.attempts otp < OtpRecord.maxAttempts otp ->
  code <> OtpRecord.code otp ->
  let m' := snd (UserModel.verifyOtp now id code m) in
  JsMap.get id (UserModel.otpRecords m')
  = Some (OtpRecord.with_status INVALID
            (OtpRecord.with_attempts (OtpRecord.attempts otp + 1) otp))
  /\ (forall id', id' <> id ->
        JsMap.get id' (UserModel.otpRecords m') = JsMap.get id' (UserModel.otpRecords m))
  /\ (forall now2,
        now2 <= OtpRecord.expiresAt otp ->
        OtpRecord.attempts otp + 1 < OtpRecord.maxAttempts otp ->
        OtpRecord.status
          <$> fst (UserModel.verifyOtp now2 id (OtpRecord.code otp) m')
        = Some VERIFIED).
Proof.
  intros Hget Hnow Hatt Hcode m'. subst m'.
  rewrite (UserModel_verifyOtp_wrong m id code now otp) by done. simpl.
  split_and!.
  - apply get_set_eq.
  - intros id' Hne. by apply get_set_ne.
  - intros now2 Hnow2 Hatt2.
    set (otp' := OtpRecord.with_status INVALID
                   (OtpRecord.with_attempts (OtpRecord.attempts otp + 1) otp)).
    change (OtpRecord.code otp) with (OtpRecord.code otp').
    rewrite (UserModel_verifyOtp_right _ id now2 otp'); [done | | done | done].
    simpl. apply get_set_eq.
Qed.

(** C3 amended, on the example: a wrong guess on the fresh record. *)
Lemma failed_attempt_stores_invalid_witness :
  let m' := snd (UserModel.verifyOtp 3000 (js "otp-1") (js "000000")
                   (World.userModel Example.issued_once)) in
  JsMap.get (js "otp-1") (UserModel.otpRecords m')
  = Some (OtpRecord.with_status INVALID
            (OtpRecord.with_attempts (OtpRecord.attempts Example.first_record + 1)
                                     Example.first_record))
  /\ (forall id', id' <> js "otp-1" ->
        JsMap.get id' (UserModel.otpRecords m')
        = JsMap.get id' (UserModel.otpRecords (World.userModel Example.issued_once)))
  /\ (forall now2,
        now2 <= OtpRecord.expiresAt Example.first_record ->
        OtpRecord.attempts Example.first_record + 1
          < OtpRecord.maxAttempts Example.first_record ->
        OtpRecord.status
          <$> fst (UserModel.verifyOtp now2 (js "otp-1")
                     (OtpRecord.code Example.first_record) m')
        = Some VERIFIED).
Proof.
  apply (failed_attempt_stores_invalid (World.userModel Example.issued_once)
           (js "otp-1") (js "000000") 3000 Example.first_record).
  - reflexivity.
  - simpl. lia.
  - simpl. lia.
  - discriminate.
Defined.

(** *** Expiry *)

(** After the expiry time [OtpUtils.verifyOtp] answers with a copy of the
    record marked expired, whatever the code, and writes nothing. *)
Lemma OtpUtils_verifyOtp_expired m otpId code now now' otp :
  UserModel.getOtpById otpId m = Some otp ->
  OtpRecord.expiresAt otp < now ->
  OtpUtils.verifyOtp now now' otpId code m
  = (Return (Some (OtpRecord.with_status EXPIRED otp)), m).
Proof.
  intros Hget Hnow. unfold OtpUtils.verifyOtp. rewrite Hget.
  apply Z.ltb_lt in Hnow. by rewrite Hnow.
Qed.

(** The check of the store itself does write the expired status. *)
Lemma UserModel_verifyOtp_expired m id code now otp :
  JsMap.get id (UserModel.otpRecords m) = Some otp ->
  OtpRecord.expiresAt otp < now ->
  UserModel.verifyOtp now id code m
  = (Some (OtpRecord.with_status EXPIRED otp),
     UserModel.set_otpRecords
       (JsMap.set id (OtpRecord.with_status EXPIRED otp) (UserModel.otpRecords m)) m).
Proof.
  intros Hget Hnow. unfold UserModel.verifyOtp. rewrite Hget.
  apply Z.ltb_lt in Hnow. by rewrite Hnow.
Qed.

(** C4, at the failing input: the record of the example expires at
    601000; a verify call at 601001 with the right code comes back
    expired, but the stored record is still pending, where the check of
    the store, called directly, would have stored it as expired. *)
Theorem expired_verify_leaves_record_pending :
  let m := World.userModel Example.issued_once in
  let (r, m') := OtpUtils.verifyOtp 601001 601001 (js "otp-1") (js "111111") m in
  Run.returned_status r = Some EXPIRED
  /\ m' = m
  /\ OtpRecord.status <$> UserModel.getOtpById (js "otp-1") m' = Some PENDING
  /\ OtpRecord.status
       <$> UserModel.getOtpById (js "otp-1")
             (snd (UserModel.verifyOtp 601001 (js "otp-1") (js "111111") m))
     = Some EXPIRED.
Proof. vm_compute. repeat split. Qed.

(** The OTP records stay a [Map] under the three writers. *)
Lemma wf_forEach_set {V : Type} (p : V -> bool) (f : V -> V) (m : JsMap.t V) :
  JsMap.wf m -> JsMap.wf (JsMap.forEach_set p f m).
Proof.
  unfold JsMap.forEach_set. generalize m at 2 as l. intros l. revert m.
  induction l as [|[k v] l IH]; intros m Hwf; simpl; [done|].
  apply IH. destruct (p v); [by apply wf_set | done].
Qed.

Lemma invalidateOtps_wf recipient m :
  JsMap.wf (UserModel.otpRecords m) ->
  JsMap.wf (UserModel.otpRecords (UserModel.invalidateOtps recipient m)).
Proof. intros Hwf. simpl. by apply wf_forEach_set. Qed.

Lemma createOtp_wf now id recipient method code userId m :
  JsMap.wf (UserModel.otpRecords m) ->
  JsMap.wf (UserModel.otpRecords
              (snd (UserModel.createOtp now id recipient method code userId m))).
Proof. intros Hwf. simpl. by apply wf_set. Qed.

Lemma verifyOtp_wf now id code m :
  JsMap.wf (UserModel.otpRecords m) ->
  JsMap.wf (UserModel.otpRecords (snd (UserModel.verifyOtp now id code m))).
Proof.
  intros Hwf. unfold UserModel.verifyOtp.
  repeat case_match; simpl; try done; by apply wf_set.
Qed.

(** *** Re-issue *)

(** A second issuance for the recipient marks a pending record of the
    recipient invalid. *)
Lemma reissue_marks_invalid env out recipient method purpose userId w id1 first :
  JsMap.wf (UserModel.otpRecords (World.userModel w)) ->
  JsMap.get id1 (UserModel.otpRecords (World.userModel w)) = Some first ->
  OtpRecord.recipient first = recipient ->
  OtpRecord.status first = PENDING ->
  Run.valid_recipient recipient method = true ->
  fst (OtpUtils.isRateLimited (OtpUtils.clock_isRateLimited out) recipient
                              (World.rateLimitCache w)) = false ->
  OtpUtils.uuidv4 out <> id1 ->
  let w' := snd (OtpUtils.createAndSendOtp env out recipient method purpose userId w) in
  JsMap.get id1 (UserModel.otpRecords (World.userModel w'))
  = Some (OtpRecord.with_status INVALID first).
Proof.
  intros Hwf Hget Hrec Hstat Hvalid Hrl Hid w'. subst w'.
  destruct (OtpUtils.isRateLimited _ _ _) as [limited cache1] eqn:E.
  simpl in Hrl. subst limited.
  destruct (createAndSendOtp_allowed env out recipient method purpose userId w
              cache1 Hvalid E) as (otpRecord & w' & -> & _ & _ & Hum).
  simpl. rewrite Hum. simpl. rewrite get_set_ne by done.
  rewrite get_forEach_set by done. rewrite Hget. simpl.
  by rewrite Hrec, Hstat, !bool_decide_eq_true_2.
Qed.

(** [OtpUtils.verifyOtp] does not look at the stored status: the code of
    a record that is unexpired and below the limit verifies it, whatever
    its status. *)
Lemma verifyOtp_ignores_status m id now now' otp :
  JsMap.get id (UserModel.otpRecords m) = Some otp ->
  now <= OtpRecord.expiresAt otp ->
  now' <= OtpRecord.expiresAt otp ->
  OtpRecord.attempts otp < OtpUtils.MAX_OTP_ATTEMPTS ->
  OtpRecord.attempts otp < OtpRecord.maxAttempts otp ->
  Run.returned_status (fst (OtpUtils.verifyOtp now now' id (OtpRecord.code otp) m))
  = Some VERIFIED.
Proof.
  intros Hget Hnow Hnow' Hatt Hmax. unfold OtpUtils.verifyOtp.
  unfold UserModel.getOtpById. rewrite Hget.
  apply Z.ltb_ge in Hnow. rewrite Hnow.
  assert ((OtpUtils.MAX_OTP_ATTEMPTS <=? OtpRecord.attempts otp) = false) as ->
    by (apply Z.leb_gt; lia).
  by rewrite (UserModel_verifyOtp_right m id now' otp).
Qed.

(** C1, at the failing input: two issuances to the recipient of the
    example.  The first record is stored as invalid after the second
    issuance, and a verify call on it with its own code still comes back
    verified. *)
Theorem reissued_otp_still_verifies :
  OtpRecord.status
    <$> UserModel.getOtpById (js "otp-1") (World.userModel Example.issued_once)
  = Some PENDING
  /\ OtpRecord.status
       <$> UserModel.getOtpById (js "otp-1") (World.userModel Example.issued_twice)
     = Some INVALID
  /\ Run.returned_status
       (fst (OtpUtils.verifyOtp 3000 3000 (js "otp-1") (js "111111")
                                (World.userModel Example.issued_twice)))
     = Some VERIFIED.
Proof. vm_compute. repeat split. Qed.

(** The same in general: after a re-issue the first record is invalid and
    its code is still accepted. *)
Lemma reissue_then_original_code env out recipient method purpose userId w id1
    first now now' :
  JsMap.wf (UserModel.otpRecords (World.userModel w)) ->
  JsMap.get id1 (UserModel.otpRecords (World.userModel w)) = Some first ->
  OtpRecord.recipient first = recipient ->
  OtpRecord.status first = PENDING ->
  Run.valid_recipient recipient method = true ->
  fst (OtpUtils.isRateLimited (OtpUtils.clock_isRateLimited out) recipient
                              (World.rateLimitCache w)) = false ->
  OtpUtils.uuidv4 out <> id1 ->
  now <= OtpRecord.expiresAt first ->
  now' <= OtpRecord.expiresAt first ->
  OtpRecord.attempts first < OtpUtils.MAX_OTP_ATTEMPTS ->
  OtpRecord.attempts first < OtpRecord.maxAttempts first ->
  let w' := snd (OtpUtils.createAndSendOtp env out recipient method purpose userId w) in
  Run.returned_status
    (fst (OtpUtils.verifyOtp now now' id1 (OtpRecord.code first) (World.userModel w')))
  = Some VERIFIED.
Proof.
  intros Hwf Hget Hrec Hstat Hvalid Hrl Hid Hnow Hnow' Hatt Hmax w'.
  pose proof (reissue_marks_invalid env out recipient method purpose userId w id1
                first Hwf Hget Hrec Hstat Hvalid Hrl Hid) as Hinv.
  fold w' in Hinv.
  by apply (verifyOtp_ignores_status _ id1 now now' _ Hinv).
Qed.

(** ** The WebAuthn ceremonies *)

(** C6: when the attestation verifier does not accept (it throws, or
    answers not verified, or gives no registration info), the
    registration completion answers with a failure and the whole state,
    so the credential store too, is as before; a request that got as far
    as the verifier is answered 400 "Verification Error". *)
Theorem failed_attestation_stores_nothing (out : WebAuthnRoutes.Outside)
    (sessionId : jsstring) (credential : WebAuthnRoutes.Credential.t) (w : World.t) :
  Run.attestation_failed (WebAuthnRoutes.verifyRegistrationResponse out) ->
  exists status body,
    WebAuthnRoutes.verifyRegistration out sessionId credential w
    = (Failure status body, w)
    /\ UserModel.webauthnCredentials
         (World.userModel
            (snd (WebAuthnRoutes.verifyRegistration out sessionId credential w)))
       = UserModel.webauthnCredentials (World.userModel w)
    /\ (forall session userId user,
          WebAuthnRoutes.valid out = true ->
          JsMap.get sessionId (World.webAuthnSessions w) = Some session ->
          WebAuthnSession.userId session = Some userId ->
          UserModel.getUserById userId (World.userModel w) = Some user ->
          status = 400 /\ Http.error body = "Verification Error"%string).
Proof.
  intros Hfail. unfold WebAuthnRoutes.verifyRegistration.
  destruct (WebAuthnRoutes.valid out) eqn:Hvalid; simpl.
  2: { eexists _, _. split_and!; [reflexivity | done | intros; simplify_eq]. }
  destruct (JsMap.get sessionId _) as [session|] eqn:Hsession.
  2: { eexists _, _. split_and!; [reflexivity | done | intros; simplify_eq]. }
  destruct (WebAuthnSession.userId session) as [userId|] eqn:HuserId.
  2: { eexists _, _. split_and!; [reflexivity | done | intros; simplify_eq]. }
  destruct (UserModel.getUserById userId _) as [user|] eqn:Huser.
  2: { eexists _, _. split_and!; [reflexivity | done |].
       intros ? ? ? _ [= <-] ? ?. simplify_eq. }
  destruct (WebAuthnRoutes.verifyRegistrationResponse out) as [verification|message].
  - destruct verification as [verified info]. simpl in Hfail.
    destruct Hfail as [-> | ->].
    + eexists _, _. split_and!; [reflexivity | done | done].
    + destruct verified; eexists _, _; (split_and!; [reflexivity | done | done]).
  - eexists _, _. split_and!; [reflexivity | done | done].
Qed.

(** C6, on the example: the verifier throws on a tampered challenge. *)
Lemma failed_attestation_stores_nothing_witness :
  let out :=
    WebAuthnRoutes.mkOutside true (Return tt) (Return (js "challenge"))
      (js "credential-1") 300 (Return (js "AAAA"))
      (Throw "Unexpected registration response challenge")
      (Throw "unused") 300 300 (Return (js "token")) in
  exists status body,
    WebAuthnRoutes.verifyRegistration out (js "session-1") Example.credential
                                      Example.registering
    = (Failure status body, Example.registering)
    /\ UserModel.webauthnCredentials
         (World.userModel
            (snd (WebAuthnRoutes.verifyRegistration out (js "session-1")
                    Example.credential Example.registering)))
       = UserModel.webauthnCredentials (World.userModel Example.registering)
    /\ (forall session userId user,
          WebAuthnRoutes.valid out = true ->
          JsMap.get (js "session-1") (World.webAuthnSessions Example.registering)
          = Some session ->
          WebAuthnSession.userId session = Some userId ->
          UserModel.getUserById userId (World.userModel Example.registering)
          = Some user ->
          status = 400 /\ Http.error body = "Verification Error"%string).
Proof.
  intros out.
  apply (failed_attestation_stores_nothing out (js "session-1") Example.credential
           Example.registering).
  exact I.
Defined.

(** *** Sessions are used once *)

(** A successful authentication completion has deleted its session. *)
Lemma verifyAuthentication_ok_deletes out sessionId credential w payload w' :
  WebAuthnRoutes.verifyAuthentication out sessionId credential w = (Ok200 payload, w') ->
  JsMap.get sessionId (World.webAuthnSessions w') = None.
Proof.
  unfold WebAuthnRoutes.verifyAuthentication.
  repeat case_match; intros [= <- <-] || intros [=]; simpl.
  apply get_delete_eq.
Qed.

(** A successful registration completion has deleted its session. *)
Lemma verifyRegistration_ok_deletes out sessionId credential w payload w' :
  WebAuthnRoutes.verifyRegistration out sessionId credential w = (Ok200 payload, w') ->
  JsMap.get sessionId (World.webAuthnSessions w') = None.
Proof.
  unfold WebAuthnRoutes.verifyRegistration.
  repeat case_match; intros [= <- <-] || intros [=]; simpl.
  apply get_delete_eq.
Qed.

(** No event brings a session id back, unless it draws that very id
    afresh. *)
Lemma apply_event_keeps_absent toLowerCase e w sid :
  JsMap.get sid (World.webAuthnSessions w) = None ->
  WebAuthnRoutes.new_session_id e <> Some sid ->
  JsMap.get sid (World.webAuthnSessions (WebAuthnRoutes.apply_event toLowerCase e w))
  = None.
Proof.
  intros Hnone Hfresh. destruct e; simpl in *.
  - unfold WebAuthnRoutes.register. repeat case_match; simpl; try done.
    all: rewrite get_set_ne; [done | congruence].
  - unfold WebAuthnRoutes.verifyRegistration. repeat case_match; simpl; try done.
    all: by apply get_delete_None.
  - unfold WebAuthnRoutes.authenticate. repeat case_match; simpl; try done.
    all: rewrite get_set_ne; [done | congruence].
  - unfold WebAuthnRoutes.verifyAuthentication. repeat case_match; simpl; try done.
    all: by apply get_delete_None.
  - by apply get_forEach_delete_None.
  - done.
Qed.

Lemma run_keeps_absent toLowerCase events w sid :
  JsMap.get sid (World.webAuthnSessions w) = None ->
  Forall (fun e => WebAuthnRoutes.new_session_id e <> Some sid) events ->
  JsMap.get sid (World.webAuthnSessions (WebAuthnRoutes.run toLowerCase events w))
  = None.
Proof.
  unfold WebAuthnRoutes.run. revert w.
  induction events as [|e events IH]; intros w Hnone Hfresh; simpl; [done|].
  apply Forall_cons in Hfresh as [He Hfresh].
  apply IH; [|done]. by apply apply_event_keeps_absent.
Qed.

(** C7: a completion that succeeds, of either ceremony, deletes its
    session at once; whatever the server does afterwards (any requests to
    the four WebAuthn routes, sweeps, changes elsewhere; a fresh session
    never gets the old id), a later completion request with that session
    id is rejected and writes nothing: with 400 "Invalid Session" when it
    passes input validation, and with 400 "Validation Error" before the
    session is even looked up when it does not. *)
Theorem consumed_session_is_rejected (toLowerCase : jsstring -> jsstring)
    (out out' : WebAuthnRoutes.Outside) (sessionId : jsstring)
    (credential credential' : WebAuthnRoutes.Credential.t) (w w1 : World.t)
    (events : list WebAuthnRoutes.Event) :
  (exists payload,
      WebAuthnRoutes.verifyAuthentication out sessionId credential w
      = (Ok200 payload, w1))
  \/ (exists payload,
        WebAuthnRoutes.verifyRegistration out sessionId credential w
        = (Ok200 payload, w1)) ->
  Forall (fun e => WebAuthnRoutes.new_session_id e <> Some sessionId) events ->
  let w2 := WebAuthnRoutes.run toLowerCase events w1 in
  JsMap.get sessionId (World.webAuthnSessions w1) = None
  /\ WebAuthnRoutes.verifyAuthentication out' sessionId credential' w2
     = (if WebAuthnRoutes.valid out'
        then fail 400 "Invalid Session" "Authentication session not found or expired"
        else fail 400 "Validation Error" "Invalid request data",
        w2)
  /\ WebAuthnRoutes.verifyRegistration out' sessionId credential' w2
     = (if WebAuthnRoutes.valid out'
        then fail 400 "Invalid Session" "Registration session not found or expired"
        else fail 400 "Validation Error" "Invalid request data",
        w2).
Proof.
  intros Hok Hfresh w2.
  assert (JsMap.get sessionId (World.webAuthnSessions w1) = None) as Hgone.
  { destruct Hok as [[payload Hok] | [payload Hok]].
    - by eapply verifyAuthentication_ok_deletes.
    - by eapply verifyRegistration_ok_deletes. }
  pose proof (run_keeps_absent toLowerCase events w1 sessionId Hgone Hfresh) as Hstill.
  fold w2 in Hstill. split_and!; [done | |].
  - unfold WebAuthnRoutes.verifyAuthentication.
    destruct (WebAuthnRoutes.valid out'); simpl; [by rewrite Hstill | done].
  - unfold WebAuthnRoutes.verifyRegistration.
    destruct (WebAuthnRoutes.valid out'); simpl; [by rewrite Hstill | done].
Qed.

(** C7, on the example: the login of the example, then a sweep, a new
    registration ceremony and a change elsewhere, then the same session
    id again. *)
Lemma consumed_session_is_rejected_witness :
  let events :=
    [WebAuthnRoutes.ESweep 1000000;
     WebAuthnRoutes.ERegister (Example.outside "session-3" 600 0)
                              (js "user-1") (js "user-1");
     WebAuthnRoutes.EElsewhere UserModel.empty JsMap.empty] in
  let w2 := WebAuthnRoutes.run Example.toLowerCase events Example.authenticated in
  JsMap.get (js "session-2") (World.webAuthnSessions Example.authenticated) = None
  /\ WebAuthnRoutes.verifyAuthentication (Example.outside "unused" 700 1)
       (js "session-2") Example.credential w2
     = (fail 400 "Invalid Session" "Authentication session not found or expired", w2)
  /\ WebAuthnRoutes.verifyRegistration (Example.outside "unused" 700 1)
       (js "session-2") Example.credential w2
     = (fail 400 "Invalid Session" "Registration session not found or expired", w2).
Proof.
  intros events.
  apply (consumed_session_is_rejected Example.toLowerCase
           (Example.outside "unused" 500 0) (Example.outside "unused" 700 1)
           (js "session-2") Example.credential Example.credential
           Example.authenticating Example.authenticated events).
  - left. eexists. reflexivity.
  - repeat constructor; discriminate.
Defined.

(** *** The signature counter *)

Section CredentialStore.
Implicit Types (m : JsMap.t WebAuthnCredential.t) (c : WebAuthnCredential.t).

Lemma find_values_key (p : WebAuthnCredential.t -> bool) m c :
  Forall Run.filed_under_id m ->
  List.find p (JsMap.values m) = Some c ->
  WebAuthnCredential.id c ∈ JsMap.keys m.
Proof.
  induction m as [|[k v] m IH]; simpl; [done|].
  intros Hids Hfind. apply Forall_cons in Hids as [Hk Hids].
  unfold Run.filed_under_id in Hk. simpl in Hk.
  destruct (p v).
  - simplify_eq. apply elem_of_cons. by left.
  - apply elem_of_cons. right. by apply IH.
Qed.

(** A credential found by its credential id is the one filed under its
    [id]. *)
Lemma find_values_get (p : WebAuthnCredential.t -> bool) m c :
  JsMap.wf m ->
  Forall Run.filed_under_id m ->
  List.find p (JsMap.values m) = Some c ->
  JsMap.get (WebAuthnCredential.id c) m = Some c.
Proof.
  unfold JsMap.wf. induction m as [|[k v] m IH]; simpl; [done|].
  intros Hwf Hids Hfind.
  apply NoDup_cons in Hwf as [Hnin Hwf]. simpl in Hnin.
  apply Forall_cons in Hids as [Hk Hids].
  unfold Run.filed_under_id in Hk. simpl in Hk.
  destruct (p v) eqn:Hp.
  - simplify_eq. by rewrite decide_True.
  - rewrite decide_False; [by apply IH|].
    intros Heq. apply Hnin. rewrite <- Heq. by eapply find_values_key.
Qed.

(** Writing a credential back under its [id] leaves it where the search by
    credential id finds it. *)
Lemma find_values_set (p : WebAuthnCredential.t -> bool) m c c' :
  JsMap.wf m ->
  Forall Run.filed_under_id m ->
  List.find p (JsMap.values m) = Some c ->
  p c' = true ->
  List.find p (JsMap.values (JsMap.set (WebAuthnCredential.id c) c' m)) = Some c'.
Proof.
  unfold JsMap.wf. induction m as [|[k v] m IH]; simpl; [done|].
  intros Hwf Hids Hfind Hp'.
  apply NoDup_cons in Hwf as [Hnin Hwf]. simpl in Hnin.
  apply Forall_cons in Hids as [Hk Hids].
  unfold Run.filed_under_id in Hk. simpl in Hk.
  destruct (p v) eqn:Hp.
  - simplify_eq. rewrite decide_True by done. simpl. by rewrite Hp'.
  - rewrite decide_False.
    + simpl. rewrite Hp. by apply IH.
    + intros Heq. apply Hnin. rewrite <- Heq. by eapply find_values_key.
Qed.

End CredentialStore.

Lemma updateLastLogin_credentials now userId m :
  UserModel.webauthnCredentials (snd (UserModel.updateLastLogin now userId m))
  = UserModel.webauthnCredentials m.
Proof. unfold UserModel.updateLastLogin. by case_match. Qed.

(** What [updateWebAuthnCredentialCounter] stores for a credential found
    by its credential id. *)
Lemma updateCounter_found now credentialId counter m stored :
  Run.credentials_ok m ->
  UserModel.getWebAuthnCredentialByCredentialId credentialId m = Some stored ->
  let m' := snd (UserModel.updateWebAuthnCredentialCounter
                   now (WebAuthnCredential.id stored) counter m) in
  (WebAuthnCredential.counter
     <$> JsMap.get (WebAuthnCredential.id stored) (UserModel.webauthnCredentials m'))
  = Some counter
  /\ (WebAuthnCredential.counter
        <$> UserModel.getWebAuthnCredentialByCredentialId credentialId m')
     = Some counter.
Proof.
  intros [Hwf Hids] Hfind m'. subst m'.
  unfold UserModel.getWebAuthnCredentialByCredentialId in *.
  unfold UserModel.updateWebAuthnCredentialCounter.
  rewrite (find_values_get _ _ _ Hwf Hids Hfind). simpl. split.
  - by rewrite get_set_eq.
  - erewrite find_values_set; [done | done | done | done |].
    simpl. apply List.find_some in Hfind as [_ Hp]. done.
Qed.

(** The invariant of the credential store holds at the start and is kept
    by the two writers. *)
Lemma Forall_set {V : Type} (P : jsstring * V -> Prop) (m : JsMap.t V) k v :
  Forall P m -> P (k, v) -> Forall P (JsMap.set k v m).
Proof.
  intros Hm Hkv. induction m as [|[k' v'] m IH]; simpl.
  - by constructor.
  - apply Forall_cons in Hm as [Hhd Hm].
    destruct (decide (k = k')); constructor; auto.
Qed.

Lemma credentials_ok_empty : Run.credentials_ok UserModel.empty.
Proof. split; [apply NoDup_nil_2 | constructor]. Qed.

Lemma addAuthMethod_credentials now userId method m :
  UserModel.webauthnCredentials (snd (UserModel.addAuthMethod now userId method m))
  = UserModel.webauthnCredentials m.
Proof. unfold UserModel.addAuthMethod. by repeat case_match. Qed.

Lemma storeWebAuthnCredential_ok now id credential m :
  Run.credentials_ok m ->
  Run.credentials_ok (snd (UserModel.storeWebAuthnCredential now id credential m)).
Proof.
  intros [Hwf Hids]. unfold Run.credentials_ok, UserModel.storeWebAuthnCredential.
  simpl. rewrite addAuthMethod_credentials. simpl. split.
  - by apply wf_set.
  - by apply Forall_set.
Qed.

Lemma get_Forall {V : Type} (P : jsstring * V -> Prop) (m : JsMap.t V) k v :
  Forall P m -> JsMap.get k m = Some v -> P (k, v).
Proof.
  induction m as [|[k' v'] m IH]; simpl; [done|].
  intros Hm Hget. apply Forall_cons in Hm as [Hhd Hm].
  destruct (decide (k = k')); simplify_eq; auto.
Qed.

Lemma updateWebAuthnCredentialCounter_ok now id counter m :
  Run.credentials_ok m ->
  Run.credentials_ok (snd (UserModel.updateWebAuthnCredentialCounter now id counter m)).
Proof.
  intros [Hwf Hids]. unfold Run.credentials_ok, UserModel.updateWebAuthnCredentialCounter.
  destruct (JsMap.get id _) as [credential|] eqn:Hget; simpl; [|done]. split.
  - by apply wf_set.
  - apply Forall_set; [done|]. simpl.
    by apply (get_Forall _ _ _ _ Hids Hget).
Qed.

(** What a successful authentication completion went through. *)
Lemma verifyAuthentication_ok_inv out sessionId credential w payload w' :
  WebAuthnRoutes.verifyAuthentication out sessionId credential w = (Ok200 payload, w') ->
  exists credentialId stored info user,
    WebAuthnRoutes.fromBuffer out = Return credentialId
    /\ UserModel.getWebAuthnCredentialByCredentialId credentialId (World.userModel w)
       = Some stored
    /\ WebAuthnRoutes.verifyAuthenticationResponse out
       = Return (WebAuthnRoutes.VerifiedAuthenticationResponse.mk true (Some info))
    /\ World.userModel w'
       = snd (UserModel.updateLastLogin (WebAuthnRoutes.clock_user out) (User.id user)
                (snd (UserModel.updateWebAuthnCredentialCounter
                        (WebAuthnRoutes.clock_credential out)
                        (WebAuthnCredential.id stored)
                        (WebAuthnRoutes.AuthenticationInfo.newCounter info)
                        (World.userModel w)))).
Proof.
  unfold WebAuthnRoutes.verifyAuthentication.
  repeat case_match; intros [= <- <-] || intros [=]; simpl.
  match goal with
  | H : WebAuthnRoutes.verifyAuthenticationResponse out = Return ?v |- _ =>
      destruct v as [verified info]
  end.
  simpl in *. simplify_eq.
  eexists _, _, _, _. split_and!; [done | done | done | reflexivity].
Qed.

(** C8, as stated, fails: in the example the authenticator reports the
    counter 0 at enrolment and 0 again at the login; the login succeeds and
    the stored counter, 0, is not greater than the one stored before. *)
Lemma counter_need_not_increase : ~ Stated.counter_strictly_increases.
Proof.
  intros Hclaim.
  destruct (Hclaim (Example.outside "unused" 500 0) (js "session-2") (js "AAAA")
              Example.credential Example.authenticating Example.authenticated
              (WebAuthnRoutes.VerifyAuthenticationOk.mk (js "token")
                 (User.mk (js "user-1") (js "Ada") (Some Example.ada) None 100 300
                          None None [AuthEMAIL; AuthWEBAUTHN] false false None))
              (WebAuthnCredential.mk (js "credential-1") (js "user-1") (js "AAAA")
                 (js "BBBB") 0 [] (Some (js "platform")) 300 None)
              (WebAuthnRoutes.AuthenticationInfo.mk 0))
    as (updated & Hget & Hnew & Hlt).
  - split.
    + unfold JsMap.wf. vm_compute. apply NoDup_singleton.
    + repeat constructor.
  - reflexivity.
  - reflexivity.
  - reflexivity.
  - reflexivity.
  - vm_compute in Hget. simplify_eq. simpl in Hlt. lia.
Qed.

(** C8, amended: after a successful authentication completion the stored
    counter of the credential the assertion named (looked up by its [id]
    or again by its credential id) is the counter the verifier reported.
    The handler compares it with nothing: had the verifier reported any
    other counter [n], greater or not, the completion would have
    succeeded all the same and stored [n]. *)
Theorem counter_is_overwritten (out : WebAuthnRoutes.Outside)
    (sessionId : jsstring) (credential : WebAuthnRoutes.Credential.t)
    (w w' : World.t) (payload : WebAuthnRoutes.VerifyAuthenticationOk.t) :
  Run.credentials_ok (World.userModel w) ->
  WebAuthnRoutes.verifyAuthentication out sessionId credential w = (Ok200 payload, w') ->
  exists credentialId stored info,
    WebAuthnRoutes.fromBuffer out = Return credentialId
    /\ UserModel.getWebAuthnCredentialByCredentialId credentialId (World.userModel w)
       = Some stored
    /\ WebAuthnRoutes.verifyAuthenticationResponse out
       = Return (WebAuthnRoutes.VerifiedAuthenticationResponse.mk true (Some info))
    /\ (WebAuthnCredential.counter
          <$> UserModel.getWebAuthnCredentialById (WebAuthnCredential.id stored)
                                                  (World.userModel w'))
       = Some (WebAuthnRoutes.AuthenticationInfo.newCounter info)
    /\ (WebAuthnCredential.counter
          <$> UserModel.getWebAuthnCredentialByCredentialId credentialId
                                                            (World.userModel w'))
       = Some (WebAuthnRoutes.AuthenticationInfo.newCounter info)
    /\ forall n,
         exists payload' w'',
           WebAuthnRoutes.verifyAuthentication (WebAuthnRoutes.reporting n out)
                                               sessionId credential w
           = (Ok200 payload', w'')
           /\ (WebAuthnCredential.counter
                 <$> UserModel.getWebAuthnCredentialById
                       (WebAuthnCredential.id stored) (World.userModel w''))
              = Some n.
Proof.
  intros Hok Hrun.
  destruct (verifyAuthentication_ok_inv _ _ _ _ _ _ Hrun)
    as (credentialId & stored & info & user & Hid & Hfind & Hver & Hum).
  exists credentialId, stored, info.
  destruct (updateCounter_found (WebAuthnRoutes.clock_credential out) credentialId
              (WebAuthnRoutes.AuthenticationInfo.newCounter info)
              (World.userModel w) stored Hok Hfind) as [Hget Hfind'].
  split_and!; try done.
  - rewrite Hum. unfold UserModel.getWebAuthnCredentialById.
    by rewrite updateLastLogin_credentials.
  - rewrite Hum. unfold UserModel.getWebAuthnCredentialByCredentialId in *.
    by rewrite updateLastLogin_credentials.
  - intros n. revert Hrun. unfold WebAuthnRoutes.verifyAuthentication. simpl.
    rewrite Hid, Hfind. rewrite Hver. simpl.
    repeat case_match; intros [= <- <-] || intros [=]; simpl.
    eexists _, _. split; [reflexivity|]. simpl.
    unfold UserModel.getWebAuthnCredentialById.
    rewrite updateLastLogin_credentials.
    by destruct (updateCounter_found (WebAuthnRoutes.clock_credential out)
                   credentialId n (World.userModel w) stored Hok Hfind) as [-> _].
Qed.

(** C8 amended, on the example. *)
Lemma counter_is_overwritten_witness :
  exists credentialId stored info,
    WebAuthnRoutes.fromBuffer (Example.outside "unused" 500 0) = Return credentialId
    /\ UserModel.getWebAuthnCredentialByCredentialId
         credentialId (World.userModel Example.authenticating)
       = Some stored
    /\ WebAuthnRoutes.verifyAuthenticationResponse (Example.outside "unused" 500 0)
       = Return (WebAuthnRoutes.VerifiedAuthenticationResponse.mk true (Some info))
    /\ (WebAuthnCredential.counter
          <$> UserModel.getWebAuthnCredentialById (WebAuthnCredential.id stored)
                (World.userModel Example.authenticated))
       = Some (WebAuthnRoutes.AuthenticationInfo.newCounter info)
    /\ (WebAuthnCredential.counter
          <$> UserModel.getWebAuthnCredentialByCredentialId credentialId
                (World.userModel Example.authenticated))
       = Some (WebAuthnRoutes.AuthenticationInfo.newCounter info)
    /\ forall n,
         exists payload' w'',
           WebAuthnRoutes.verifyAuthentication
             (WebAuthnRoutes.reporting n (Example.outside "unused" 500 0))
             (js "session-2") Example.credential Example.authenticating
           = (Ok200 payload', w'')
           /\ (WebAuthnCredential.counter
                 <$> UserModel.getWebAuthnCredentialById
                       (WebAuthnCredential.id stored) (World.userModel w''))
              = Some n.
Proof.
  apply (counter_is_overwritten (Example.outside "unused" 500 0) (js "session-2")
           Example.credential Example.authenticating Example.authenticated
           (WebAuthnRoutes.VerifyAuthenticationOk.mk (js "token")
              (User.mk (js "user-1") (js "Ada") (Some Example.ada) None 100 300
                       None None [AuthEMAIL; AuthWEBAUTHN] false false None))).
  - split.
    + unfold JsMap.wf. vm_compute. apply NoDup_singleton.
    + repeat constructor.
  - reflexivity.
Defined.

(** ** The verify-OTP route *)

(** Whatever [otpUtils.verifyOtp] throws, the route answers with the same
    500 "Internal Server Error". *)
Lemma verifyOtp_route_throw toLowerCase out otpId code registerUser name w message :
  AuthRoutes.valid out = true ->
  fst (OtpUtils.verifyOtp (AuthRoutes.clock_verifyOtp out)
                          (AuthRoutes.clock_userModel_verifyOtp out)
                          otpId code (World.userModel w)) = Throw message ->
  fst (AuthRoutes.verifyOtp toLowerCase out otpId code registerUser name w)
  = fail 500 "Internal Server Error" "Failed to verify OTP. Please try again later.".
Proof.
  intros Hvalid Hthrow. unfold AuthRoutes.verifyOtp. rewrite Hvalid. simpl.
  destruct (OtpUtils.verifyOtp _ _ _ _ _) as [r m]. simpl in Hthrow. by subst r.
Qed.

(** An unknown challenge id is answered by that 500 ... *)
Lemma verifyOtp_route_not_found toLowerCase out otpId code registerUser name w :
  AuthRoutes.valid out = true ->
  UserModel.getOtpById otpId (World.userModel w) = None ->
  AuthRoutes.verifyOtp toLowerCase out otpId code registerUser name w
  = (fail 500 "Internal Server Error" "Failed to verify OTP. Please try again later.",
     w).
Proof.
  intros Hvalid Hnone. unfold AuthRoutes.verifyOtp, OtpUtils.verifyOtp.
  rewrite Hvalid, Hnone. simpl. by rewrite World_set_userModel_id.
Qed.

(** ... and so are used-up attempts: the two answers are the same. *)
Lemma verifyOtp_route_exhausted toLowerCase out otpId code registerUser name w otp :
  AuthRoutes.valid out = true ->
  UserModel.getOtpById otpId (World.userModel w) = Some otp ->
  AuthRoutes.clock_verifyOtp out <= OtpRecord.expiresAt otp ->
  OtpUtils.MAX_OTP_ATTEMPTS <= OtpRecord.attempts otp ->
  AuthRoutes.verifyOtp toLowerCase out otpId code registerUser name w
  = (fail 500 "Internal Server Error" "Failed to verify OTP. Please try again later.",
     w).
Proof.
  intros Hvalid Hget Hnow Hmax. unfold AuthRoutes.verifyOtp.
  rewrite Hvalid. simpl.
  rewrite (OtpUtils_verifyOtp_exhausted _ _ _ _ _ otp Hget Hnow Hmax). simpl.
  by rewrite World_set_userModel_id.
Qed.

(** C9, at the failing inputs: on the store of the example an unknown
    challenge id, and the right code after three wrong guesses, both get
    the generic 500 "Internal Server Error"; a wrong guess below the
    limit gets its own 400, and the sibling route maps the rate limit
    error it catches to a 429. *)
Theorem protocol_errors_become_internal_errors :
  let out := Example.auth_outside 6000 "user-2" "otp-9" "999999" in
  let generic : Response AuthRoutes.VerifyOtpOk.t :=
    fail 500 "Internal Server Error" "Failed to verify OTP. Please try again later." in
  fst (AuthRoutes.verifyOtp Example.toLowerCase out (js "no-such-id") (js "111111")
         false None Example.issued_once) = generic
  /\ fst (AuthRoutes.verifyOtp Example.toLowerCase out (js "otp-1") (js "111111")
            false None (World.set_userModel Example.struck_out Example.issued_once))
     = generic
  /\ fst (AuthRoutes.verifyOtp Example.toLowerCase out (js "otp-1") (js "000000")
            false None Example.issued_once)
     = Failure 400 (mkError "Verification Error" "Invalid OTP code" false (Some 2))
  /\ fst (AuthRoutes.requestOtp Example.toLowerCase Example.env
            (Example.auth_outside 301000 "user-2" "otp-6" "666666")
            (Some Example.ada) None (js "recovery") Example.issued_five)
     = fail 429 "Too Many Requests" "Rate limit exceeded. Please try again later.".
Proof. vm_compute. repeat split. Qed.

(** ** The end-to-end scenarios of the specification, run on the model *)

(** Scenario A: a registration by phone creates the account. *)
Example scenario_registration :
  let request := Example.auth_outside 1000 "user-2" "otp-1" "123456" in
  let (r1, w1) :=
    AuthRoutes.requestOtp Example.toLowerCase Example.env request None
      (Some (js "+15551234567")) (js "registration") World.empty in
  let (r2, w2) :=
    AuthRoutes.verifyOtp Example.toLowerCase request (js "otp-1") (js "123456")
      true (Some (js "Ada")) w1 in
  r1 = Ok200 (AuthRoutes.RequestOtpOk.mk (js "otp-1") 601000 SMS)
  /\ (exists ok,
        r2 = Ok200 ok /\ AuthRoutes.VerifyOtpOk.isNewUser ok = true
        /\ AuthRoutes.VerifyOtpOk.token ok = js "token")
  /\ User.isPhoneVerified
       <$> UserModel.getUserByPhone (js "+15551234567") (World.userModel w2)
     = Some true.
Proof. vm_compute. split_and!; [done | by eexists | done]. Qed.

(** Scenario B: a login succeeds after one wrong code. *)
Example scenario_login_after_typo :
  let request := Example.auth_outside 2000 "user-3" "otp-7" "654321" in
  let (r1, w1) :=
    AuthRoutes.requestOtp Example.toLowerCase Example.env request
      (Some Example.ada) None (js "login") Example.registered in
  let (r2, w2) :=
    AuthRoutes.verifyOtp Example.toLowerCase request (js "otp-7") (js "000000")
      false None w1 in
  let (r3, w3) :=
    AuthRoutes.verifyOtp Example.toLowerCase request (js "otp-7") (js "654321")
      false None w2 in
  Http.status_of r1 = 200
  /\ r2 = Failure 400 (mkError "Verification Error" "Invalid OTP code" false (Some 2))
  /\ (exists ok, r3 = Ok200 ok /\ AuthRoutes.VerifyOtpOk.isNewUser ok = false).
Proof. vm_compute. split_and!; [done | done | by eexists]. Qed.

(** Scenario C: an account without credentials is sent back to OTP. *)
Example scenario_no_credentials :
  fst (WebAuthnRoutes.authenticate Example.toLowerCase
         (Example.outside "session-1" 200 0) (Some Example.ada) None
         Example.registered)
  = fail_fallback 400 "Authentication Error"
                  "No WebAuthn credentials found for this user".
Proof. reflexivity. Qed.

(** * Further properties of the code *)

(** ** The matcher and the two recipient formats *)

Section Matcher.
Implicit Types (r : regex) (s : jsstring) (c : N).

Lemma matches_void_inv s : matches Void s <-> False.
Proof. split; [inversion 1 | done]. Qed.

Lemma matches_eps_inv s : matches Eps s <-> s = [].
Proof. split; [by inversion 1 | intros ->; constructor]. Qed.

Lemma matches_cls_inv p s : matches (Cls p) s <-> exists c, s = [c] /\ p c = true.
Proof.
  split.
  - inversion 1; subst. eauto.
  - intros (c & -> & Hp). by constructor.
Qed.

Lemma matches_cat_inv r1 r2 s :
  matches (Cat r1 r2) s <-> exists s1 s2, s = s1 ++ s2 /\ matches r1 s1 /\ matches r2 s2.
Proof.
  split.
  - inversion 1; subst. eauto.
  - intros (s1 & s2 & -> & H1 & H2). by constructor.
Qed.

Lemma matches_alt_inv r1 r2 s : matches (Alt r1 r2) s <-> matches r1 s \/ matches r2 s.
Proof.
  split.
  - inversion 1; subst; auto.
  - intros [H|H]; [by apply matches_alt_l | by apply matches_alt_r].
Qed.

Lemma nullable_matches r : nullable r = true <-> matches r [].
Proof.
  induction r as [| |p|r1 IH1 r2 IH2|r1 IH1 r2 IH2|r IH]; simpl.
  - by rewrite matches_void_inv.
  - by rewrite matches_eps_inv.
  - rewrite matches_cls_inv. split; [done | by intros (c & ? & _)].
  - rewrite andb_true_iff, IH1, IH2, matches_cat_inv. split.
    + intros [H1 H2]. by exists [], [].
    + intros (s1 & s2 & Heq & H1 & H2). symmetry in Heq.
      apply app_eq_nil in Heq as [-> ->]. done.
  - by rewrite orb_true_iff, IH1, IH2, matches_alt_inv.
  - split; [constructor | done].
Qed.

(** A non-empty match of [r*] starts with a non-empty match of [r]. *)
Lemma matches_star_cons_inv r c s :
  matches (Star r) (c :: s) ->
  exists s1 s2, s = s1 ++ s2 /\ matches r (c :: s1) /\ matches (Star r) s2.
Proof.
  intros H. remember (Star r) as r' eqn:Hr. remember (c :: s) as s' eqn:Hs.
  revert c s Hs. induction H as [| | | | | |r0 s1 s2 H1 _ H2 IH2];
    intros c0 s0 Hs; try discriminate.
  injection Hr as ->.
  destruct s1 as [|c1 s1]; simpl in Hs.
  - by apply IH2.
  - injection Hs as -> <-. by exists s1, s2.
Qed.

Lemma deriv_matches r c s : matches (deriv c r) s <-> matches r (c :: s).
Proof.
  revert s. induction r as [| |p|r1 IH1 r2 IH2|r1 IH1 r2 IH2|r IH]; intros s; simpl.
  - by rewrite !matches_void_inv.
  - rewrite matches_void_inv, matches_eps_inv. done.
  - rewrite matches_cls_inv. destruct (p c) eqn:Hp.
    + rewrite matches_eps_inv. split; [intros ->; eauto | by intros (c' & [= -> ->] & _)].
    + rewrite matches_void_inv. split; [done | intros (c' & [= -> ->] & ?); congruence].
  - assert (matches (Cat (deriv c r1) r2) s
            <-> exists s1 s2, s = s1 ++ s2 /\ matches r1 (c :: s1) /\ matches r2 s2)
      as Hcat.
    { rewrite matches_cat_inv. split; intros (s1 & s2 & ? & H1 & H2);
        exists s1, s2; (split_and!; [done | by apply IH1 | done]). }
    rewrite (matches_cat_inv r1 r2 (c :: s)).
    destruct (nullable r1) eqn:Hnull.
    + rewrite matches_alt_inv, Hcat, IH2. split.
      * intros [(s1 & s2 & -> & H1 & H2) | H2].
        -- by exists (c :: s1), s2.
        -- apply nullable_matches in Hnull. by exists [], (c :: s).
      * intros (s1 & s2 & Heq & H1 & H2). destruct s1 as [|c1 s1]; simpl in Heq.
        -- subst s2. by right.
        -- injection Heq as <- ->. left. by exists s1, s2.
    + rewrite Hcat. split.
      * intros (s1 & s2 & -> & H1 & H2). by exists (c :: s1), s2.
      * intros (s1 & s2 & Heq & H1 & H2). destruct s1 as [|c1 s1]; simpl in Heq.
        -- apply nullable_matches in H1. congruence.
        -- injection Heq as <- ->. by exists s1, s2.
  - by rewrite !matches_alt_inv, IH1, IH2.
  - rewrite matches_cat_inv. split.
    + intros (s1 & s2 & -> & H1 & H2). apply IH in H1.
      by apply (matches_star_app r (c :: s1) s2).
    + intros H. apply matches_star_cons_inv in H as (s1 & s2 & -> & H1 & H2).
      exists s1, s2. split_and!; [done | by apply IH | done].
Qed.

(** The matcher decides the meaning of the expression. *)
Lemma test_matches r s : test r s = true <-> matches r s.
Proof.
  revert r. induction s as [|c s IH]; intros r; simpl.
  - apply nullable_matches.
  - rewrite IH. apply deriv_matches.
Qed.

Lemma matches_star_cls p s : matches (Star (Cls p)) s <-> forallb p s = true.
Proof.
  split.
  - intros H. remember (Star (Cls p)) as r eqn:Hr.
    induction H as [| | | | | |r0 s1 s2 H1 _ H2 IH2]; try discriminate; [done|].
    injection Hr as ->. inversion H1; subst. simpl.
    apply andb_true_iff. split; [done | by apply IH2].
  - induction s as [|c s IH]; simpl; [constructor|].
    intros [Hc Hs]%andb_true_iff.
    apply (matches_star_app (Cls p) [c] s); [by constructor | by apply IH].
Qed.

(** [[p]+]: a non-empty string of characters of the class. *)
Lemma matches_plus_cls p s :
  matches (Plus (Cls p)) s <-> s <> [] /\ forallb p s = true.
Proof.
  unfold Plus. rewrite matches_cat_inv. split.
  - intros (s1 & s2 & -> & H1 & H2).
    apply matches_cls_inv in H1 as (c & -> & Hc). apply matches_star_cls in H2.
    simpl. by rewrite Hc, H2.
  - intros [Hne Hall]. destruct s as [|c s]; [done|].
    simpl in Hall. apply andb_true_iff in Hall as [Hc Hs].
    exists [c], s. split_and!; [done | by apply matches_cls_inv; eauto |].
    by apply matches_star_cls.
Qed.

(** [[p]{1,n+1}]: between 1 and [n+1] characters of the class. *)
Lemma matches_upto_cls p n s :
  matches (Upto n (Cls p)) s
  <-> (1 <= length s <= S n)%nat /\ forallb p s = true.
Proof.
  revert s. induction n as [|n IH]; intros s; simpl.
  - rewrite matches_cls_inv. split.
    + intros (c & -> & Hc). simpl. rewrite Hc. split; [lia | done].
    + intros [Hlen Hall]. destruct s as [|c [|c' s]]; simpl in *; try lia.
      exists c. split; [done|]. by apply andb_true_iff in Hall as [? _].
  - rewrite matches_cat_inv. split.
    + intros (s1 & s2 & -> & H1 & H2).
      apply matches_cls_inv in H1 as (c & -> & Hc). simpl. rewrite Hc. simpl.
      apply matches_alt_inv in H2 as [Hl|Hr].
      * apply IH in Hl as [Hlen Hall]. split; [lia | done].
      * apply matches_eps_inv in Hr as ->. simpl. split; [lia | done].
    + intros [Hlen Hall]. destruct s as [|c s]; simpl in *; [lia|].
      apply andb_true_iff in Hall as [Hc Hs].
      exists [c], s. split_and!; [done | by apply matches_cls_inv; eauto |].
      apply matches_alt_inv. destruct s as [|c' s'].
      * right. constructor.
      * left. apply IH. split; [simpl in *; lia | done].
Qed.

End Matcher.

(** X1: [isValidPhone] accepts exactly the strings made of a plus sign, a
    digit from 1 to 9, and then between 1 and 14 further digits. *)
Theorem isValidPhone_iff (phone : jsstring) :
  OtpUtils.isValidPhone phone = true
  <-> exists d ds,
        phone = 43%N :: d :: ds
        /\ (49 <= d <= 57)%N
        /\ Forall (fun c => (48 <= c <= 57)%N) ds
        /\ (1 <= length ds <= 14)%nat.
Proof.
  unfold OtpUtils.isValidPhone, OtpUtils.phoneRegex, chr.
  rewrite test_matches, matches_cat_inv. split.
  - intros (s1 & s2 & -> & H1 & H2).
    apply matches_cls_inv in H1 as (c & -> & Hc). apply N.eqb_eq in Hc as ->.
    apply matches_cat_inv in H2 as (s3 & s4 & -> & H3 & H4).
    apply matches_cls_inv in H3 as (d & -> & Hd).
    apply matches_upto_cls in H4 as [Hlen Hall].
    exists d, s4. split; [done|]. split; [|split; [|lia]].
    + unfold is_digit19 in Hd. apply andb_true_iff in Hd as [?%N.leb_le ?%N.leb_le]. lia.
    + apply Forall_forall. intros c Hc%list_elem_of_In.
      rewrite forallb_forall in Hall. specialize (Hall c Hc).
      unfold is_digit in Hall. apply andb_true_iff in Hall as [?%N.leb_le ?%N.leb_le]. lia.
  - intros (d & ds & -> & Hd & Hds & Hlen).
    exists [43%N], (d :: ds). split_and!; [done | by apply matches_cls_inv; eauto |].
    apply matches_cat_inv. exists [d], ds. split_and!; [done | |].
    + apply matches_cls_inv. exists d. split; [done|].
      unfold is_digit19. apply andb_true_iff. split; apply N.leb_le; lia.
    + apply matches_upto_cls. split; [lia|].
      apply forallb_forall. intros c Hc%list_elem_of_In.
      rewrite Forall_forall in Hds. specialize (Hds c Hc).
      unfold is_digit. apply andb_true_iff. split; apply N.leb_le; lia.
Qed.

(** The strings that [emailRegex] matches. *)
Lemma isValidEmail_parts (email : jsstring) :
  OtpUtils.isValidEmail email = true
  <-> exists l a b,
        email = l ++ 64%N :: a ++ 46%N :: b
        /\ l <> [] /\ a <> [] /\ b <> []
        /\ forallb not_space_at l = true
        /\ forallb not_space_at a = true
        /\ forallb not_space_at b = true.
Proof.
  unfold OtpUtils.isValidEmail, OtpUtils.emailRegex, chr.
  rewrite test_matches, matches_cat_inv. split.
  - intros (l & s2 & -> & Hl & H2).
    apply matches_plus_cls in Hl as [Hl Hl'].
    apply matches_cat_inv in H2 as (s3 & s4 & -> & H3 & H4).
    apply matches_cls_inv in H3 as (c & -> & Hc). apply N.eqb_eq in Hc as ->.
    apply matches_cat_inv in H4 as (a & s5 & -> & Ha & H5).
    apply matches_plus_cls in Ha as [Ha Ha'].
    apply matches_cat_inv in H5 as (s6 & b & -> & H6 & Hb).
    apply matches_cls_inv in H6 as (c & -> & Hc). apply N.eqb_eq in Hc as ->.
    apply matches_plus_cls in Hb as [Hb Hb'].
    by exists l, a, b.
  - intros (l & a & b & -> & Hl & Ha & Hb & Hl' & Ha' & Hb').
    exists l, (64%N :: a ++ 46%N :: b).
    split_and!; [done | by apply matches_plus_cls |].
    apply matches_cat_inv. exists [64%N], (a ++ 46%N :: b).
    split_and!; [done | by apply matches_cls_inv; eauto |].
    apply matches_cat_inv. exists a, (46%N :: b).
    split_and!; [done | by apply matches_plus_cls |].
    apply matches_cat_inv. exists [46%N], b.
    split_and!; [done | by apply matches_cls_inv; eauto | by apply matches_plus_cls].
Qed.

(** X2: [isValidEmail] accepts exactly the strings [local@a.b] where
    [local], [a] and [b] are non-empty and contain neither white space nor
    an at sign ([a] and [b] may contain further dots). *)
Theorem isValidEmail_iff (email : jsstring) :
  OtpUtils.isValidEmail email = true
  <-> exists l a b,
        email = l ++ 64%N :: a ++ 46%N :: b
        /\ l <> [] /\ a <> [] /\ b <> []
        /\ forallb not_space_at l = true
        /\ forallb not_space_at a = true
        /\ forallb not_space_at b = true.
Proof. apply isValidEmail_parts. Qed.

Lemma count_occ_not_space_at (s : jsstring) :
  forallb not_space_at s = true -> count_occ N.eq_dec s 64%N = 0%nat.
Proof.
  induction s as [|c s IH]; simpl; [done|].
  intros [Hc Hs]%andb_true_iff.
  destruct (N.eq_dec c 64%N) as [->|Hne]; [by vm_compute in Hc | by apply IH].
Qed.

Lemma no_space_not_space_at (s : jsstring) :
  forallb not_space_at s = true -> forallb (fun c => negb (is_space c)) s = true.
Proof.
  induction s as [|c s IH]; simpl; [done|].
  intros [Hc Hs]%andb_true_iff. apply andb_true_iff. split; [|by apply IH].
  unfold not_space_at in Hc. by destruct (is_space c).
Qed.

(** A consequence: a recipient that [isValidEmail] accepts has exactly
    one at sign, no white space anywhere, and at least five characters. *)
Theorem isValidEmail_shape (email : jsstring) :
  OtpUtils.isValidEmail email = true ->
  count_occ N.eq_dec email 64%N = 1%nat
  /\ forallb (fun c => negb (is_space c)) email = true
  /\ (5 <= length email)%nat.
Proof.
  intros (l & a & b & -> & Hl & Ha & Hb & Hl' & Ha' & Hb')%isValidEmail_parts.
  split_and!.
  - rewrite count_occ_app. simpl. rewrite count_occ_app. simpl.
    by rewrite !count_occ_not_space_at.
  - rewrite forallb_app. simpl. rewrite forallb_app. simpl.
    by rewrite !no_space_not_space_at.
  - rewrite length_app. simpl. rewrite length_app. simpl.
    destruct l, a, b; simpl; try done; lia.
Qed.

(** On an example. *)
Lemma isValidEmail_shape_witness :
  count_occ N.eq_dec Example.ada 64%N = 1%nat
  /\ forallb (fun c => negb (is_space c)) Example.ada = true
  /\ (5 <= length Example.ada)%nat.
Proof. apply (isValidEmail_shape Example.ada). reflexivity. Defined.

(** ** More on the rate limiter and the OTP ledger *)

Lemma Forall_delete {V : Type} (P : jsstring * V -> Prop) (m : JsMap.t V) k :
  Forall P m -> Forall P (JsMap.delete k m).
Proof.
  induction m as [|[k' v'] m IH]; simpl; [done|].
  intros [Hhd Hm]%Forall_cons.
  destruct (decide (k = k')); [by apply IH | constructor; auto].
Qed.

Lemma Forall_forEach_set {V : Type} (P : jsstring * V -> Prop) (p : V -> bool)
    (f : V -> V) (m : JsMap.t V) :
  (forall k v, P (k, v) -> P (k, f v)) ->
  Forall P m -> Forall P (JsMap.forEach_set p f m).
Proof.
  intros Hf. unfold JsMap.forEach_set.
  assert (forall l acc : JsMap.t V,
             Forall P l -> Forall P acc ->
             Forall P (fold_left
                         (fun acc kv =>
                            if p (snd kv) then JsMap.set (fst kv) (f (snd kv)) acc
                            else acc) l acc)) as Hfold.
  { induction l as [|[k v] l IH]; intros acc Hl Hacc; simpl; [done|].
    apply Forall_cons in Hl as [Hkv Hl]. apply IH; [done|].
    destruct (p v); [|done]. apply Forall_set; [done | by apply Hf]. }
  intros Hm. by apply Hfold.
Qed.

(** What a successful call of [createAndSendOtp] went through. *)
Lemma createAndSendOtp_ok_inv env out recipient method purpose userId w otpRecord w' :
  OtpUtils.createAndSendOtp env out recipient method purpose userId w
  = (Return otpRecord, w') ->
  exists cache1,
    Run.valid_recipient recipient method = true
    /\ OtpUtils.isRateLimited (OtpUtils.clock_isRateLimited out) recipient
                              (World.rateLimitCache w) = (false, cache1)
    /\ otpRecord
       = OtpRecord.mk (OtpUtils.uuidv4 out) userId recipient (OtpUtils.generateOtp out)
                      method PENDING 0 3 (OtpUtils.clock_createOtp out)
                      (OtpUtils.clock_createOtp out + 10 * 60 * 1000) None
    /\ World.rateLimitCache w'
       = OtpUtils.updateRateLimit (OtpUtils.clock_updateRateLimit out) recipient cache1
    /\ UserModel.otpRecords (World.userModel w')
       = JsMap.set (OtpUtils.uuidv4 out) otpRecord
           (JsMap.forEach_set
              (fun otp => bool_decide (OtpRecord.recipient otp = recipient)
                          && bool_decide (OtpRecord.status otp = PENDING))
              (OtpRecord.with_status INVALID)
              (UserModel.otpRecords (World.userModel w)))
    /\ World.webAuthnSessions w' = World.webAuthnSessions w
    /\ UserModel.users (World.userModel w') = UserModel.users (World.userModel w)
    /\ UserModel.webauthnCredentials (World.userModel w')
       = UserModel.webauthnCredentials (World.userModel w).
Proof.
  unfold OtpUtils.createAndSendOtp.
  destruct (bool_decide (method = EMAIL) && negb (OtpUtils.isValidEmail recipient))
    eqn:Hemail; [discriminate|].
  destruct (bool_decide (method = SMS) && negb (OtpUtils.isValidPhone recipient))
    eqn:Hsms; [discriminate|].
  destruct (OtpUtils.isRateLimited _ _ _) as [[|] cache1] eqn:Hrl; [discriminate|].
  rewrite deliver_true. simpl. intros [= <- <-]. exists cache1.
  split_and!; try done.
  destruct method; simpl in *.
  - by apply negb_false_iff in Hemail.
  - by apply negb_false_iff in Hsms.
Qed.

(** A call of [createAndSendOtp] that throws hands back the world it got. *)
Lemma createAndSendOtp_throw_inv env out recipient method purpose userId w message w' :
  OtpUtils.createAndSendOtp env out recipient method purpose userId w
  = (Throw message, w') ->
  w' = w.
Proof.
  unfold OtpUtils.createAndSendOtp.
  destruct (_ && _); [by intros [= <- <-]|].
  destruct (_ && _); [by intros [= <- <-]|].
  destruct (OtpUtils.isRateLimited _ _ _) as [[|] cache1] eqn:Hrl.
  - intros [= <- <-]. apply isRateLimited_true in Hrl as ->.
    by rewrite World_set_rateLimitCache_id.
  - rewrite deliver_true. simpl. discriminate.
Qed.

(** X4: [createAndSendOtp] keeps every rate limit window between one and
    five counted issuances, whatever the call answers. *)
Theorem createAndSendOtp_windows_ok env out recipient method purpose userId w :
  Inv.windows_ok (World.rateLimitCache w) ->
  Inv.windows_ok
    (World.rateLimitCache
       (snd (OtpUtils.createAndSendOtp env out recipient method purpose userId w))).
Proof.
  intros Hok.
  destruct (OtpUtils.createAndSendOtp env out recipient method purpose userId w)
    as [[otpRecord|message] w'] eqn:Hrun; simpl.
  - apply createAndSendOtp_ok_inv in Hrun as (cache1 & _ & Hrl & _ & -> & _).
    unfold OtpUtils.isRateLimited in Hrl. unfold OtpUtils.updateRateLimit.
    destruct (JsMap.get recipient (World.rateLimitCache w)) as [record|] eqn:Hget.
    + destruct (_ <? _).
      * injection Hrl as <-. rewrite get_delete_eq.
        apply Forall_set; [by apply Forall_delete|]. unfold Inv.window_ok. simpl. lia.
      * injection Hrl as Hcount <-. rewrite Hget.
        apply Forall_set; [done|]. unfold Inv.window_ok. simpl.
        pose proof (get_Forall _ _ _ _ Hok Hget) as Hrec.
        unfold Inv.window_ok in Hrec. simpl in Hrec.
        apply Z.leb_gt in Hcount. lia.
    + injection Hrl as <-. rewrite Hget.
      apply Forall_set; [done|]. unfold Inv.window_ok. simpl. lia.
  - by apply createAndSendOtp_throw_inv in Hrun as ->.
Qed.

(** X4, on the example: the sixth request after five issuances. *)
Lemma createAndSendOtp_windows_ok_witness :
  Inv.windows_ok
    (World.rateLimitCache
       (snd (OtpUtils.createAndSendOtp Example.env
               (Run.out (Example.issue_at 301000 "otp-6" "666666"))
               Example.ada EMAIL (js "login") None Example.issued_five))).
Proof.
  apply (createAndSendOtp_windows_ok Example.env
           (Run.out (Example.issue_at 301000 "otp-6" "666666"))
           Example.ada EMAIL (js "login") None Example.issued_five).
  repeat constructor; simpl; lia.
Defined.

(** X5: a call of [createAndSendOtp] for one recipient leaves the rate
    limit window of every other recipient and every OTP record of another
    recipient as they were (the fresh id aside), and touches neither the
    WebAuthn sessions nor the users nor the credentials. *)
Theorem createAndSendOtp_frame env out recipient method purpose userId w :
  JsMap.wf (UserModel.otpRecords (World.userModel w)) ->
  let w' := snd (OtpUtils.createAndSendOtp env out recipient method purpose userId w) in
  (forall recipient',
      recipient' <> recipient ->
      JsMap.get recipient' (World.rateLimitCache w')
      = JsMap.get recipient' (World.rateLimitCache w))
  /\ (forall id otp,
        UserModel.getOtpById id (World.userModel w) = Some otp ->
        OtpRecord.recipient otp <> recipient ->
        id <> OtpUtils.uuidv4 out ->
        UserModel.getOtpById id (World.userModel w') = Some otp)
  /\ World.webAuthnSessions w' = World.webAuthnSessions w
  /\ UserModel.users (World.userModel w') = UserModel.users (World.userModel w)
  /\ UserModel.webauthnCredentials (World.userModel w')
     = UserModel.webauthnCredentials (World.userModel w).
Proof.
  intros Hwf w'. subst w'.
  destruct (OtpUtils.createAndSendOtp env out recipient method purpose userId w)
    as [[otpRecord|message] w'] eqn:Hrun; simpl.
  2: { by apply createAndSendOtp_throw_inv in Hrun as ->. }
  apply createAndSendOtp_ok_inv in Hrun
    as (cache1 & _ & Hrl & _ & Hcache & Hrecords & Hsessions & Husers & Hcreds).
  split_and!; try done.
  - intros recipient' Hne. rewrite Hcache. unfold OtpUtils.updateRateLimit.
    assert (JsMap.get recipient' cache1
            = JsMap.get recipient' (World.rateLimitCache w)) as Hsame.
    { unfold OtpUtils.isRateLimited in Hrl.
      destruct (JsMap.get recipient (World.rateLimitCache w)); [|by simplify_eq].
      destruct (_ <? _); simplify_eq; [|done]. by apply get_delete_ne. }
    destruct (JsMap.get recipient cache1); by rewrite get_set_ne.
  - intros id otp Hget Hrec Hid. unfold UserModel.getOtpById in *.
    rewrite Hrecords, get_set_ne by done.
    rewrite get_forEach_set by done. rewrite Hget. simpl.
    by rewrite bool_decide_eq_false_2.
Qed.

(** X5, on the example: the second issuance to the recipient. *)
Lemma createAndSendOtp_frame_witness :
  let w' := snd (OtpUtils.createAndSendOtp Example.env
                   (Run.out (Example.issue_at 2000 "otp-2" "222222"))
                   Example.ada EMAIL (js "login") None Example.issued_once) in
  (forall recipient',
      recipient' <> Example.ada ->
      JsMap.get recipient' (World.rateLimitCache w')
      = JsMap.get recipient' (World.rateLimitCache Example.issued_once))
  /\ (forall id otp,
        UserModel.getOtpById id (World.userModel Example.issued_once) = Some otp ->
        OtpRecord.recipient otp <> Example.ada ->
        id <> OtpUtils.uuidv4 (Run.out (Example.issue_at 2000 "otp-2" "222222")) ->
        UserModel.getOtpById id (World.userModel w') = Some otp)
  /\ World.webAuthnSessions w' = World.webAuthnSessions Example.issued_once
  /\ UserModel.users (World.userModel w')
     = UserModel.users (World.userModel Example.issued_once)
  /\ UserModel.webauthnCredentials (World.userModel w')
     = UserModel.webauthnCredentials (World.userModel Example.issued_once).
Proof.
  apply (createAndSendOtp_frame Example.env
           (Run.out (Example.issue_at 2000 "otp-2" "222222"))
           Example.ada EMAIL (js "login") None Example.issued_once).
  unfold JsMap.wf. vm_compute. apply NoDup_singleton.
Defined.

(** X6: after a successful issuance the record handed back is the one
    stored under its id: pending, no attempt used, three allowed, with the
    generated code, expiring ten minutes after its creation; and it is
    the recipient's only pending record. *)
Theorem issued_record_is_the_only_pending env out recipient method purpose userId
    w otpRecord w' :
  JsMap.wf (UserModel.otpRecords (World.userModel w)) ->
  OtpUtils.createAndSendOtp env out recipient method purpose userId w
  = (Return otpRecord, w') ->
  UserModel.getOtpById (OtpRecord.id otpRecord) (World.userModel w') = Some otpRecord
  /\ OtpRecord.id otpRecord = OtpUtils.uuidv4 out
  /\ OtpRecord.recipient otpRecord = recipient
  /\ OtpRecord.code otpRecord = OtpUtils.generateOtp out
  /\ OtpRecord.status otpRecord = PENDING
  /\ OtpRecord.attempts otpRecord = 0
  /\ OtpRecord.maxAttempts otpRecord = 3
  /\ OtpRecord.expiresAt otpRecord = OtpRecord.createdAt otpRecord + 600000
  /\ (forall id otp,
        UserModel.getOtpById id (World.userModel w') = Some otp ->
        OtpRecord.recipient otp = recipient ->
        OtpRecord.status otp = PENDING ->
        id = OtpRecord.id otpRecord).
Proof.
  intros Hwf Hrun.
  apply createAndSendOtp_ok_inv in Hrun
    as (cache1 & _ & _ & -> & _ & Hrecords & _). simpl.
  unfold UserModel.getOtpById. rewrite Hrecords.
  split_and!; try done.
  - apply get_set_eq.
  - intros id otp Hget Hrec Hstat.
    destruct (decide (id = OtpUtils.uuidv4 out)) as [|Hne]; [done|].
    rewrite get_set_ne in Hget by done.
    rewrite get_forEach_set in Hget by done.
    destruct (JsMap.get id (UserModel.otpRecords (World.userModel w))) as [v|];
      simpl in Hget; [|done].
    injection Hget as <-.
    destruct (bool_decide (OtpRecord.recipient v = recipient)
              && bool_decide (OtpRecord.status v = PENDING)) eqn:Hp.
    + simpl in Hstat. discriminate.
    + apply andb_false_iff in Hp as [Hp|Hp]; apply bool_decide_eq_false in Hp; done.
Qed.

(** X6, on the example: the second issuance to the recipient. *)
Lemma issued_record_is_the_only_pending_witness :
  let otpRecord :=
    OtpRecord.mk (js "otp-2") None Example.ada (js "222222") EMAIL PENDING 0 3
                 2000 602000 None in
  UserModel.getOtpById (OtpRecord.id otpRecord) (World.userModel Example.issued_twice)
  = Some otpRecord
  /\ OtpRecord.id otpRecord
     = OtpUtils.uuidv4 (Run.out (Example.issue_at 2000 "otp-2" "222222"))
  /\ OtpRecord.recipient otpRecord = Example.ada
  /\ OtpRecord.code otpRecord
     = OtpUtils.generateOtp (Run.out (Example.issue_at 2000 "otp-2" "222222"))
  /\ OtpRecord.status otpRecord = PENDING
  /\ OtpRecord.attempts otpRecord = 0
  /\ OtpRecord.maxAttempts otpRecord = 3
  /\ OtpRecord.expiresAt otpRecord = OtpRecord.createdAt otpRecord + 600000
  /\ (forall id otp,
        UserModel.getOtpById id (World.userModel Example.issued_twice) = Some otp ->
        OtpRecord.recipient otp = Example.ada ->
        OtpRecord.status otp = PENDING ->
        id = OtpRecord.id otpRecord).
Proof.
  intros otpRecord.
  apply (issued_record_is_the_only_pending Example.env
           (Run.out (Example.issue_at 2000 "otp-2" "222222"))
           Example.ada EMAIL (js "login") None Example.issued_once otpRecord
           Example.issued_twice).
  - unfold JsMap.wf. vm_compute. apply NoDup_singleton.
  - reflexivity.
Defined.

(** What [UserModel.verifyOtp] can answer for a stored record. *)
Lemma UserModel_verifyOtp_cases now id code m otp :
  JsMap.get id (UserModel.otpRecords m) = Some otp ->
  exists otp',
    UserModel.verifyOtp now id code m
    = (Some otp',
       if bool_decide (otp' = otp) then m
       else UserModel.set_otpRecords (JsMap.set id otp' (UserModel.otpRecords m)) m)
    /\ (OtpRecord.expiresAt otp < now /\ otp' = OtpRecord.with_status EXPIRED otp
        \/ now <= OtpRecord.expiresAt otp
           /\ OtpRecord.maxAttempts otp <= OtpRecord.attempts otp /\ otp' = otp
        \/ now <= OtpRecord.expiresAt otp
           /\ OtpRecord.attempts otp < OtpRecord.maxAttempts otp
           /\ code = OtpRecord.code otp
           /\ otp' = OtpRecord.with_verifiedAt now
                       (OtpRecord.with_status VERIFIED
                          (OtpRecord.with_attempts (OtpRecord.attempts otp + 1) otp))
        \/ now <= OtpRecord.expiresAt otp
           /\ OtpRecord.attempts otp < OtpRecord.maxAttempts otp
           /\ code <> OtpRecord.code otp
           /\ otp' = OtpRecord.with_status INVALID
                       (OtpRecord.with_attempts (OtpRecord.attempts otp + 1) otp)).
Proof.
  intros Hget. unfold UserModel.verifyOtp. rewrite Hget.
  destruct (OtpRecord.expiresAt otp <? now) eqn:Hexp.
  - apply Z.ltb_lt in Hexp. eexists. split; [|left; done].
    case_bool_decide as Heq; [|done].
    rewrite Heq. rewrite (set_get_id _ _ _ Hget).
    by rewrite UserModel_set_otpRecords_id.
  - apply Z.ltb_ge in Hexp.
    destruct (OtpRecord.maxAttempts otp <=? OtpRecord.attempts otp) eqn:Hmax.
    + apply Z.leb_le in Hmax. exists otp. rewrite bool_decide_eq_true_2 by done.
      split; [done | right; left; done].
    + apply Z.leb_gt in Hmax. case_bool_decide as Hcode.
      * eexists. split; [|right; right; left; done].
        rewrite bool_decide_eq_false_2; [done|].
        intros Heq. apply (f_equal OtpRecord.attempts) in Heq. simpl in Heq. lia.
      * eexists. split; [|right; right; right; done].
        rewrite bool_decide_eq_false_2; [done|].
        intros Heq. apply (f_equal OtpRecord.attempts) in Heq. simpl in Heq. lia.
Qed.

(** What a verified answer of [OtpUtils.verifyOtp] tells. *)
Lemma OtpUtils_verifyOtp_verified_inv m m' otpId code now now' otp otp' :
  UserModel.getOtpById otpId m = Some otp ->
  OtpRecord.maxAttempts otp = 3 ->
  OtpUtils.verifyOtp now now' otpId code m = (Return (Some otp'), m') ->
  OtpRecord.status otp' = VERIFIED ->
  code = OtpRecord.code otp
  /\ now <= OtpRecord.expiresAt otp
  /\ now' <= OtpRecord.expiresAt otp
  /\ OtpRecord.attempts otp < 3
  /\ OtpRecord.attempts otp' = OtpRecord.attempts otp + 1
  /\ OtpRecord.verifiedAt otp' = Some now'
  /\ UserModel.getOtpById otpId m' = Some otp'.
Proof.
  intros Hget Hmax Hrun Hstat. unfold OtpUtils.verifyOtp in Hrun.
  rewrite Hget in Hrun.
  destruct (OtpRecord.expiresAt otp <? now) eqn:Hexp.
  { injection Hrun as <- <-. simpl in Hstat. discriminate. }
  apply Z.ltb_ge in Hexp.
  destruct (OtpUtils.MAX_OTP_ATTEMPTS <=? OtpRecord.attempts otp) eqn:Hatt;
    [discriminate|].
  apply Z.leb_gt in Hatt. unfold OtpUtils.MAX_OTP_ATTEMPTS in Hatt.
  destruct (UserModel_verifyOtp_cases now' otpId code m otp Hget)
    as (otp2 & Heq & Hcases).
  rewrite Heq in Hrun. injection Hrun as -> <-.
  destruct Hcases as [[_ ->] | [(_ & ? & _) | [(? & _ & ? & ->) | (_ & _ & _ & ->)]]];
    simpl in Hstat; try discriminate; try lia.
  split_and!; try done.
  rewrite bool_decide_eq_false_2.
  - unfold UserModel.getOtpById. simpl. apply get_set_eq.
  - intros Heq'. apply (f_equal OtpRecord.attempts) in Heq'. simpl in Heq'. lia.
Qed.

(** X7: [verifyOtp] answers with a verified record only when the
    submitted code is the stored one, neither clock read is past the
    expiry, and fewer than three attempts had been made; the attempt is
    counted and the time of verification stamped. *)
Theorem verified_means_code_matched (m m' : UserModel.t) (otpId code : jsstring)
    (now now' : Z) (otp otp' : OtpRecord.t) :
  UserModel.getOtpById otpId m = Some otp ->
  OtpRecord.maxAttempts otp = 3 ->
  OtpUtils.verifyOtp now now' otpId code m = (Return (Some otp'), m') ->
  OtpRecord.status otp' = VERIFIED ->
  code = OtpRecord.code otp
  /\ now <= OtpRecord.expiresAt otp
  /\ now' <= OtpRecord.expiresAt otp
  /\ OtpRecord.attempts otp < 3
  /\ OtpRecord.attempts otp' = OtpRecord.attempts otp + 1
  /\ OtpRecord.verifiedAt otp' = Some now'
  /\ UserModel.getOtpById otpId m' = Some otp'.
Proof. apply OtpUtils_verifyOtp_verified_inv. Qed.

(** X7, on the example: the right code on the fresh record. *)
Lemma verified_means_code_matched_witness :
  js "111111" = OtpRecord.code Example.first_record
  /\ 3000 <= OtpRecord.expiresAt Example.first_record
  /\ 3001 <= OtpRecord.expiresAt Example.first_record
  /\ OtpRecord.attempts Example.first_record < 3
  /\ OtpRecord.attempts
       (OtpRecord.with_verifiedAt 3001
          (OtpRecord.with_status VERIFIED
             (OtpRecord.with_attempts 1 Example.first_record)))
     = OtpRecord.attempts Example.first_record + 1
  /\ OtpRecord.verifiedAt
       (OtpRecord.with_verifiedAt 3001
          (OtpRecord.with_status VERIFIED
             (OtpRecord.with_attempts 1 Example.first_record)))
     = Some 3001
  /\ UserModel.getOtpById (js "otp-1")
       (snd (OtpUtils.verifyOtp 3000 3001 (js "otp-1") (js "111111")
               (World.userModel Example.issued_once)))
     = Some (OtpRecord.with_verifiedAt 3001
               (OtpRecord.with_status VERIFIED
                  (OtpRecord.with_attempts 1 Example.first_record))).
Proof.
  apply (verified_means_code_matched (World.userModel Example.issued_once)
           (snd (OtpUtils.verifyOtp 3000 3001 (js "otp-1") (js "111111")
                   (World.userModel Example.issued_once)))
           (js "otp-1") (js "111111") 3000 3001 Example.first_record).
  - reflexivity.
  - reflexivity.
  - reflexivity.
  - reflexivity.
Defined.

(** X8: whatever it answers, [verifyOtp] changes nothing but the status,
    the attempt count and the verification time of the checked record:
    id, owner, recipient, code, channel, limit, creation and expiry times
    stay, the attempt count grows by at most one, and every other record
    is as before. *)
Theorem verifyOtp_keeps_the_secret (m : UserModel.t) (otpId code : jsstring)
    (now now' : Z) (otp : OtpRecord.t) :
  UserModel.getOtpById otpId m = Some otp ->
  let m' := snd (OtpUtils.verifyOtp now now' otpId code m) in
  (exists otp',
      UserModel.getOtpById otpId m' = Some otp'
      /\ OtpRecord.id otp' = OtpRecord.id otp
      /\ OtpRecord.userId otp' = OtpRecord.userId otp
      /\ OtpRecord.recipient otp' = OtpRecord.recipient otp
      /\ OtpRecord.code otp' = OtpRecord.code otp
      /\ OtpRecord.method otp' = OtpRecord.method otp
      /\ OtpRecord.maxAttempts otp' = OtpRecord.maxAttempts otp
      /\ OtpRecord.createdAt otp' = OtpRecord.createdAt otp
      /\ OtpRecord.expiresAt otp' = OtpRecord.expiresAt otp
      /\ OtpRecord.attempts otp <= OtpRecord.attempts otp'
         <= OtpRecord.attempts otp + 1)
  /\ (forall id, id <> otpId ->
        UserModel.getOtpById id m' = UserModel.getOtpById id m)
  /\ UserModel.users m' = UserModel.users m
  /\ UserModel.webauthnCredentials m' = UserModel.webauthnCredentials m.
Proof.
  intros Hget m'. subst m'. unfold OtpUtils.verifyOtp. rewrite Hget.
  destruct (OtpRecord.expiresAt otp <? now).
  { simpl. split_and!; try done. exists otp. split_and!; try done; lia. }
  destruct (OtpUtils.MAX_OTP_ATTEMPTS <=? OtpRecord.attempts otp).
  { simpl. split_and!; try done. exists otp. split_and!; try done; lia. }
  destruct (UserModel_verifyOtp_cases now' otpId code m otp Hget)
    as (otp2 & -> & Hcases). simpl.
  assert (OtpRecord.id otp2 = OtpRecord.id otp
          /\ OtpRecord.userId otp2 = OtpRecord.userId otp
          /\ OtpRecord.recipient otp2 = OtpRecord.recipient otp
          /\ OtpRecord.code otp2 = OtpRecord.code otp
          /\ OtpRecord.method otp2 = OtpRecord.method otp
          /\ OtpRecord.maxAttempts otp2 = OtpRecord.maxAttempts otp
          /\ OtpRecord.createdAt otp2 = OtpRecord.createdAt otp
          /\ OtpRecord.expiresAt otp2 = OtpRecord.expiresAt otp
          /\ OtpRecord.attempts otp <= OtpRecord.attempts otp2
             <= OtpRecord.attempts otp + 1) as Hsame.
  { destruct Hcases as [[_ ->] | [(_ & _ & ->) | [(_ & _ & _ & ->) | (_ & _ & _ & ->)]]];
      simpl; split_and!; try done; lia. }
  unfold UserModel.getOtpById in *.
  case_bool_decide as Heq; simpl.
  - subst otp2. split_and!; try done. by exists otp.
  - split_and!; try done.
    + exists otp2. split; [apply get_set_eq | done].
    + intros id Hne. by apply get_set_ne.
Qed.

(** X8, on the example: a wrong guess on the fresh record. *)
Lemma verifyOtp_keeps_the_secret_witness :
  let m := World.userModel Example.issued_once in
  let m' := snd (OtpUtils.verifyOtp 3000 3000 (js "otp-1") (js "000000") m) in
  (exists otp',
      UserModel.getOtpById (js "otp-1") m' = Some otp'
      /\ OtpRecord.id otp' = OtpRecord.id Example.first_record
      /\ OtpRecord.userId otp' = OtpRecord.userId Example.first_record
      /\ OtpRecord.recipient otp' = OtpRecord.recipient Example.first_record
      /\ OtpRecord.code otp' = OtpRecord.code Example.first_record
      /\ OtpRecord.method otp' = OtpRecord.method Example.first_record
      /\ OtpRecord.maxAttempts otp' = OtpRecord.maxAttempts Example.first_record
      /\ OtpRecord.createdAt otp' = OtpRecord.createdAt Example.first_record
      /\ OtpRecord.expiresAt otp' = OtpRecord.expiresAt Example.first_record
      /\ OtpRecord.attempts Example.first_record <= OtpRecord.attempts otp'
         <= OtpRecord.attempts Example.first_record + 1)
  /\ (forall id, id <> js "otp-1" ->
        UserModel.getOtpById id m' = UserModel.getOtpById id m)
  /\ UserModel.users m' = UserModel.users m
  /\ UserModel.webauthnCredentials m' = UserModel.webauthnCredentials m.
Proof.
  intros m.
  apply (verifyOtp_keeps_the_secret m (js "otp-1") (js "000000") 3000 3000
           Example.first_record).
  reflexivity.
Defined.

(** ** More on the routes of [auth.ts] *)

(** A 200 answer of [POST /verify-otp] went through a verified check. *)
Lemma verifyOtp_route_ok_inv toLowerCase out otpId code registerUser name w ok w' :
  AuthRoutes.verifyOtp toLowerCase out otpId code registerUser name w = (Ok200 ok, w') ->
  exists otp' m',
    OtpUtils.verifyOtp (AuthRoutes.clock_verifyOtp out)
                       (AuthRoutes.clock_userModel_verifyOtp out)
                       otpId code (World.userModel w)
    = (Return (Some otp'), m')
    /\ OtpRecord.status otp' = VERIFIED.
Proof.
  unfold AuthRoutes.verifyOtp.
  destruct (negb (AuthRoutes.valid out)); [discriminate|].
  destruct (OtpUtils.verifyOtp _ _ _ _ _) as [[[otp'|]|message] m'];
    simpl; try discriminate.
  destruct (bool_decide (OtpRecord.status otp' = EXPIRED)); [discriminate|].
  case_bool_decide as Hstat; [discriminate|].
  intros _. exists otp', m'. split; [done|].
  by destruct (OtpRecord.status otp').
Qed.

(** X9: [POST /verify-otp] answers 200, and so hands out a token, only
    for a stored challenge whose code is the submitted one, checked before
    its expiry and with fewer than three attempts made. *)
Theorem token_only_for_the_right_code (toLowerCase : jsstring -> jsstring)
    (out : AuthRoutes.Outside) (otpId code : jsstring) (registerUser : bool)
    (name : option jsstring) (w w' : World.t) (ok : AuthRoutes.VerifyOtpOk.t) :
  Inv.records_ok (World.userModel w) ->
  AuthRoutes.verifyOtp toLowerCase out otpId code registerUser name w = (Ok200 ok, w') ->
  exists otp,
    UserModel.getOtpById otpId (World.userModel w) = Some otp
    /\ code = OtpRecord.code otp
    /\ AuthRoutes.clock_verifyOtp out <= OtpRecord.expiresAt otp
    /\ AuthRoutes.clock_userModel_verifyOtp out <= OtpRecord.expiresAt otp
    /\ OtpRecord.attempts otp < 3.
Proof.
  intros Hok Hrun.
  apply verifyOtp_route_ok_inv in Hrun as (otp' & m' & Hrun & Hstat).
  destruct (UserModel.getOtpById otpId (World.userModel w)) as [otp|] eqn:Hget.
  - exists otp. split; [done|].
    destruct (get_Forall _ _ _ _ Hok Hget) as (_ & Hmax & _). simpl in Hmax.
    destruct (OtpUtils_verifyOtp_verified_inv _ _ _ _ _ _ _ _ Hget Hmax Hrun Hstat)
      as (? & ? & ? & ? & _).
    done.
  - unfold OtpUtils.verifyOtp in Hrun. by rewrite Hget in Hrun.
Qed.

(** X9, on the example: the first challenge, answered with its own code
    by somebody who registers under the name Ada. *)
Lemma token_only_for_the_right_code_witness :
  let out := Example.auth_outside 3000 "user-2" "otp-9" "999999" in
  exists otp,
    UserModel.getOtpById (js "otp-1") (World.userModel Example.issued_once) = Some otp
    /\ js "111111" = OtpRecord.code otp
    /\ AuthRoutes.clock_verifyOtp out <= OtpRecord.expiresAt otp
    /\ AuthRoutes.clock_userModel_verifyOtp out <= OtpRecord.expiresAt otp
    /\ OtpRecord.attempts otp < 3.
Proof.
  intros out.
  eapply (token_only_for_the_right_code Example.toLowerCase out (js "otp-1")
            (js "111111") true (Some (js "Ada")) Example.issued_once).
  - unfold Inv.records_ok. vm_compute. repeat constructor; discriminate.
  - vm_compute. reflexivity.
Defined.

(** X10: an expired challenge and a wrong code each get their own 400
    from [POST /verify-otp]: "OTP has expired. Please request a new one."
    with nothing written, and "Invalid OTP code" with the number of
    attempts left, the attempt being counted in the store. *)
Theorem verifyOtp_route_expired_or_wrong (toLowerCase : jsstring -> jsstring)
    (out : AuthRoutes.Outside) (otpId code : jsstring) (registerUser : bool)
    (name : option jsstring) (w : World.t) (otp : OtpRecord.t) :
  AuthRoutes.valid out = true ->
  UserModel.getOtpById otpId (World.userModel w) = Some otp ->
  (OtpRecord.expiresAt otp < AuthRoutes.clock_verifyOtp out ->
   AuthRoutes.verifyOtp toLowerCase out otpId code registerUser name w
   = (fail 400 "Verification Error" "OTP has expired. Please request a new one.", w))
  /\ (AuthRoutes.clock_verifyOtp out <= OtpRecord.expiresAt otp ->
      AuthRoutes.clock_userModel_verifyOtp out <= OtpRecord.expiresAt otp ->
      OtpRecord.attempts otp < 3 ->
      OtpRecord.maxAttempts otp = 3 ->
      code <> OtpRecord.code otp ->
      let (r, w') :=
        AuthRoutes.verifyOtp toLowerCase out otpId code registerUser name w in
      r = Failure 400 (mkError "Verification Error" "Invalid OTP code" false
                               (Some (3 - (OtpRecord.attempts otp + 1))))
      /\ (OtpRecord.attempts <$> UserModel.getOtpById otpId (World.userModel w'))
         = Some (OtpRecord.attempts otp + 1)).
Proof.
  intros Hvalid Hget. split.
  - intros Hexp. unfold AuthRoutes.verifyOtp. rewrite Hvalid. simpl.
    rewrite (OtpUtils_verifyOtp_expired _ _ _ _ _ otp Hget Hexp). simpl.
    by rewrite World_set_userModel_id.
  - intros Hnow Hnow' Hatt Hmax Hcode. unfold AuthRoutes.verifyOtp.
    rewrite Hvalid. simpl.
    rewrite (OtpUtils_verifyOtp_wrong _ otpId code _ _ otp Hget Hnow Hnow');
      [| unfold OtpUtils.MAX_OTP_ATTEMPTS; lia | lia | done].
    simpl. rewrite Hmax. split; [done|].
    unfold UserModel.getOtpById. simpl. by rewrite get_set_eq.
Qed.

(** X10, on the example. *)
Lemma verifyOtp_route_expired_or_wrong_witness :
  let out := Example.auth_outside 3000 "user-2" "otp-9" "999999" in
  (OtpRecord.expiresAt Example.first_record < AuthRoutes.clock_verifyOtp out ->
   AuthRoutes.verifyOtp Example.toLowerCase out (js "otp-1") (js "000000") false None
                        Example.issued_once
   = (fail 400 "Verification Error" "OTP has expired. Please request a new one.",
      Example.issued_once))
  /\ (AuthRoutes.clock_verifyOtp out <= OtpRecord.expiresAt Example.first_record ->
      AuthRoutes.clock_userModel_verifyOtp out
        <= OtpRecord.expiresAt Example.first_record ->
      OtpRecord.attempts Example.first_record < 3 ->
      OtpRecord.maxAttempts Example.first_record = 3 ->
      js "000000" <> OtpRecord.code Example.first_record ->
      let (r, w') :=
        AuthRoutes.verifyOtp Example.toLowerCase out (js "otp-1") (js "000000")
                             false None Example.issued_once in
      r = Failure 400 (mkError "Verification Error" "Invalid OTP code" false
                               (Some (3 - (OtpRecord.attempts Example.first_record + 1))))
      /\ (OtpRecord.attempts <$> UserModel.getOtpById (js "otp-1") (World.userModel w'))
         = Some (OtpRecord.attempts Example.first_record + 1)).
Proof.
  intros out.
  apply (verifyOtp_route_expired_or_wrong Example.toLowerCase out (js "otp-1")
           (js "000000") false None Example.issued_once Example.first_record).
  - reflexivity.
  - reflexivity.
Defined.

(** X11: [POST /request-otp] changes the state only when it answers 200:
    every error answer, whatever its status, leaves the world as it
    was. *)
Theorem requestOtp_failure_changes_nothing (toLowerCase : jsstring -> jsstring)
    (env : Env.t) (out : AuthRoutes.Outside) (email phone : option jsstring)
    (purpose : jsstring) (w w' : World.t) (status : Z) (body : ErrorBody) :
  AuthRoutes.requestOtp toLowerCase env out email phone purpose w
  = (Failure status body, w') ->
  w' = w.
Proof.
  unfold AuthRoutes.requestOtp.
  repeat case_match; try (by intros [= <- <- <-]); try (by intros [= <- <-]);
    try discriminate.
  all: intros [= _ <-].
  all: match goal with
       | H : OtpUtils.createAndSendOtp _ _ _ _ _ _ _ = (Throw _, _) |- _ =>
           by apply createAndSendOtp_throw_inv in H
       end.
Qed.

(** X11, on the example: the sixth request of the hour. *)
Lemma requestOtp_failure_changes_nothing_witness :
  Example.issued_five = Example.issued_five.
Proof.
  apply (requestOtp_failure_changes_nothing Example.toLowerCase Example.env
           (Example.auth_outside 301000 "user-2" "otp-6" "666666")
           (Some Example.ada) None (js "recovery") Example.issued_five
           Example.issued_five 429
           (mkError "Too Many Requests" "Rate limit exceeded. Please try again later."
                    false None)).
  reflexivity.
Defined.

(** ** The user directory *)

Section Directory.
Variable toLowerCase : jsstring -> jsstring.

(** What a successful [createUser] did. *)
Lemma createUser_ok_inv now userId profile authMethod m user m' :
  UserModel.createUser toLowerCase now userId profile authMethod m = (Return user, m') ->
  user = User.mk userId (UserProfile.name profile) (UserProfile.email profile)
                 (UserProfile.phone profile) now now None None [authMethod]
                 false false None
  /\ UserModel.users m' = JsMap.set userId user (UserModel.users m)
  /\ UserModel.emailIndex m'
     = match UserProfile.email profile with
       | Some e =>
           if truthy e then JsMap.set (toLowerCase e) userId (UserModel.emailIndex m)
           else UserModel.emailIndex m
       | None => UserModel.emailIndex m
       end
  /\ UserModel.phoneIndex m'
     = match UserProfile.phone profile with
       | Some p =>
           if truthy p then JsMap.set p userId (UserModel.phoneIndex m)
           else UserModel.phoneIndex m
       | None => UserModel.phoneIndex m
       end
  /\ UserModel.didIndex m' = UserModel.didIndex m
  /\ UserModel.otpRecords m' = UserModel.otpRecords m
  /\ UserModel.webauthnCredentials m' = UserModel.webauthnCredentials m
  /\ UserModel.webauthnCredentialsByUser m' = UserModel.webauthnCredentialsByUser m.
Proof.
  unfold UserModel.createUser.
  repeat case_match; intros [= <- <-] || intros [=]; simpl; done.
Qed.

(** X12: the user [createUser] returns can be found again: by its id, by
    its e-mail address in any spelling that has the same lower-case form,
    and by its phone number.  It has the one authentication method given
    and no verified contact. *)
Theorem createUser_round_trip (now : Z) (userId : jsstring)
    (profile : UserProfile.t) (authMethod : AuthMethod) (m m' : UserModel.t)
    (user : User.t) :
  userId <> [] ->
  UserModel.createUser toLowerCase now userId profile authMethod m = (Return user, m') ->
  UserModel.getUserById userId m' = Some user
  /\ User.id user = userId
  /\ User.authMethods user = [authMethod]
  /\ User.isEmailVerified user = false
  /\ User.isPhoneVerified user = false
  /\ (forall e e',
        UserProfile.email profile = Some e -> e <> [] ->
        toLowerCase e' = toLowerCase e ->
        UserModel.getUserByEmail toLowerCase e' m' = Some user)
  /\ (forall p,
        UserProfile.phone profile = Some p -> p <> [] ->
        UserModel.getUserByPhone p m' = Some user).
Proof.
  intros Hid Hrun.
  apply createUser_ok_inv in Hrun as (-> & Husers & Hemail & Hphone & _). simpl.
  assert (truthy userId = true) as Htruthy by (by destruct userId).
  unfold UserModel.getUserById, UserModel.getUserByEmail, UserModel.getUserByPhone.
  rewrite Husers, Hemail, Hphone. split_and!; try done.
  - apply get_set_eq.
  - intros e e' -> He Hlower. rewrite Hlower.
    assert (truthy e = true) as -> by (by destruct e).
    rewrite get_set_eq, Htruthy. apply get_set_eq.
  - intros p -> Hp.
    assert (truthy p = true) as -> by (by destruct p).
    rewrite get_set_eq, Htruthy. apply get_set_eq.
Qed.

(** X13: [createUser] refuses a second account for an e-mail address
    that is already indexed, in any spelling with the same lower-case
    form, and for a phone number that is already indexed; whenever it
    throws, the store is unchanged. *)
Theorem createUser_rejects_duplicates (now : Z) (userId : jsstring)
    (profile : UserProfile.t) (authMethod : AuthMethod) (m : UserModel.t) :
  UserProfile.name profile <> [] ->
  (forall e e' u,
      UserProfile.email profile = Some e -> e <> [] ->
      toLowerCase e = toLowerCase e' ->
      UserModel.getUserByEmail toLowerCase e' m = Some u ->
      UserModel.createUser toLowerCase now userId profile authMethod m
      = (Throw "User with this email already exists", m))
  /\ (forall p u,
        UserProfile.email profile = None ->
        UserProfile.phone profile = Some p -> p <> [] ->
        UserModel.getUserByPhone p m = Some u ->
        UserModel.createUser toLowerCase now userId profile authMethod m
        = (Throw "User with this phone already exists", m))
  /\ (forall message m',
        UserModel.createUser toLowerCase now userId profile authMethod m
        = (Throw message, m') ->
        m' = m).
Proof.
  intros Hname.
  assert (truthy (UserProfile.name profile) = true) as Hn
    by (by destruct (UserProfile.name profile)).
  split_and!.
  - intros e e' u He Hne Hlower Hfound. unfold UserModel.createUser.
    rewrite Hn, He. simpl.
    assert (truthy e = true) as -> by (by destruct e). simpl.
    unfold UserModel.getUserByEmail in Hfound. rewrite <- Hlower in Hfound.
    unfold JsMap.has.
    destruct (JsMap.get (toLowerCase e) (UserModel.emailIndex m)); done.
  - intros p u He Hp Hne Hfound. unfold UserModel.createUser.
    rewrite Hn, He, Hp. simpl.
    assert (truthy p = true) as -> by (by destruct p). simpl.
    unfold UserModel.getUserByPhone in Hfound. unfold JsMap.has.
    destruct (JsMap.get p (UserModel.phoneIndex m)); done.
  - intros message m'. unfold UserModel.createUser.
    repeat case_match; intros [= <- <-] || intros [=]; done.
Qed.

End Directory.

(** X12, on the example: the account of the example. *)
Lemma createUser_round_trip_witness :
  let user :=
    User.mk (js "user-1") (js "Ada") (Some Example.ada) None 100 100 None None
            [AuthEMAIL] false false None in
  let m' := World.userModel Example.registered in
  UserModel.getUserById (js "user-1") m' = Some user
  /\ User.id user = js "user-1"
  /\ User.authMethods user = [AuthEMAIL]
  /\ User.isEmailVerified user = false
  /\ User.isPhoneVerified user = false
  /\ (forall e e',
        Some Example.ada = Some e -> e <> [] ->
        Example.toLowerCase e' = Example.toLowerCase e ->
        UserModel.getUserByEmail Example.toLowerCase e' m' = Some user)
  /\ (forall p,
        None = Some p -> p <> [] ->
        UserModel.getUserByPhone p m' = Some user).
Proof.
  intros user m'.
  apply (createUser_round_trip Example.toLowerCase 100 (js "user-1")
           (UserProfile.mk (js "Ada") (Some Example.ada) None 100 100) AuthEMAIL
           UserModel.empty m' user).
  - discriminate.
  - reflexivity.
Defined.

(** X13, on the example: the address of the example in capitals. *)
Lemma createUser_rejects_duplicates_witness :
  let profile := UserProfile.mk (js "Eve") (Some (js "ADA@EXAMPLE.ORG")) None 0 0 in
  let m := World.userModel Example.registered in
  (forall e e' u,
      UserProfile.email profile = Some e -> e <> [] ->
      Example.toLowerCase e = Example.toLowerCase e' ->
      UserModel.getUserByEmail Example.toLowerCase e' m = Some u ->
      UserModel.createUser Example.toLowerCase 900 (js "user-9") profile AuthEMAIL m
      = (Throw "User with this email already exists", m))
  /\ (forall p u,
        UserProfile.email profile = None ->
        UserProfile.phone profile = Some p -> p <> [] ->
        UserModel.getUserByPhone p m = Some u ->
        UserModel.createUser Example.toLowerCase 900 (js "user-9") profile AuthEMAIL m
        = (Throw "User with this phone already exists", m))
  /\ (forall message m',
        UserModel.createUser Example.toLowerCase 900 (js "user-9") profile AuthEMAIL m
        = (Throw message, m') ->
        m' = m).
Proof.
  intros profile m.
  apply (createUser_rejects_duplicates Example.toLowerCase 900 (js "user-9") profile
           AuthEMAIL m).
  discriminate.
Defined.

Lemma get_fold_delete {V : Type} (ks : list jsstring) (m : JsMap.t V) k :
  JsMap.get k (fold_left (fun acc k' => JsMap.delete k' acc) ks m)
  = if bool_decide (k ∈ ks) then None else JsMap.get k m.
Proof.
  revert m. induction ks as [|k' ks IH]; intros m; simpl; [done|].
  rewrite IH. case_bool_decide as Hin.
  - by rewrite bool_decide_eq_true_2 by (apply elem_of_cons; by right).
  - destruct (decide (k = k')) as [->|Hne].
    + rewrite bool_decide_eq_true_2 by (apply elem_of_cons; by left).
      apply get_delete_eq.
    + rewrite bool_decide_eq_false_2.
      * by apply get_delete_ne.
      * intros [?|?]%elem_of_cons; done.
Qed.

Section DirectoryChanges.
Variable toLowerCase : jsstring -> jsstring.

(** X14: [deleteUser] forgets the account: afterwards its id, its e-mail
    address, its phone number and its DID resolve to nothing, it has no
    WebAuthn credentials left and each of its credentials is gone from
    the store.  OTP records are not touched. *)
Theorem deleteUser_forgets (id : jsstring) (m : UserModel.t) (user : User.t) :
  UserModel.getUserById id m = Some user ->
  let m' := snd (UserModel.deleteUser toLowerCase id m) in
  fst (UserModel.deleteUser toLowerCase id m) = true
  /\ UserModel.getUserById id m' = None
  /\ (forall e, User.email user = Some e -> e <> [] ->
        UserModel.getUserByEmail toLowerCase e m' = None)
  /\ (forall p, User.phone user = Some p -> p <> [] ->
        UserModel.getUserByPhone p m' = None)
  /\ (forall d, User.did user = Some d -> d <> [] ->
        UserModel.getUserByDid d m' = None)
  /\ UserModel.getWebAuthnCredentialsByUserId id m' = []
  /\ (forall credentialIds credId,
        JsMap.get id (UserModel.webauthnCredentialsByUser m) = Some credentialIds ->
        credId ∈ credentialIds ->
        UserModel.getWebAuthnCredentialById credId m' = None)
  /\ UserModel.otpRecords m' = UserModel.otpRecords m.
Proof.
  intros Hget m'. subst m'. unfold UserModel.getUserById in Hget.
  unfold UserModel.deleteUser. rewrite Hget. simpl.
  set (m1 := match User.email user with
             | Some e =>
                 if truthy e
                 then UserModel.set_emailIndex
                        (JsMap.delete (toLowerCase e) (UserModel.emailIndex m)) m
                 else m
             | None => m
             end).
  set (m2 := match User.phone user with
             | Some p =>
                 if truthy p
                 then UserModel.set_phoneIndex
                        (JsMap.delete p (UserModel.phoneIndex m1)) m1
                 else m1
             | None => m1
             end).
  set (m3 := match User.did user with
             | Some d =>
                 if truthy d
                 then UserModel.set_didIndex
                        (JsMap.delete d (UserModel.didIndex m2)) m2
                 else m2
             | None => m2
             end).
  assert (UserModel.webauthnCredentialsByUser m3 = UserModel.webauthnCredentialsByUser m
          /\ UserModel.webauthnCredentials m3 = UserModel.webauthnCredentials m
          /\ UserModel.otpRecords m3 = UserModel.otpRecords m) as (Hby & Hcreds & Hotp).
  { subst m3 m2 m1. repeat case_match; simpl; done. }
  split_and!.
  - done.
  - unfold UserModel.getUserById. destruct (JsMap.get id _); simpl; apply get_delete_eq.
  - intros e He Hne. unfold UserModel.getUserByEmail.
    assert (JsMap.get (toLowerCase e) (UserModel.emailIndex m3) = None) as Hnone.
    { subst m3 m2 m1. rewrite He.
      assert (truthy e = true) as -> by (by destruct e).
      repeat case_match; simpl; apply get_delete_eq. }
    destruct (JsMap.get id (UserModel.webauthnCredentialsByUser m3)); simpl;
      by rewrite Hnone.
  - intros p Hp Hne. unfold UserModel.getUserByPhone.
    assert (JsMap.get p (UserModel.phoneIndex m3) = None) as Hnone.
    { subst m3 m2. rewrite Hp.
      assert (truthy p = true) as -> by (by destruct p).
      repeat case_match; simpl; apply get_delete_eq. }
    destruct (JsMap.get id (UserModel.webauthnCredentialsByUser m3)); simpl;
      by rewrite Hnone.
  - intros d Hd Hne. unfold UserModel.getUserByDid.
    assert (JsMap.get d (UserModel.didIndex m3) = None) as Hnone.
    { subst m3. rewrite Hd.
      assert (truthy d = true) as -> by (by destruct d).
      simpl. apply get_delete_eq. }
    destruct (JsMap.get id (UserModel.webauthnCredentialsByUser m3)); simpl;
      by rewrite Hnone.
  - unfold UserModel.getWebAuthnCredentialsByUserId.
    destruct (JsMap.get id (UserModel.webauthnCredentialsByUser m3)) eqn:Hids; simpl.
    + by rewrite get_delete_eq.
    + by rewrite Hids.
  - intros credentialIds credId Hids Hin. unfold UserModel.getWebAuthnCredentialById.
    rewrite Hby, Hids. simpl. rewrite get_fold_delete.
    by rewrite bool_decide_eq_true_2.
  - destruct (JsMap.get id (UserModel.webauthnCredentialsByUser m3)); simpl; done.
Qed.

End DirectoryChanges.

(** X14, on the example: the enrolled account of the example. *)
Lemma deleteUser_forgets_witness :
  let m := World.userModel Example.enrolled in
  let m' := snd (UserModel.deleteUser Example.toLowerCase (js "user-1") m) in
  fst (UserModel.deleteUser Example.toLowerCase (js "user-1") m) = true
  /\ UserModel.getUserById (js "user-1") m' = None
  /\ (forall e, User.email Example.ada_enrolled = Some e -> e <> [] ->
        UserModel.getUserByEmail Example.toLowerCase e m' = None)
  /\ (forall p, User.phone Example.ada_enrolled = Some p -> p <> [] ->
        UserModel.getUserByPhone p m' = None)
  /\ (forall d, User.did Example.ada_enrolled = Some d -> d <> [] ->
        UserModel.getUserByDid d m' = None)
  /\ UserModel.getWebAuthnCredentialsByUserId (js "user-1") m' = []
  /\ (forall credentialIds credId,
        JsMap.get (js "user-1") (UserModel.webauthnCredentialsByUser m)
        = Some credentialIds ->
        credId ∈ credentialIds ->
        UserModel.getWebAuthnCredentialById credId m' = None)
  /\ UserModel.otpRecords m' = UserModel.otpRecords m.
Proof.
  intros m.
  apply (deleteUser_forgets Example.toLowerCase (js "user-1") m Example.ada_enrolled).
  reflexivity.
Defined.

Section DirectoryUpdates.
Variable toLowerCase : jsstring -> jsstring.

Lemma truthy_ne (s : jsstring) : s <> [] -> truthy s = true.
Proof. by destruct s. Qed.

(** X15: [updateUser] with a new e-mail address.  When no account is
    indexed under the new address, the account gets it and is found under
    it, and no longer under the old one.  When the new address is indexed
    already, the call throws "Email already in use" and leaves the users
    as they were, but the old address has left the index by then: the
    account is no longer found under it. *)
Theorem updateUser_email_change (now : Z) (id e : jsstring) (name : option jsstring)
    (m : UserModel.t) (user : User.t) :
  let updates := UserUpdates.mk name (Some e) None None in
  id <> [] -> e <> [] ->
  UserModel.getUserById id m = Some user ->
  (forall old, User.email user = Some old -> toLowerCase old <> toLowerCase e) ->
  (JsMap.get (toLowerCase e) (UserModel.emailIndex m) = None ->
   exists user',
     fst (UserModel.updateUser toLowerCase now id updates m) = Return (Some user')
     /\ User.id user' = User.id user
     /\ User.email user' = Some e
     /\ UserModel.getUserById id (snd (UserModel.updateUser toLowerCase now id updates m))
        = Some user'
     /\ UserModel.getUserByEmail toLowerCase e
          (snd (UserModel.updateUser toLowerCase now id updates m))
        = Some user'
     /\ (forall old, User.email user = Some old -> old <> [] ->
           UserModel.getUserByEmail toLowerCase old
             (snd (UserModel.updateUser toLowerCase now id updates m))
           = None))
  /\ (forall other,
        JsMap.get (toLowerCase e) (UserModel.emailIndex m) = Some other ->
        fst (UserModel.updateUser toLowerCase now id updates m)
        = Throw "Email already in use"
        /\ UserModel.users (snd (UserModel.updateUser toLowerCase now id updates m))
           = UserModel.users m
        /\ (forall old, User.email user = Some old -> old <> [] ->
              UserModel.getUserByEmail toLowerCase old
                (snd (UserModel.updateUser toLowerCase now id updates m))
              = None)).
Proof.
  intros updates Hid He Hget Hold. unfold UserModel.getUserById in Hget.
  assert (bool_decide (Some e <> User.email user) = true) as Hdiff.
  { apply bool_decide_eq_true_2. intros Heq. symmetry in Heq.
    by apply (Hold e Heq). }
  assert (JsMap.get (toLowerCase e)
            (UserModel.emailIndex (UserModel.updateUser_email_thrown toLowerCase user m))
          = JsMap.get (toLowerCase e) (UserModel.emailIndex m)) as Hsame.
  { unfold UserModel.updateUser_email_thrown.
    destruct (User.email user) as [old|] eqn:Hemail; [|done].
    destruct (truthy old); [|done]. simpl.
    apply get_delete_ne. by apply Hold. }
  assert (forall old, User.email user = Some old -> old <> [] ->
            JsMap.get (toLowerCase old)
              (UserModel.emailIndex (UserModel.updateUser_email_thrown toLowerCase user m))
            = None) as Hgone.
  { intros old Hemail Hne. unfold UserModel.updateUser_email_thrown.
    rewrite Hemail, (truthy_ne old Hne). simpl. apply get_delete_eq. }
  split.
  - intros Hfree. unfold UserModel.updateUser, UserModel.updateUser_email. rewrite Hget.
    simpl. rewrite (truthy_ne e He), Hdiff. simpl.
    unfold JsMap.has. rewrite Hsame, Hfree. simpl.
    eexists. split_and!; try reflexivity.
    + unfold UserModel.getUserById. simpl. apply get_set_eq.
    + unfold UserModel.getUserByEmail. simpl.
      rewrite get_set_eq, (truthy_ne id Hid). apply get_set_eq.
    + intros old Hemail Hne. unfold UserModel.getUserByEmail. simpl.
      rewrite get_set_ne by (intros Heq; by apply (Hold old Hemail)).
      by rewrite (Hgone old Hemail Hne).
  - intros other Htaken. unfold UserModel.updateUser, UserModel.updateUser_email.
    rewrite Hget. simpl. rewrite (truthy_ne e He), Hdiff. simpl.
    unfold JsMap.has. rewrite Hsame, Htaken. simpl. split_and!; try done.
    + unfold UserModel.updateUser_email_thrown. by repeat case_match.
    + intros old Hemail Hne. unfold UserModel.getUserByEmail.
      by rewrite (Hgone old Hemail Hne).
Qed.

(** X16: [setUserDid] gives a DID to one account only.  A DID indexed for
    another account is refused with "DID already assigned to another
    user" and nothing changes; otherwise the account gets the DID and is
    found under it. *)
Theorem setUserDid_is_exclusive (now : Z) (userId did : jsstring)
    (didDocument : option jsstring) (m : UserModel.t) (user : User.t) :
  userId <> [] ->
  UserModel.getUserById userId m = Some user ->
  (forall other,
      JsMap.get did (UserModel.didIndex m) = Some other ->
      other <> [] -> other <> userId ->
      UserModel.setUserDid now userId did didDocument m
      = (Throw "DID already assigned to another user", m))
  /\ (JsMap.get did (UserModel.didIndex m) = None
      \/ JsMap.get did (UserModel.didIndex m) = Some userId ->
      exists user',
        fst (UserModel.setUserDid now userId did didDocument m) = Return (Some user')
        /\ User.id user' = User.id user
        /\ User.did user' = Some did
        /\ User.didDocument user' = didDocument
        /\ UserModel.getUserById userId
             (snd (UserModel.setUserDid now userId did didDocument m))
           = Some user'
        /\ UserModel.getUserByDid did
             (snd (UserModel.setUserDid now userId did didDocument m))
           = Some user').
Proof.
  intros Hid Hget. unfold UserModel.getUserById in Hget. split.
  - intros other Hother Hne Hne'. unfold UserModel.setUserDid.
    rewrite Hget, Hother, (truthy_ne other Hne). simpl.
    by rewrite bool_decide_eq_true_2.
  - intros Hfree. unfold UserModel.setUserDid. rewrite Hget.
    assert (match JsMap.get did (UserModel.didIndex m) with
            | Some existingUserId =>
                truthy existingUserId && bool_decide (existingUserId <> userId)
            | None => false
            end = false) as ->.
    { destruct Hfree as [-> | ->]; [done|].
      rewrite bool_decide_eq_false_2 by (intros H; by apply H).
      apply andb_false_r. }
    simpl. eexists. split_and!; try reflexivity.
    + unfold UserModel.getUserById. simpl. apply get_set_eq.
    + unfold UserModel.getUserByDid. simpl.
      rewrite get_set_eq, (truthy_ne userId Hid). apply get_set_eq.
Qed.

End DirectoryUpdates.

(** X17: [addAuthMethod] adds the method once: afterwards the account has
    it, keeps the methods it had, has no method twice if it had none
    twice, and a second call changes nothing. *)
Theorem addAuthMethod_once (now now2 : Z) (userId : jsstring) (method : AuthMethod)
    (m : UserModel.t) :
  let m1 := snd (UserModel.addAuthMethod now userId method m) in
  (forall user,
      UserModel.getUserById userId m = Some user ->
      exists user1,
        UserModel.getUserById userId m1 = Some user1
        /\ method ∈ User.authMethods user1
        /\ (forall x, x ∈ User.authMethods user -> x ∈ User.authMethods user1)
        /\ (NoDup (User.authMethods user) -> NoDup (User.authMethods user1)))
  /\ (UserModel.getUserById userId m = None -> m1 = m)
  /\ snd (UserModel.addAuthMethod now2 userId method m1) = m1.
Proof.
  intros m1. subst m1. unfold UserModel.getUserById, UserModel.addAuthMethod.
  destruct (JsMap.get userId (UserModel.users m)) as [user|] eqn:Hget.
  - case_bool_decide as Hin; simpl.
    + split_and!; [| done |].
      * intros ? [= <-]. exists user. by rewrite Hget.
      * by rewrite Hget, bool_decide_eq_true_2.
    + split_and!; [| done |].
      * intros ? [= <-]. eexists. split; [apply get_set_eq|]. simpl. split_and!.
        -- apply elem_of_app. right. by apply list_elem_of_singleton.
        -- intros x Hx. apply elem_of_app. by left.
        -- intros Hnd. apply NoDup_app. split_and!; [done | | apply NoDup_singleton].
           intros x Hx Hx'%list_elem_of_singleton. by subst.
      * rewrite get_set_eq. simpl.
        rewrite bool_decide_eq_true_2; [done|].
        apply elem_of_app. right. by apply list_elem_of_singleton.
  - simpl. split_and!; [done | done |]. by rewrite Hget.
Qed.

(** X15, on the example: the account of the example takes a new address. *)
Lemma updateUser_email_change_witness :
  let e := js "ada@example.com" in
  let m := World.userModel Example.registered in
  let updates := UserUpdates.mk None (Some e) None None in
  (JsMap.get (Example.toLowerCase e) (UserModel.emailIndex m) = None ->
   exists user',
     fst (UserModel.updateUser Example.toLowerCase 900 (js "user-1") updates m)
     = Return (Some user')
     /\ User.id user' = User.id Example.ada_created
     /\ User.email user' = Some e
     /\ UserModel.getUserById (js "user-1")
          (snd (UserModel.updateUser Example.toLowerCase 900 (js "user-1") updates m))
        = Some user'
     /\ UserModel.getUserByEmail Example.toLowerCase e
          (snd (UserModel.updateUser Example.toLowerCase 900 (js "user-1") updates m))
        = Some user'
     /\ (forall old, User.email Example.ada_created = Some old -> old <> [] ->
           UserModel.getUserByEmail Example.toLowerCase old
             (snd (UserModel.updateUser Example.toLowerCase 900 (js "user-1") updates m))
           = None))
  /\ (forall other,
        JsMap.get (Example.toLowerCase e) (UserModel.emailIndex m) = Some other ->
        fst (UserModel.updateUser Example.toLowerCase 900 (js "user-1") updates m)
        = Throw "Email already in use"
        /\ UserModel.users
             (snd (UserModel.updateUser Example.toLowerCase 900 (js "user-1") updates m))
           = UserModel.users m
        /\ (forall old, User.email Example.ada_created = Some old -> old <> [] ->
              UserModel.getUserByEmail Example.toLowerCase old
                (snd (UserModel.updateUser Example.toLowerCase 900 (js "user-1")
                        updates m))
              = None)).
Proof.
  intros e m.
  apply (updateUser_email_change Example.toLowerCase 900 (js "user-1") e None m
           Example.ada_created).
  - discriminate.
  - discriminate.
  - reflexivity.
  - intros old [= <-]. vm_compute. discriminate.
Defined.

(** X16, on the example: the account of the example gets a DID. *)
Lemma setUserDid_is_exclusive_witness :
  let m := World.userModel Example.registered in
  let did := js "did:key:z6Mk" in
  (forall other,
      JsMap.get did (UserModel.didIndex m) = Some other ->
      other <> [] -> other <> js "user-1" ->
      UserModel.setUserDid 900 (js "user-1") did None m
      = (Throw "DID already assigned to another user", m))
  /\ (JsMap.get did (UserModel.didIndex m) = None
      \/ JsMap.get did (UserModel.didIndex m) = Some (js "user-1") ->
      exists user',
        fst (UserModel.setUserDid 900 (js "user-1") did None m) = Return (Some user')
        /\ User.id user' = User.id Example.ada_created
        /\ User.did user' = Some did
        /\ User.didDocument user' = None
        /\ UserModel.getUserById (js "user-1")
             (snd (UserModel.setUserDid 900 (js "user-1") did None m))
           = Some user'
        /\ UserModel.getUserByDid did
             (snd (UserModel.setUserDid 900 (js "user-1") did None m))
           = Some user').
Proof.
  intros m did.
  apply (setUserDid_is_exclusive 900 (js "user-1") did None m Example.ada_created).
  - discriminate.
  - reflexivity.
Defined.

(** ** The credential store *)

Lemma addAuthMethod_frame now userId method m :
  UserModel.webauthnCredentials (snd (UserModel.addAuthMethod now userId method m))
  = UserModel.webauthnCredentials m
  /\ UserModel.webauthnCredentialsByUser (snd (UserModel.addAuthMethod now userId method m))
     = UserModel.webauthnCredentialsByUser m
  /\ UserModel.otpRecords (snd (UserModel.addAuthMethod now userId method m))
     = UserModel.otpRecords m.
Proof. unfold UserModel.addAuthMethod. by repeat case_match. Qed.

Lemma addAuthMethod_has now userId method m user :
  JsMap.get userId (UserModel.users m) = Some user ->
  exists user',
    JsMap.get userId (UserModel.users (snd (UserModel.addAuthMethod now userId method m)))
    = Some user'
    /\ method ∈ User.authMethods user'
    /\ User.id user' = User.id user.
Proof.
  intros Hget. unfold UserModel.addAuthMethod. rewrite Hget.
  case_bool_decide as Hin; simpl.
  - by exists user.
  - eexists. split; [apply get_set_eq|]. simpl. split; [|done].
    apply elem_of_app. right. by apply list_elem_of_singleton.
Qed.

Lemma elem_of_JsSet_add (x y : jsstring) (s : JsSet.t) :
  x ∈ JsSet.add y s <-> x = y \/ x ∈ s.
Proof.
  unfold JsSet.add, JsSet.has. case_bool_decide as Hin.
  - split; [by right | intros [->|?]; done].
  - rewrite elem_of_app, list_elem_of_singleton. tauto.
Qed.

(** What [storeWebAuthnCredential] leaves in the store. *)
Lemma storeWebAuthnCredential_spec (now : Z) (id : jsstring)
    (credential : WebAuthnCredential.t) (m : UserModel.t) :
  let stored := fst (UserModel.storeWebAuthnCredential now id credential m) in
  let m' := snd (UserModel.storeWebAuthnCredential now id credential m) in
  let userId := WebAuthnCredential.userId credential in
  UserModel.getWebAuthnCredentialById id m' = Some stored
  /\ stored
     = WebAuthnCredential.mk id userId
         (WebAuthnCredential.credentialId credential)
         (WebAuthnCredential.publicKey credential)
         (WebAuthnCredential.counter credential)
         (WebAuthnCredential.transports credential)
         (WebAuthnCredential.deviceType credential) now
         (WebAuthnCredential.lastUsed credential)
  /\ stored ∈ UserModel.getWebAuthnCredentialsByUserId userId m'
  /\ (forall user,
        UserModel.getUserById userId m = Some user ->
        exists user',
          UserModel.getUserById userId m' = Some user'
          /\ AuthWEBAUTHN ∈ User.authMethods user')
  /\ (forall id', id' <> id ->
        UserModel.getWebAuthnCredentialById id' m'
        = UserModel.getWebAuthnCredentialById id' m).
Proof.
  intros stored m' userId. subst stored m' userId.
  unfold UserModel.getWebAuthnCredentialById, UserModel.getUserById,
    UserModel.getWebAuthnCredentialsByUserId, UserModel.storeWebAuthnCredential.
  simpl.
  destruct (addAuthMethod_frame now (WebAuthnCredential.userId credential) AuthWEBAUTHN
              (UserModel.set_webauthnCredentialsByUser
                 (JsMap.set (WebAuthnCredential.userId credential)
                    (JsSet.add id
                       (match JsMap.get (WebAuthnCredential.userId credential)
                                (UserModel.webauthnCredentialsByUser m) with
                        | Some s => s
                        | None => []
                        end))
                    (UserModel.webauthnCredentialsByUser m))
                 (UserModel.set_webauthnCredentials
                    (JsMap.set id
                       (WebAuthnCredential.mk id (WebAuthnCredential.userId credential)
                          (WebAuthnCredential.credentialId credential)
                          (WebAuthnCredential.publicKey credential)
                          (WebAuthnCredential.counter credential)
                          (WebAuthnCredential.transports credential)
                          (WebAuthnCredential.deviceType credential) now
                          (WebAuthnCredential.lastUsed credential))
                       (UserModel.webauthnCredentials m)) m)))
    as (Hcreds & Hby & _).
  simpl in Hcreds, Hby. rewrite Hcreds, Hby. split_and!.
  - apply get_set_eq.
  - done.
  - rewrite get_set_eq. apply list_elem_of_omap. exists id. split.
    + apply elem_of_JsSet_add. by left.
    + apply get_set_eq.
  - intros user Hget.
    destruct (addAuthMethod_has now (WebAuthnCredential.userId credential) AuthWEBAUTHN
                (UserModel.set_webauthnCredentialsByUser
                   (JsMap.set (WebAuthnCredential.userId credential)
                      (JsSet.add id
                         (match JsMap.get (WebAuthnCredential.userId credential)
                                  (UserModel.webauthnCredentialsByUser m) with
                          | Some s => s
                          | None => []
                          end))
                      (UserModel.webauthnCredentialsByUser m))
                   (UserModel.set_webauthnCredentials
                      (JsMap.set id
                         (WebAuthnCredential.mk id (WebAuthnCredential.userId credential)
                            (WebAuthnCredential.credentialId credential)
                            (WebAuthnCredential.publicKey credential)
                            (WebAuthnCredential.counter credential)
                            (WebAuthnCredential.transports credential)
                            (WebAuthnCredential.deviceType credential) now
                            (WebAuthnCredential.lastUsed credential))
                         (UserModel.webauthnCredentials m)) m)) user Hget)
      as (user' & Hget' & Hin & _).
    by exists user'.
  - intros id' Hne. by apply get_set_ne.
Qed.

(** X18: a credential stored by [storeWebAuthnCredential] is found again
    under the id it was given, with the fields it was given and the time
    of storing; it is among the credentials of its owner; the owner, if
    there is such an account, has WebAuthn as an authentication method; and
    the credentials under other ids are untouched. *)
Theorem storeWebAuthnCredential_round_trip (now : Z) (id : jsstring)
    (credential : WebAuthnCredential.t) (m : UserModel.t) :
  let stored := fst (UserModel.storeWebAuthnCredential now id credential m) in
  let m' := snd (UserModel.storeWebAuthnCredential now id credential m) in
  let userId := WebAuthnCredential.userId credential in
  UserModel.getWebAuthnCredentialById id m' = Some stored
  /\ stored
     = WebAuthnCredential.mk id userId
         (WebAuthnCredential.credentialId credential)
         (WebAuthnCredential.publicKey credential)
         (WebAuthnCredential.counter credential)
         (WebAuthnCredential.transports credential)
         (WebAuthnCredential.deviceType credential) now
         (WebAuthnCredential.lastUsed credential)
  /\ stored ∈ UserModel.getWebAuthnCredentialsByUserId userId m'
  /\ (forall user,
        UserModel.getUserById userId m = Some user ->
        exists user',
          UserModel.getUserById userId m' = Some user'
          /\ AuthWEBAUTHN ∈ User.authMethods user')
  /\ (forall id', id' <> id ->
        UserModel.getWebAuthnCredentialById id' m'
        = UserModel.getWebAuthnCredentialById id' m).
Proof. apply storeWebAuthnCredential_spec. Qed.

Lemma JsSet_delete_spec (x y : jsstring) (s : JsSet.t) :
  x ∈ JsSet.delete y s <-> x ∈ s /\ x <> y.
Proof. unfold JsSet.delete. rewrite list_elem_of_filter. tauto. Qed.

(** What [deleteWebAuthnCredential] does to the parts of the store. *)
Lemma deleteWebAuthnCredential_inv now id m credential :
  JsMap.get id (UserModel.webauthnCredentials m) = Some credential ->
  let userId := WebAuthnCredential.userId credential in
  let m' := snd (UserModel.deleteWebAuthnCredential now id m) in
  fst (UserModel.deleteWebAuthnCredential now id m) = true
  /\ UserModel.webauthnCredentials m' = JsMap.delete id (UserModel.webauthnCredentials m)
  /\ UserModel.webauthnCredentialsByUser m'
     = match JsMap.get userId (UserModel.webauthnCredentialsByUser m) with
       | Some s => JsMap.set userId (JsSet.delete id s) (UserModel.webauthnCredentialsByUser m)
       | None => UserModel.webauthnCredentialsByUser m
       end
  /\ UserModel.users m'
     = match JsMap.get userId (UserModel.webauthnCredentialsByUser m),
             JsMap.get userId (UserModel.users m) with
       | Some s, Some user =>
           if bool_decide (JsSet.size (JsSet.delete id s) = 0) then
             JsMap.set userId
               (User.mk (User.id user) (User.name user) (User.email user)
                        (User.phone user) (User.createdAt user) now (User.did user)
                        (User.didDocument user)
                        (filter (fun method => method <> AuthWEBAUTHN)
                                (User.authMethods user))
                        (User.isEmailVerified user) (User.isPhoneVerified user)
                        (User.lastLogin user))
               (UserModel.users m)
           else UserModel.users m
       | _, _ => UserModel.users m
       end
  /\ UserModel.otpRecords m' = UserModel.otpRecords m
  /\ UserModel.emailIndex m' = UserModel.emailIndex m
  /\ UserModel.phoneIndex m' = UserModel.phoneIndex m
  /\ UserModel.didIndex m' = UserModel.didIndex m.
Proof.
  intros Hget userId m'. subst userId m'. unfold UserModel.deleteWebAuthnCredential.
  rewrite Hget. simpl.
  destruct (JsMap.get (WebAuthnCredential.userId credential)
              (UserModel.webauthnCredentialsByUser m)) as [s|]; simpl;
    [|by repeat split].
  destruct (JsMap.get (WebAuthnCredential.userId credential) (UserModel.users m));
    case_bool_decide; simpl; by repeat split.
Qed.

(** X19: [deleteWebAuthnCredential] removes the credential from the store
    and from the credentials of its owner, leaves every other credential
    alone, and, when it was the owner's last one, takes WebAuthn out of the
    owner's authentication methods while keeping the other methods.  An id
    that is not in the store changes nothing. *)
Theorem deleteWebAuthnCredential_removes (now : Z) (id : jsstring) (m : UserModel.t) :
  let m' := snd (UserModel.deleteWebAuthnCredential now id m) in
  (UserModel.getWebAuthnCredentialById id m = None ->
   UserModel.deleteWebAuthnCredential now id m = (false, m))
  /\ (forall credential,
        UserModel.getWebAuthnCredentialById id m = Some credential ->
        let userId := WebAuthnCredential.userId credential in
        fst (UserModel.deleteWebAuthnCredential now id m) = true
        /\ UserModel.getWebAuthnCredentialById id m' = None
        /\ (forall id', id' <> id ->
              UserModel.getWebAuthnCredentialById id' m'
              = UserModel.getWebAuthnCredentialById id' m)
        /\ (forall ids,
              JsMap.get userId (UserModel.webauthnCredentialsByUser m') = Some ids ->
              (id ∉ ids))
        /\ (forall ids user,
              JsMap.get userId (UserModel.webauthnCredentialsByUser m) = Some ids ->
              (forall x, x ∈ ids -> x = id) ->
              UserModel.getUserById userId m = Some user ->
              exists user',
                UserModel.getUserById userId m' = Some user'
                /\ (AuthWEBAUTHN ∉ User.authMethods user')
                /\ (forall method, method <> AuthWEBAUTHN ->
                      method ∈ User.authMethods user ->
                      method ∈ User.authMethods user'))).
Proof.
  intros m'. subst m'. unfold UserModel.getWebAuthnCredentialById, UserModel.getUserById.
  split.
  - intros Hnone. unfold UserModel.deleteWebAuthnCredential. by rewrite Hnone.
  - intros credential Hget.
    destruct (deleteWebAuthnCredential_inv now id m credential Hget)
      as (Hfst & Hcreds & Hby & Husers & _).
    cbv zeta in *. set (userId := WebAuthnCredential.userId credential) in *.
    rewrite Hcreds, Hby, Husers.
    split_and!.
    + done.
    + apply get_delete_eq.
    + intros id' Hne. by apply get_delete_ne.
    + intros ids.
      destruct (JsMap.get userId (UserModel.webauthnCredentialsByUser m)) as [s|] eqn:Hs.
      * rewrite get_set_eq. intros [= <-] Hin%JsSet_delete_spec. by destruct Hin.
      * by rewrite Hs.
    + intros ids user Hids Hall Huser. rewrite Hids, Huser.
      assert (JsSet.delete id ids = []) as Hempty.
      { apply elem_of_nil_inv. intros x [Hx Hne]%JsSet_delete_spec.
        by apply Hne, Hall. }
      rewrite Hempty. simpl. eexists. split; [apply get_set_eq|]. simpl. split.
      * intros [Hne _]%list_elem_of_filter. done.
      * intros method Hne Hin. by apply list_elem_of_filter.
Qed.

(** X20: [DELETE /credentials/:id] deletes only a credential of the
    caller: an unknown id is answered 404 and a credential of another
    account 403, both without any change; for a credential of the caller
    the answer is 200 and the credential is gone. *)
Theorem deleteCredential_own_only (now : Z) (userId credentialId : jsstring)
    (w : World.t) :
  match UserModel.getWebAuthnCredentialById credentialId (World.userModel w) with
  | None =>
      WebAuthnRoutes.deleteCredential now userId credentialId w
      = (fail 404 "Not Found" "Credential not found", w)
  | Some credential =>
      if bool_decide (WebAuthnCredential.userId credential = userId) then
        exists w',
          WebAuthnRoutes.deleteCredential now userId credentialId w = (Ok200 tt, w')
          /\ UserModel.getWebAuthnCredentialById credentialId (World.userModel w') = None
          /\ World.webAuthnSessions w' = World.webAuthnSessions w
      else
        WebAuthnRoutes.deleteCredential now userId credentialId w
        = (fail 403 "Forbidden" "You can only delete your own credentials", w)
  end.
Proof.
  unfold WebAuthnRoutes.deleteCredential.
  destruct (UserModel.getWebAuthnCredentialById credentialId (World.userModel w))
    as [credential|] eqn:Hget; [|done].
  case_bool_decide as Hown.
  - rewrite bool_decide_eq_false_2 by (intros H; by apply H).
    eexists. split; [reflexivity|]. simpl. split; [|done].
    unfold UserModel.getWebAuthnCredentialById in *.
    destruct (deleteWebAuthnCredential_inv now credentialId (World.userModel w)
                credential Hget) as (_ & -> & _).
    apply get_delete_eq.
  - by rewrite bool_decide_eq_true_2.
Qed.

(** ** More on the WebAuthn routes *)

(** Storing a credential leaves the OTP records alone. *)
Lemma storeWebAuthnCredential_otpRecords now id credential m :
  UserModel.otpRecords (snd (UserModel.storeWebAuthnCredential now id credential m))
  = UserModel.otpRecords m.
Proof.
  unfold UserModel.storeWebAuthnCredential. cbv zeta. cbn [snd].
  match goal with
  | |- UserModel.otpRecords (snd (UserModel.addAuthMethod ?n ?u ?a ?m2)) = _ =>
      destruct (addAuthMethod_frame n u a m2) as (_ & _ & ->)
  end.
  done.
Qed.

(** What a successful registration completion went through. *)
Lemma verifyRegistration_ok_inv out sessionId credential w payload w' :
  WebAuthnRoutes.verifyRegistration out sessionId credential w = (Ok200 payload, w') ->
  exists session userId user info,
    WebAuthnRoutes.valid out = true
    /\ JsMap.get sessionId (World.webAuthnSessions w) = Some session
    /\ WebAuthnSession.userId session = Some userId
    /\ UserModel.getUserById userId (World.userModel w) = Some user
    /\ WebAuthnRoutes.verifyRegistrationResponse out
       = Return (WebAuthnRoutes.VerifiedRegistrationResponse.mk true (Some info))
    /\ payload
       = WebAuthnRoutes.VerifyRegistrationOk.mk
           (WebAuthnCredential.credentialId
              (fst (UserModel.storeWebAuthnCredential
                      (WebAuthnRoutes.clock_credential out)
                      (WebAuthnRoutes.uuidv4 out)
                      (WebAuthnCredential.mk [] userId
                         (WebAuthnRoutes.RegistrationInfo.credentialID info)
                         (WebAuthnRoutes.RegistrationInfo.credentialPublicKey info)
                         (WebAuthnRoutes.RegistrationInfo.counter info)
                         (default [] (WebAuthnRoutes.Credential.transports
                                        credential))
                         (Some (js "platform")) 0 None)
                      (World.userModel w))))
    /\ w'
       = World.set_webAuthnSessions
           (JsMap.delete sessionId (World.webAuthnSessions w))
           (World.set_userModel
              (snd (UserModel.addAuthMethod (WebAuthnRoutes.clock_user out) userId
                      AuthWEBAUTHN
                      (snd (UserModel.storeWebAuthnCredential
                              (WebAuthnRoutes.clock_credential out)
                              (WebAuthnRoutes.uuidv4 out)
                              (WebAuthnCredential.mk [] userId
                                 (WebAuthnRoutes.RegistrationInfo.credentialID info)
                                 (WebAuthnRoutes.RegistrationInfo.credentialPublicKey info)
                                 (WebAuthnRoutes.RegistrationInfo.counter info)
                                 (default [] (WebAuthnRoutes.Credential.transports
                                                credential))
                                 (Some (js "platform")) 0 None)
                              (World.userModel w)))))
              w).
Proof.
  unfold WebAuthnRoutes.verifyRegistration.
  destruct (WebAuthnRoutes.valid out); cbn [negb]; [|discriminate].
  destruct (JsMap.get sessionId _) as [session|]; [|discriminate].
  destruct (WebAuthnSession.userId session) as [userId|] eqn:HuserId; [|discriminate].
  destruct (UserModel.getUserById userId _) as [user|] eqn:Huser; [|discriminate].
  destruct (WebAuthnRoutes.verifyRegistrationResponse out) as [[[|] [info|]]|];
    try discriminate.
  cbn [WebAuthnRoutes.VerifiedRegistrationResponse.verified
       WebAuthnRoutes.VerifiedRegistrationResponse.registrationInfo].
  destruct (UserModel.storeWebAuthnCredential _ _ _ _) as [stored um1] eqn:Hstore.
  intros [= <- <-]. exists session, userId, user, info. rewrite Hstore.
  by repeat split.
Qed.

(** X21: a registration completion that answers 200 has stored one new
    credential, under the fresh id, for the account of the session, with
    the credential id, the public key and the counter the verifier
    reported; the answer names that credential id; the account has
    WebAuthn as an authentication method; the OTP records and the rate
    limit cache are untouched. *)
Theorem registration_stores_the_credential (out : WebAuthnRoutes.Outside)
    (sessionId : jsstring) (credential : WebAuthnRoutes.Credential.t)
    (w w' : World.t) (payload : WebAuthnRoutes.VerifyRegistrationOk.t) :
  WebAuthnRoutes.verifyRegistration out sessionId credential w = (Ok200 payload, w') ->
  exists session userId info stored user',
    JsMap.get sessionId (World.webAuthnSessions w) = Some session
    /\ WebAuthnSession.userId session = Some userId
    /\ WebAuthnRoutes.verifyRegistrationResponse out
       = Return (WebAuthnRoutes.VerifiedRegistrationResponse.mk true (Some info))
    /\ UserModel.getWebAuthnCredentialById (WebAuthnRoutes.uuidv4 out)
                                           (World.userModel w') = Some stored
    /\ WebAuthnCredential.userId stored = userId
    /\ WebAuthnCredential.credentialId stored
       = WebAuthnRoutes.RegistrationInfo.credentialID info
    /\ WebAuthnCredential.publicKey stored
       = WebAuthnRoutes.RegistrationInfo.credentialPublicKey info
    /\ WebAuthnCredential.counter stored = WebAuthnRoutes.RegistrationInfo.counter info
    /\ WebAuthnRoutes.VerifyRegistrationOk.credentialId payload
       = WebAuthnRoutes.RegistrationInfo.credentialID info
    /\ stored ∈ UserModel.getWebAuthnCredentialsByUserId userId (World.userModel w')
    /\ UserModel.getUserById userId (World.userModel w') = Some user'
    /\ AuthWEBAUTHN ∈ User.authMethods user'
    /\ UserModel.otpRecords (World.userModel w') = UserModel.otpRecords (World.userModel w)
    /\ World.rateLimitCache w' = World.rateLimitCache w.
Proof.
  intros Hrun.
  apply verifyRegistration_ok_inv in Hrun
    as (session & userId & user & info & _ & Hsession & HuserId & Huser & Hver & -> & ->).
  pose proof (storeWebAuthnCredential_spec (WebAuthnRoutes.clock_credential out)
                (WebAuthnRoutes.uuidv4 out)
                (WebAuthnCredential.mk [] userId
                   (WebAuthnRoutes.RegistrationInfo.credentialID info)
                   (WebAuthnRoutes.RegistrationInfo.credentialPublicKey info)
                   (WebAuthnRoutes.RegistrationInfo.counter info)
                   (default [] (WebAuthnRoutes.Credential.transports credential))
                   (Some (js "platform")) 0 None)
                (World.userModel w)) as Hspec.
  pose proof (storeWebAuthnCredential_otpRecords (WebAuthnRoutes.clock_credential out)
                (WebAuthnRoutes.uuidv4 out)
                (WebAuthnCredential.mk [] userId
                   (WebAuthnRoutes.RegistrationInfo.credentialID info)
                   (WebAuthnRoutes.RegistrationInfo.credentialPublicKey info)
                   (WebAuthnRoutes.RegistrationInfo.counter info)
                   (default [] (WebAuthnRoutes.Credential.transports credential))
                   (Some (js "platform")) 0 None)
                (World.userModel w)) as Hotp1.
  cbv zeta in Hspec.
  cbn [WebAuthnCredential.userId WebAuthnCredential.credentialId
       WebAuthnCredential.publicKey WebAuthnCredential.counter
       WebAuthnCredential.transports WebAuthnCredential.deviceType
       WebAuthnCredential.lastUsed] in Hspec.
  destruct (UserModel.storeWebAuthnCredential _ _ _ _) as [stored m1].
  cbn [fst snd] in *.
  destruct Hspec as (Hget & Hstored & Hin & Hmethod & _).
  destruct (Hmethod user Huser) as (user1 & Huser1 & Hin1).
  destruct (addAuthMethod_frame (WebAuthnRoutes.clock_user out) userId AuthWEBAUTHN m1)
    as (Hcreds & Hby & Hotp).
  destruct (addAuthMethod_has (WebAuthnRoutes.clock_user out) userId AuthWEBAUTHN m1
              user1 Huser1) as (user' & Huser' & Hin' & _).
  exists session, userId, info, stored, user'.
  unfold World.set_webAuthnSessions, World.set_userModel.
  cbn [World.userModel World.rateLimitCache].
  unfold UserModel.getWebAuthnCredentialById, UserModel.getUserById,
    UserModel.getWebAuthnCredentialsByUserId in *.
  rewrite Hcreds, Hby, Hotp.
  split_and!; try done; by rewrite Hstored.
Qed.

(** X21, on the example: the enrolment of the account. *)
Lemma registration_stores_the_credential_witness :
  let out := Example.outside "credential-1" 300 0 in
  exists session userId info stored user',
    JsMap.get (js "session-1") (World.webAuthnSessions Example.registering) = Some session
    /\ WebAuthnSession.userId session = Some userId
    /\ WebAuthnRoutes.verifyRegistrationResponse out
       = Return (WebAuthnRoutes.VerifiedRegistrationResponse.mk true (Some info))
    /\ UserModel.getWebAuthnCredentialById (WebAuthnRoutes.uuidv4 out)
                                           (World.userModel Example.enrolled) = Some stored
    /\ WebAuthnCredential.userId stored = userId
    /\ WebAuthnCredential.credentialId stored
       = WebAuthnRoutes.RegistrationInfo.credentialID info
    /\ WebAuthnCredential.publicKey stored
       = WebAuthnRoutes.RegistrationInfo.credentialPublicKey info
    /\ WebAuthnCredential.counter stored = WebAuthnRoutes.RegistrationInfo.counter info
    /\ WebAuthnRoutes.VerifyRegistrationOk.credentialId
         (WebAuthnRoutes.VerifyRegistrationOk.mk (js "AAAA"))
       = WebAuthnRoutes.RegistrationInfo.credentialID info
    /\ stored ∈ UserModel.getWebAuthnCredentialsByUserId userId
                  (World.userModel Example.enrolled)
    /\ UserModel.getUserById userId (World.userModel Example.enrolled) = Some user'
    /\ AuthWEBAUTHN ∈ User.authMethods user'
    /\ UserModel.otpRecords (World.userModel Example.enrolled)
       = UserModel.otpRecords (World.userModel Example.registering)
    /\ World.rateLimitCache Example.enrolled = World.rateLimitCache Example.registering.
Proof.
  intros out.
  apply (registration_stores_the_credential out (js "session-1") Example.credential
           Example.registering Example.enrolled
           (WebAuthnRoutes.VerifyRegistrationOk.mk (js "AAAA"))).
  by vm_compute.
Defined.

(** What a successful authentication completion went through. *)
Lemma verifyAuthentication_ok_chain out sessionId credential w payload w' :
  WebAuthnRoutes.verifyAuthentication out sessionId credential w = (Ok200 payload, w') ->
  exists session userId user credentialId stored info token,
    WebAuthnRoutes.valid out = true
    /\ JsMap.get sessionId (World.webAuthnSessions w) = Some session
    /\ WebAuthnSession.userId session = Some userId
    /\ UserModel.getUserById userId (World.userModel w) = Some user
    /\ WebAuthnRoutes.fromBuffer out = Return credentialId
    /\ UserModel.getWebAuthnCredentialByCredentialId credentialId (World.userModel w)
       = Some stored
    /\ WebAuthnCredential.userId stored = User.id user
    /\ WebAuthnRoutes.verifyAuthenticationResponse out
       = Return (WebAuthnRoutes.VerifiedAuthenticationResponse.mk true (Some info))
    /\ WebAuthnRoutes.generateToken out = Return token
    /\ payload = WebAuthnRoutes.VerifyAuthenticationOk.mk token user.
Proof.
  unfold WebAuthnRoutes.verifyAuthentication. cbv zeta.
  destruct (WebAuthnRoutes.valid out); cbn [negb]; [|discriminate].
  destruct (JsMap.get sessionId _) as [session|]; [|discriminate].
  destruct (WebAuthnSession.userId session) as [userId|] eqn:HuserId; [|discriminate].
  destruct (UserModel.getUserById userId _) as [user|] eqn:Huser; [|discriminate].
  destruct (WebAuthnRoutes.fromBuffer out) as [credentialId|]; [|discriminate].
  destruct (UserModel.getWebAuthnCredentialByCredentialId credentialId _)
    as [stored|] eqn:Hstored; [|discriminate].
  case_bool_decide as Howner; [discriminate|].
  destruct (WebAuthnRoutes.toBuffer out); [|discriminate].
  destruct (WebAuthnRoutes.verifyAuthenticationResponse out) as [[[|] [info|]]|];
    try discriminate.
  cbn [WebAuthnRoutes.VerifiedAuthenticationResponse.verified
       WebAuthnRoutes.VerifiedAuthenticationResponse.authenticationInfo].
  destruct (WebAuthnRoutes.generateToken out) as [token|]; [|discriminate].
  intros [= <- _].
  exists session, userId, user, credentialId, stored, info, token.
  split_and!; try done.
Qed.

(** X22: an authentication completion answers 200 only when the
    credential the client presents is a stored one that belongs to the
    account the session was opened for, and the verifier accepted the
    assertion; the answer carries that account and the token made for
    it. *)
Theorem authentication_is_by_the_owner (out : WebAuthnRoutes.Outside)
    (sessionId : jsstring) (credential : WebAuthnRoutes.Credential.t)
    (w w' : World.t) (payload : WebAuthnRoutes.VerifyAuthenticationOk.t) :
  WebAuthnRoutes.verifyAuthentication out sessionId credential w = (Ok200 payload, w') ->
  exists session userId user credentialId stored info,
    JsMap.get sessionId (World.webAuthnSessions w) = Some session
    /\ WebAuthnSession.userId session = Some userId
    /\ UserModel.getUserById userId (World.userModel w) = Some user
    /\ WebAuthnRoutes.fromBuffer out = Return credentialId
    /\ UserModel.getWebAuthnCredentialByCredentialId credentialId (World.userModel w)
       = Some stored
    /\ WebAuthnCredential.credentialId stored = credentialId
    /\ WebAuthnCredential.userId stored = User.id user
    /\ WebAuthnRoutes.verifyAuthenticationResponse out
       = Return (WebAuthnRoutes.VerifiedAuthenticationResponse.mk true (Some info))
    /\ WebAuthnRoutes.VerifyAuthenticationOk.user payload = user
    /\ WebAuthnRoutes.generateToken out
       = Return (WebAuthnRoutes.VerifyAuthenticationOk.token payload).
Proof.
  intros Hrun.
  apply verifyAuthentication_ok_chain in Hrun
    as (session & userId & user & credentialId & stored & info & token & _ & Hsession
        & HuserId & Huser & Hfrom & Hstored & Howner & Hver & Htoken & ->).
  exists session, userId, user, credentialId, stored, info.
  split_and!; try done.
  unfold UserModel.getWebAuthnCredentialByCredentialId in Hstored.
  apply find_some in Hstored as [_ Hmatch].
  by apply bool_decide_eq_true in Hmatch.
Qed.

(** X22, on the example: the login of the enrolled account. *)
Lemma authentication_is_by_the_owner_witness :
  let out := Example.outside "unused" 500 0 in
  let payload := WebAuthnRoutes.VerifyAuthenticationOk.mk (js "token") Example.ada_enrolled in
  exists session userId user credentialId stored info,
    JsMap.get (js "session-2") (World.webAuthnSessions Example.authenticating)
    = Some session
    /\ WebAuthnSession.userId session = Some userId
    /\ UserModel.getUserById userId (World.userModel Example.authenticating) = Some user
    /\ WebAuthnRoutes.fromBuffer out = Return credentialId
    /\ UserModel.getWebAuthnCredentialByCredentialId credentialId
         (World.userModel Example.authenticating) = Some stored
    /\ WebAuthnCredential.credentialId stored = credentialId
    /\ WebAuthnCredential.userId stored = User.id user
    /\ WebAuthnRoutes.verifyAuthenticationResponse out
       = Return (WebAuthnRoutes.VerifiedAuthenticationResponse.mk true (Some info))
    /\ WebAuthnRoutes.VerifyAuthenticationOk.user payload = user
    /\ WebAuthnRoutes.generateToken out
       = Return (WebAuthnRoutes.VerifyAuthenticationOk.token payload).
Proof.
  intros out payload.
  apply (authentication_is_by_the_owner out (js "session-2") Example.credential
           Example.authenticating Example.authenticated payload).
  by vm_compute.
Defined.

(** X23: an authentication completion that is refused never consumes the
    session, so the ceremony can be retried with the same session id; it
    writes nothing at all, unless it is the 500 answered because making
    the token failed, which comes after the counter and the last login
    were written. *)
Theorem refused_authentication_keeps_the_session (out : WebAuthnRoutes.Outside)
    (sessionId : jsstring) (credential : WebAuthnRoutes.Credential.t)
    (w w' : World.t) (status : Z) (body : ErrorBody) :
  WebAuthnRoutes.verifyAuthentication out sessionId credential w
  = (Failure status body, w') ->
  World.webAuthnSessions w' = World.webAuthnSessions w
  /\ World.rateLimitCache w' = World.rateLimitCache w
  /\ (w' = w
      \/ (status = 500
          /\ (exists message, WebAuthnRoutes.generateToken out = Throw message)
          /\ exists info,
               WebAuthnRoutes.verifyAuthenticationResponse out
               = Return (WebAuthnRoutes.VerifiedAuthenticationResponse.mk true
                           (Some info)))).
Proof.
  unfold WebAuthnRoutes.verifyAuthentication. cbv zeta.
  destruct (WebAuthnRoutes.valid out); cbn [negb];
    [|intros [= _ _ <-]; by repeat split; try left].
  destruct (JsMap.get sessionId _) as [session|];
    [|intros [= _ _ <-]; by repeat split; try left].
  destruct (WebAuthnSession.userId session) as [userId|];
    [|intros [= _ _ <-]; by repeat split; try left].
  destruct (UserModel.getUserById userId _) as [user|];
    [|intros [= _ _ <-]; by repeat split; try left].
  destruct (WebAuthnRoutes.fromBuffer out) as [credentialId|];
    [|intros [= _ _ <-]; by repeat split; try left].
  destruct (UserModel.getWebAuthnCredentialByCredentialId credentialId _)
    as [stored|]; [|intros [= _ _ <-]; by repeat split; try left].
  case_bool_decide; [intros [= _ _ <-]; by repeat split; try left|].
  destruct (WebAuthnRoutes.toBuffer out);
    [|intros [= _ _ <-]; by repeat split; try left].
  destruct (WebAuthnRoutes.verifyAuthenticationResponse out) as [[[|] [info|]]|];
    cbn [WebAuthnRoutes.VerifiedAuthenticationResponse.verified
         WebAuthnRoutes.VerifiedAuthenticationResponse.authenticationInfo];
    try (intros [= _ _ <-]; by repeat split; try left).
  destruct (WebAuthnRoutes.generateToken out) as [token|message]; [discriminate|].
  intros [= <- _ <-]. split; [done|]. split; [done|]. right.
  split; [done|]. split; [by exists message | by exists info].
Qed.

(** X23, on the example: the login of the enrolled account when making
    the token fails. *)
Lemma refused_authentication_keeps_the_session_witness :
  let out :=
    WebAuthnRoutes.mkOutside true (Return tt) (Return (js "challenge")) (js "unused") 500
      (Return (js "AAAA"))
      (Throw "not a registration")
      (Return (WebAuthnRoutes.VerifiedAuthenticationResponse.mk true
                 (Some (WebAuthnRoutes.AuthenticationInfo.mk 7))))
      500 500 (Throw "secretOrPrivateKey must have a value") in
  let w' :=
    snd (WebAuthnRoutes.verifyAuthentication out (js "session-2") Example.credential
           Example.authenticating) in
  World.webAuthnSessions w' = World.webAuthnSessions Example.authenticating
  /\ World.rateLimitCache w' = World.rateLimitCache Example.authenticating
  /\ (w' = Example.authenticating
      \/ (500 = 500
          /\ (exists message, WebAuthnRoutes.generateToken out = Throw message)
          /\ exists info,
               WebAuthnRoutes.verifyAuthenticationResponse out
               = Return (WebAuthnRoutes.VerifiedAuthenticationResponse.mk true
                           (Some info)))).
Proof.
  intros out w'.
  eapply (refused_authentication_keeps_the_session out (js "session-2")
            Example.credential Example.authenticating w' 500).
  vm_compute. reflexivity.
Defined.

(** X24: [POST /register] opens a session only for the caller's own,
    existing account: on 200 the store has, under the fresh session id the
    answer names, a session with the challenge of the answer, bound to
    that account and expiring ten minutes after the clock read; no other
    session, and nothing else, has changed.  Every refusal leaves the
    state as it was, and a request for somebody else's account is refused
    with 403 as soon as it passes validation. *)
Theorem register_opens_one_session (out : WebAuthnRoutes.Outside)
    (userId authenticatedUserId : jsstring) (w : World.t) :
  match WebAuthnRoutes.register out userId authenticatedUserId w with
  | (Ok200 payload, w') =>
      userId = authenticatedUserId
      /\ (exists user, UserModel.getUserById userId (World.userModel w) = Some user)
      /\ WebAuthnRoutes.generateOptions out
         = Return (WebAuthnRoutes.RegisterOk.challenge payload)
      /\ WebAuthnRoutes.RegisterOk.sessionId payload = WebAuthnRoutes.uuidv4 out
      /\ JsMap.get (WebAuthnRoutes.uuidv4 out) (World.webAuthnSessions w')
         = Some (WebAuthnSession.mk (WebAuthnRoutes.RegisterOk.challenge payload)
                   (Some userId) None None
                   (WebAuthnRoutes.clock_session out + 600000) (Some Preferred))
      /\ (forall id, id <> WebAuthnRoutes.uuidv4 out ->
            JsMap.get id (World.webAuthnSessions w')
            = JsMap.get id (World.webAuthnSessions w))
      /\ World.userModel w' = World.userModel w
      /\ World.rateLimitCache w' = World.rateLimitCache w
  | (Failure status body, w') =>
      w' = w
      /\ (WebAuthnRoutes.valid out = true -> userId <> authenticatedUserId ->
          status = 403)
  end.
Proof.
  unfold WebAuthnRoutes.register. cbv zeta.
  destruct (WebAuthnRoutes.valid out); cbn [negb]; [|done].
  case_bool_decide as Hown; [done|].
  assert (userId = authenticatedUserId) as Heq
    by (by destruct (decide (userId = authenticatedUserId))).
  destruct (UserModel.getUserById userId _) as [user|] eqn:Huser; [|done].
  destruct (match UserModel.getWebAuthnCredentialsByUserId userId (World.userModel w) with
            | [] => Return tt
            | _ :: _ => WebAuthnRoutes.toBuffer out
            end) as [[]|]; [|done].
  destruct (WebAuthnRoutes.generateOptions out) as [challenge|]; [|done].
  cbn [WebAuthnRoutes.RegisterOk.challenge WebAuthnRoutes.RegisterOk.sessionId].
  unfold World.set_webAuthnSessions.
  cbn [World.webAuthnSessions World.userModel World.rateLimitCache].
  split_and!; try done.
  - by exists user.
  - apply get_set_eq.
  - intros id Hid. by apply get_set_ne.
Qed.

Section Ceremonies.
Variable toLowerCase : jsstring -> jsstring.

(** X25: [POST /authenticate] opens a session only for an account it
    finds, by the e-mail address when one is given and by the phone number
    otherwise, and only when that account has a WebAuthn credential: on
    200 the store has, under the fresh session id, a session bound to the
    id, e-mail address and phone number of that account and expiring ten
    minutes after the clock read; no other session, and nothing else, has
    changed.  Every refusal leaves the state as it was. *)
Theorem authenticate_opens_one_session (out : WebAuthnRoutes.Outside)
    (email phone : option jsstring) (w : World.t) :
  match WebAuthnRoutes.authenticate toLowerCase out email phone w with
  | (Ok200 payload, w') =>
      exists user,
        (if truthy_opt email
         then UserModel.getUserByEmail toLowerCase (default [] email) (World.userModel w)
         else UserModel.getUserByPhone (default [] phone) (World.userModel w))
        = Some user
        /\ UserModel.getWebAuthnCredentialsByUserId (User.id user) (World.userModel w)
           <> []
        /\ WebAuthnRoutes.RegisterOk.sessionId payload = WebAuthnRoutes.uuidv4 out
        /\ JsMap.get (WebAuthnRoutes.uuidv4 out) (World.webAuthnSessions w')
           = Some (WebAuthnSession.mk (WebAuthnRoutes.RegisterOk.challenge payload)
                     (Some (User.id user)) (User.email user) (User.phone user)
                     (WebAuthnRoutes.clock_session out + 600000) (Some Preferred))
        /\ (forall id, id <> WebAuthnRoutes.uuidv4 out ->
              JsMap.get id (World.webAuthnSessions w')
              = JsMap.get id (World.webAuthnSessions w))
        /\ World.userModel w' = World.userModel w
        /\ World.rateLimitCache w' = World.rateLimitCache w
  | (Failure status body, w') => w' = w
  end.
Proof.
  unfold WebAuthnRoutes.authenticate. cbv zeta.
  destruct (negb (WebAuthnRoutes.valid out)); [done|].
  destruct (negb (truthy_opt email) && negb (truthy_opt phone)); [done|].
  destruct (if truthy_opt email
            then UserModel.getUserByEmail toLowerCase (default [] email) (World.userModel w)
            else UserModel.getUserByPhone (default [] phone) (World.userModel w))
    as [user|] eqn:Huser; [|done].
  destruct (UserModel.getWebAuthnCredentialsByUserId (User.id user) (World.userModel w))
    as [|c cs] eqn:Hcreds; [done|].
  destruct (WebAuthnRoutes.toBuffer out); [|done].
  destruct (WebAuthnRoutes.generateOptions out) as [challenge|]; [|done].
  exists user.
  cbn [WebAuthnRoutes.RegisterOk.challenge WebAuthnRoutes.RegisterOk.sessionId].
  unfold World.set_webAuthnSessions.
  cbn [World.webAuthnSessions World.userModel World.rateLimitCache].
  split_and!; try done.
  - by rewrite Hcreds.
  - apply get_set_eq.
  - intros id Hid. by apply get_set_ne.
Qed.

End Ceremonies.

(** ** The sweep of the session store *)

Section ForEachDelete.
Context {V : Type}.
Implicit Types (m acc : JsMap.t V) (k : jsstring) (v : V).

(** [forEach] with a conditional [delete] deletes the keys of the entries
    that satisfy the condition, one after the other. *)
Lemma forEach_delete_fold (p : V -> bool) m :
  JsMap.forEach_delete p m
  = fold_left (fun acc k => JsMap.delete k acc)
              (map fst (List.filter (fun kv => p (snd kv)) m)) m.
Proof.
  unfold JsMap.forEach_delete. generalize m at 2 4 as acc.
  induction m as [|[k v] m IH]; intros acc; simpl; [done|].
  rewrite IH. by destruct (p v).
Qed.

Lemma get_Some_elem m k v : JsMap.get k m = Some v -> (k, v) ∈ m.
Proof.
  induction m as [|[k' v'] m IH]; simpl; [done|].
  destruct (decide (k = k')) as [->|Hne].
  - intros [= ->]. apply elem_of_cons. by left.
  - intros Hget. apply elem_of_cons. right. by apply IH.
Qed.

Lemma elem_get_Some m k v : JsMap.wf m -> (k, v) ∈ m -> JsMap.get k m = Some v.
Proof.
  unfold JsMap.wf. induction m as [|[k' v'] m IH]; simpl.
  - by intros _ ?%elem_of_nil.
  - intros [Hnin Hwf]%NoDup_cons [Heq|Hin]%elem_of_cons.
    + simplify_eq. by rewrite decide_True.
    + rewrite decide_False; [by apply IH|].
      intros <-. apply Hnin. apply list_elem_of_fmap. by exists (k, v).
Qed.

(** In a map without repeated keys, the conditional [delete] removes
    exactly the entries that satisfy the condition. *)
Lemma get_forEach_delete (p : V -> bool) m k :
  JsMap.wf m ->
  JsMap.get k (JsMap.forEach_delete p m)
  = match JsMap.get k m with
    | Some v => if p v then None else Some v
    | None => None
    end.
Proof.
  intros Hwf. rewrite forEach_delete_fold, get_fold_delete.
  case_bool_decide as Hin.
  - apply list_elem_of_fmap in Hin as [[k' v] [-> Hin]]. simpl.
    apply list_elem_of_In, filter_In in Hin as [Hin Hp]. simpl in Hp.
    apply list_elem_of_In in Hin.
    by rewrite (elem_get_Some _ _ _ Hwf Hin), Hp.
  - destruct (JsMap.get k m) as [v|] eqn:Hget; [|done].
    destruct (p v) eqn:Hp; [|done].
    exfalso. apply Hin. apply list_elem_of_fmap. exists (k, v). split; [done|].
    apply list_elem_of_In, filter_In. split; [|done].
    by apply list_elem_of_In, get_Some_elem.
Qed.

End ForEachDelete.

(** X26: the periodic sweep removes exactly the sessions whose expiry
    lies before the clock read, keeps every other session as it is, and
    touches neither the user store nor the rate limit cache. *)
Theorem sweep_removes_exactly_the_expired (now : Z) (w : World.t) (id : jsstring) :
  JsMap.wf (World.webAuthnSessions w) ->
  JsMap.get id (World.webAuthnSessions (WebAuthnRoutes.sweep now w))
  = match JsMap.get id (World.webAuthnSessions w) with
    | Some session =>
        if bool_decide (WebAuthnSession.expires session < now) then None
        else Some session
    | None => None
    end
  /\ World.userModel (WebAuthnRoutes.sweep now w) = World.userModel w
  /\ World.rateLimitCache (WebAuthnRoutes.sweep now w) = World.rateLimitCache w.
Proof.
  intros Hwf. unfold WebAuthnRoutes.sweep, World.set_webAuthnSessions.
  cbn [World.webAuthnSessions World.userModel World.rateLimitCache].
  split; [|done].
  rewrite get_forEach_delete by done.
  destruct (JsMap.get id (World.webAuthnSessions w)) as [session|]; [|done].
  case_bool_decide as Hlt.
  - by apply Z.ltb_lt in Hlt as ->.
  - by apply Z.ltb_nlt in Hlt as ->.
Qed.

(** X26, on the example: the session of the registration ceremony, opened
    at time 200, is still there at time 600200 and gone a millisecond
    later. *)
Lemma sweep_removes_exactly_the_expired_witness :
  (JsMap.get (js "session-1")
     (World.webAuthnSessions (WebAuthnRoutes.sweep 600200 Example.registering))
   = match JsMap.get (js "session-1") (World.webAuthnSessions Example.registering) with
     | Some session =>
         if bool_decide (WebAuthnSession.expires session < 600200) then None
         else Some session
     | None => None
     end
   /\ World.userModel (WebAuthnRoutes.sweep 600200 Example.registering)
      = World.userModel Example.registering
   /\ World.rateLimitCache (WebAuthnRoutes.sweep 600200 Example.registering)
      = World.rateLimitCache Example.registering)
  /\ WebAuthnSession.expires
       <$> JsMap.get (js "session-1")
             (World.webAuthnSessions (WebAuthnRoutes.sweep 600200 Example.registering))
     = Some 600200
  /\ JsMap.get (js "session-1")
       (World.webAuthnSessions (WebAuthnRoutes.sweep 600201 Example.registering))
     = None.
Proof.
  split.
  - apply (sweep_removes_exactly_the_expired 600200 Example.registering
             (js "session-1")).
    unfold JsMap.wf. vm_compute. apply NoDup_singleton.
  - by vm_compute.
Defined.

(** The session [session] filed under [sessionId]. *)
Lemma get_with_session sessionId session (w : World.t) :
  JsMap.get sessionId
    (World.webAuthnSessions
       (World.set_webAuthnSessions
          (JsMap.set sessionId session (World.webAuthnSessions w)) w))
  = Some session.
Proof. unfold World.set_webAuthnSessions. simpl. apply get_set_eq. Qed.

(** X27: neither completion handler reads the expiry of the session: with
    the same session filed under the same id, the answer is the same
    whatever the expiry says, so a session past its ten minutes completes
    like a fresh one until a sweep has removed it. *)
Theorem completion_ignores_the_expiry (out : WebAuthnRoutes.Outside)
    (sessionId : jsstring) (credential : WebAuthnRoutes.Credential.t)
    (w : World.t) (challenge : jsstring) (userId email phone : option jsstring)
    (expires expires' : Z) (userVerification : option UserVerification) :
  let file expires :=
    World.set_webAuthnSessions
      (JsMap.set sessionId
         (WebAuthnSession.mk challenge userId email phone expires userVerification)
         (World.webAuthnSessions w)) w in
  fst (WebAuthnRoutes.verifyRegistration out sessionId credential (file expires))
  = fst (WebAuthnRoutes.verifyRegistration out sessionId credential (file expires'))
  /\ fst (WebAuthnRoutes.verifyAuthentication out sessionId credential (file expires))
     = fst (WebAuthnRoutes.verifyAuthentication out sessionId credential (file expires')).
Proof.
  intros file. subst file. cbv beta.
  unfold WebAuthnRoutes.verifyRegistration, WebAuthnRoutes.verifyAuthentication.
  rewrite !get_with_session.
  unfold World.set_webAuthnSessions.
  cbn [World.userModel WebAuthnSession.userId].
  split.
  - repeat case_match; simplify_eq; done.
  - repeat case_match; simplify_eq; done.
Qed.

(** ** Decentralised identifiers *)

Section Split.
Implicit Types (s part : jsstring) (parts : list jsstring) (sep : N).

Lemma startsWith_app p s : startsWith p s = true <-> exists r, s = p ++ r.
Proof.
  revert s. induction p as [|a p IH]; intros s; simpl.
  - split; [by exists s | done].
  - destruct s as [|b s]; [split; [done | by intros [r ?]]|].
    rewrite andb_true_iff, N.eqb_eq, IH. split.
    + intros [-> [r ->]]. by exists r.
    + intros [r [= -> ->]]. split; [done | by exists r].
Qed.

Lemma split_not_nil sep s : split sep s <> [].
Proof.
  destruct s as [|c s]; simpl; [done|].
  destruct (c =? sep)%N; [done|]. by destruct (split sep s).
Qed.

(** A string without the separator is one part. *)
Lemma split_no_sep sep s : sep ∉ s -> split sep s = [s].
Proof.
  induction s as [|c s IH]; simpl; [done|].
  intros [Hne Hnin]%not_elem_of_cons.
  rewrite (proj2 (N.eqb_neq c sep)) by done. by rewrite IH.
Qed.

(** The first part ends at the first separator. *)
Lemma split_app sep part s :
  sep ∉ part -> split sep (part ++ sep :: s) = part :: split sep s.
Proof.
  induction part as [|c part IH]; simpl.
  - intros _. by rewrite N.eqb_refl.
  - intros [Hne Hnin]%not_elem_of_cons.
    rewrite (proj2 (N.eqb_neq c sep)) by done. by rewrite IH.
Qed.

Lemma split_single_inv sep s part : split sep s = [part] -> s = part /\ sep ∉ part.
Proof.
  revert part. induction s as [|c s IH]; intros part; simpl.
  - intros [= <-]. split; [done | apply not_elem_of_nil].
  - destruct (c =? sep)%N eqn:Hc.
    + intros [= <- Hrest]. by destruct (split_not_nil sep s).
    + apply N.eqb_neq in Hc.
      destruct (split sep s) as [|part' parts] eqn:Hsplit;
        [by destruct (split_not_nil sep s)|].
      intros [= <- ->]. destruct (IH part' eq_refl) as [-> Hnin].
      split; [done|]. apply not_elem_of_cons. by split.
Qed.

Lemma split_cons_inv sep s part part' parts :
  split sep s = part :: part' :: parts ->
  exists s', s = part ++ sep :: s' /\ (sep ∉ part) /\ split sep s' = part' :: parts.
Proof.
  revert part. induction s as [|c s IH]; intros part; simpl; [done|].
  destruct (c =? sep)%N eqn:Hc.
  - apply N.eqb_eq in Hc as ->. intros [= <- Hrest].
    exists s. split; [done|]. split; [apply not_elem_of_nil | done].
  - apply N.eqb_neq in Hc.
    destruct (split sep s) as [|part0 parts0] eqn:Hsplit; [done|].
    intros [= <- ->]. destruct (IH part0 eq_refl) as (s' & -> & Hnin & Hrest).
    exists s'. split; [done|]. split; [|done].
    apply not_elem_of_cons. by split.
Qed.

End Split.

(** A non-empty identifier without colons makes a valid [did:key]. *)
Lemma isValidDID_key (id : jsstring) :
  id <> [] -> 58%N ∉ id ->
  DidUtils.isValidDID (js "did:key:" ++ id) = true
  /\ split 58 (js "did:key:" ++ id) = [js "did"; js "key"; id].
Proof.
  intros Hid Hnin. unfold DidUtils.isValidDID.
  change (startsWith (js "did:key:") (js "did:key:" ++ id)) with true. cbv zeta.
  change (split 58 (js "did:key:" ++ id))
    with (js "did" :: js "key" :: split 58 id).
  rewrite split_no_sep by done. by destruct id.
Qed.

(** X28: [isValidDID] accepts exactly the strings [did:key:<id>] with a
    non-empty [<id>] free of colons, and [did:hedera:<network>:<account>]
    with one of the three networks and a non-empty account free of
    colons. *)
Theorem isValidDID_iff (did : jsstring) :
  DidUtils.isValidDID did = true
  <-> (exists id, did = js "did:key:" ++ id /\ id <> [] /\ 58%N ∉ id)
      \/ (exists network accountId,
            did = js "did:hedera:" ++ network ++ js ":" ++ accountId
            /\ network ∈ [js "testnet"; js "mainnet"; js "previewnet"]
            /\ accountId <> [] /\ 58%N ∉ accountId).
Proof.
  unfold DidUtils.isValidDID. split.
  - destruct (startsWith (js "did:key:") did) eqn:Hkey.
    + apply startsWith_app in Hkey as [rest ->]. cbv zeta.
      change (split 58 (js "did:key:" ++ rest))
        with (js "did" :: js "key" :: split 58 rest).
      destruct (split 58 rest) as [|part2 [|? ?]] eqn:Hsplit; try done.
      intros Hlen. apply split_single_inv in Hsplit as [-> Hnin].
      left. exists part2. split; [done|]. split; [|done]. by destruct part2.
    + destruct (startsWith (js "did:hedera:") did) eqn:Hhedera; [|done].
      apply startsWith_app in Hhedera as [rest ->]. cbv zeta.
      change (split 58 (js "did:hedera:" ++ rest))
        with (js "did" :: js "hedera" :: split 58 rest).
      destruct (split 58 rest) as [|part2 [|part3 [|? ?]]] eqn:Hsplit; try done.
      intros [Hnet Hlen]%andb_true_iff. apply bool_decide_eq_true in Hnet.
      apply split_cons_inv in Hsplit as (rest' & -> & Hnin2 & Hsplit).
      apply split_single_inv in Hsplit as [-> Hnin3].
      right. exists part2, part3. split; [done|]. split; [done|].
      split; [|done]. by destruct part3.
  - intros [(id & -> & Hid & Hnin) | (network & accountId & -> & Hnet & Hid & Hnin)].
    + by apply isValidDID_key.
    + change (startsWith (js "did:key:") (js "did:hedera:" ++ network ++ js ":" ++ accountId))
        with false. cbv iota.
      change (startsWith (js "did:hedera:")
                (js "did:hedera:" ++ network ++ js ":" ++ accountId)) with true.
      cbv zeta iota.
      change (split 58 (js "did:hedera:" ++ network ++ js ":" ++ accountId))
        with (js "did" :: js "hedera" :: split 58 (network ++ 58%N :: accountId)).
      assert (58%N ∉ network) as Hnin2.
      { apply list_elem_of_In in Hnet. simpl in Hnet.
        destruct Hnet as [<-|[<-|[<-|[]]]];
          intros Hin; apply list_elem_of_In in Hin; vm_compute in Hin;
          intuition discriminate. }
      rewrite split_app, split_no_sep by done.
      rewrite bool_decide_eq_true_2 by done. by destruct accountId.
Qed.

Section Base58.
Implicit Types (num : N) (result : jsstring) (buffer : DidUtils.Buffer).

Lemma base58Chars_NoDup : NoDup DidUtils.base58Chars.
Proof. apply (bool_decide_unpack (NoDup DidUtils.base58Chars)). by vm_compute. Qed.

Lemma position_nth (s : jsstring) (i : nat) (c : N) :
  NoDup s -> nth_error s i = Some c -> DidUtils.position c s = N.of_nat i.
Proof.
  revert i. induction s as [|c' s IH]; intros i Hnd Hnth; [by destruct i|].
  apply NoDup_cons in Hnd as [Hnin Hnd]. simpl.
  destruct i as [|i]; simpl in Hnth.
  - simplify_eq. by rewrite N.eqb_refl.
  - rewrite (proj2 (N.eqb_neq c c')).
    + rewrite (IH i) by done. lia.
    + intros ->. apply Hnin. apply list_elem_of_In. by eapply nth_error_In.
Qed.

(** The digit the loop writes for a remainder. *)
Lemma index_base58 (r : N) :
  (r < 58)%N ->
  exists c, index DidUtils.base58Chars r = [c]
            /\ c ∈ DidUtils.base58Chars
            /\ DidUtils.position c DidUtils.base58Chars = r.
Proof.
  intros Hr. unfold index.
  destruct (nth_error DidUtils.base58Chars (N.to_nat r)) as [c|] eqn:Hnth.
  - exists c. split; [done|]. split.
    + apply list_elem_of_In. by eapply nth_error_In.
    + rewrite (position_nth _ _ _ base58Chars_NoDup Hnth). lia.
  - apply nth_error_None in Hnth.
    change (length DidUtils.base58Chars) with 58%nat in Hnth. lia.
Qed.

Lemma size_div_58 num :
  (0 < num)%N -> (N.to_nat (N.size (num / 58)) < N.to_nat (N.size num))%nat.
Proof.
  intros Hpos. pose proof (N.Div0.mul_div_le num 58%N) as Hq.
  revert Hq. generalize (num / 58)%N. intros q Hq.
  assert (N.size q < N.size num)%N; [|lia].
  destruct (N.eq_dec q 0%N) as [->|Hne].
  - rewrite (N.size_log2 num) by lia. simpl. lia.
  - rewrite !N.size_log2 by lia.
    assert (N.log2 (2 * q) <= N.log2 num)%N as Hle
      by (apply N.log2_le_mono; lia).
    rewrite N.log2_double in Hle by lia. lia.
Qed.

(** With as many rounds as the number has bits, [digits] is the [while]
    loop run to its end. *)
Lemma digits_loop (fuel : nat) num result :
  (N.to_nat (N.size num) <= fuel)%nat ->
  DidUtils.loop num result (DidUtils.digits fuel num result).
Proof.
  revert num result. induction fuel as [|fuel IH]; intros num result Hfuel; simpl.
  - destruct num; [constructor|]. simpl in Hfuel. lia.
  - destruct (0 <? num)%N eqn:Hpos.
    + apply N.ltb_lt in Hpos. apply DidUtils.loop_round; [done|].
      apply IH. pose proof (size_div_58 num Hpos). lia.
    + apply N.ltb_ge in Hpos. assert (num = 0%N) as -> by lia. constructor.
Qed.

Lemma fromBase58_snoc (ds : jsstring) (c : N) :
  DidUtils.fromBase58 (ds ++ [c])
  = (DidUtils.fromBase58 ds * 58 + DidUtils.position c DidUtils.base58Chars)%N.
Proof. unfold DidUtils.fromBase58. by rewrite fold_left_app. Qed.

(** What the loop has written when it ends: the base-58 digits of the
    number, most significant first and without a leading ['1'], in front
    of what was there. *)
Lemma loop_spec num result result' :
  DidUtils.loop num result result' ->
  exists ds,
    result' = ds ++ result
    /\ DidUtils.fromBase58 ds = num
    /\ Forall (fun c => c ∈ DidUtils.base58Chars) ds
    /\ (num = 0%N -> ds = [])
    /\ ((0 < num)%N -> exists c ds', ds = c :: ds' /\ c <> 49%N).
Proof.
  induction 1 as [result|num result result' Hpos Hloop IH].
  - exists []. split_and!; try done; lia.
  - destruct IH as (ds & -> & Hvalue & Hchars & Hzero & Hhead).
    pose proof (N.div_mod num 58%N ltac:(done)) as Hdm.
    pose proof (N.mod_lt num 58%N ltac:(done)) as Hr.
    revert Hvalue Hzero Hhead Hdm Hr.
    generalize (num / 58)%N (num mod 58)%N. intros q r Hvalue Hzero Hhead Hdm Hr.
    destruct (index_base58 r Hr) as (c & Hc & Hin & Hposition).
    rewrite Hc. exists (ds ++ [c]). split_and!.
    + by rewrite <- app_assoc.
    + rewrite fromBase58_snoc, Hvalue, Hposition. lia.
    + apply Forall_app. split; [done|]. by apply Forall_singleton.
    + lia.
    + intros _. destruct (N.eq_dec q 0%N) as [Hq|Hq].
      * rewrite (Hzero Hq). exists c, []. split; [done|].
        intros ->. change (DidUtils.position 49 DidUtils.base58Chars) with 0%N in Hposition.
        lia.
      * destruct Hhead as (c0 & ds0 & -> & Hc0); [lia|].
        by exists c0, (ds0 ++ [c]).
Qed.

(** The last loop puts one ['1'] in front for every leading zero byte. *)
Lemma leadingOnes_spec buffer result :
  exists k rest,
    buffer = replicate k Byte.x00 ++ rest
    /\ (forall byte rest', rest = byte :: rest' -> Byte.to_N byte <> 0%N)
    /\ DidUtils.leadingOnes buffer result = replicate k 49%N ++ result.
Proof.
  revert result. induction buffer as [|byte buffer IH]; intros result;
    cbn [DidUtils.leadingOnes].
  - exists 0%nat, []. by split_and!.
  - destruct (Byte.to_N byte =? 0)%N eqn:Hzero.
    + apply N.eqb_eq in Hzero.
      assert (byte = Byte.x00) as ->.
      { apply (inj Some). rewrite <- (Byte.of_to_N byte), Hzero. done. }
      destruct (IH (js "1" ++ result)) as (k & rest & Hbuffer & Hrest & ->).
      exists (S k), rest. split_and!; [by rewrite Hbuffer | done |].
      change (js "1" ++ result) with ([49%N] ++ result).
      by rewrite app_assoc, <- replicate_S_end.
    + apply N.eqb_neq in Hzero. exists 0%nat, (byte :: buffer).
      split_and!; [done | by intros ? ? [= <- <-] | done].
Qed.

Lemma toBigInt_fold buffer (acc : N) :
  fold_left (fun num byte => N.shiftl num 8 + Byte.to_N byte)%N buffer acc
  = (acc * 256 ^ N.of_nat (length buffer) + DidUtils.toBigInt buffer)%N
  /\ (DidUtils.toBigInt buffer < 256 ^ N.of_nat (length buffer))%N.
Proof.
  unfold DidUtils.toBigInt. revert acc.
  induction buffer as [|byte buffer IH] using rev_ind; intros acc.
  - simpl. split; lia.
  - rewrite !fold_left_app, length_app. simpl.
    destruct (IH acc) as [-> Hlt]. destruct (IH 0%N) as [_ Hlt0].
    rewrite !N.shiftl_mul_pow2.
    replace (N.of_nat (length buffer + 1)) with (N.succ (N.of_nat (length buffer)))
      by lia.
    rewrite N.pow_succ_r'. pose proof (Byte.to_N_bounded byte).
    change (2 ^ 8)%N with 256%N. split; lia.
Qed.

Lemma toBigInt_zeros (k : nat) buffer :
  DidUtils.toBigInt (replicate k Byte.x00 ++ buffer) = DidUtils.toBigInt buffer.
Proof.
  induction k as [|k IH]; simpl; [done|].
  rewrite <- IH. unfold DidUtils.toBigInt. simpl. done.
Qed.

(** Two byte strings of the same length with the same value are equal. *)
Lemma toBigInt_inj_length buffer1 buffer2 :
  length buffer1 = length buffer2 ->
  DidUtils.toBigInt buffer1 = DidUtils.toBigInt buffer2 ->
  buffer1 = buffer2.
Proof.
  revert buffer2. induction buffer1 as [|b1 buffer1 IH] using rev_ind;
    intros buffer2 Hlen Hval.
  - by destruct buffer2.
  - destruct buffer2 as [|b2 buffer2 _] using rev_ind.
    { rewrite length_app in Hlen. simpl in Hlen. lia. }
    rewrite !length_app in Hlen. simpl in Hlen.
    unfold DidUtils.toBigInt in Hval. rewrite !fold_left_app in Hval. simpl in Hval.
    rewrite !N.shiftl_mul_pow2 in Hval. change (2 ^ 8)%N with 256%N in Hval.
    pose proof (Byte.to_N_bounded b1). pose proof (Byte.to_N_bounded b2).
    assert (Byte.to_N b1 = Byte.to_N b2) as Hb by lia.
    assert (b1 = b2) as ->.
    { apply (inj Some). by rewrite <- (Byte.of_to_N b1), <- (Byte.of_to_N b2), Hb. }
    f_equal. apply IH; [lia|]. unfold DidUtils.toBigInt. lia.
Qed.

(** A byte string that does not start with a zero byte has the length its
    value needs. *)
Lemma toBigInt_bounds byte buffer :
  Byte.to_N byte <> 0%N ->
  (256 ^ N.of_nat (length buffer) <= DidUtils.toBigInt (byte :: buffer)
   < 256 ^ N.of_nat (S (length buffer)))%N.
Proof.
  intros Hne. split; [|apply (toBigInt_fold (byte :: buffer) 0%N)].
  unfold DidUtils.toBigInt at 1. cbn [fold_left].
  destruct (toBigInt_fold buffer (N.shiftl 0 8 + Byte.to_N byte)%N) as [-> _].
  rewrite N.shiftl_0_l. nia.
Qed.

Lemma toBigInt_inj buffer1 buffer2 :
  (forall byte rest, buffer1 = byte :: rest -> Byte.to_N byte <> 0%N) ->
  (forall byte rest, buffer2 = byte :: rest -> Byte.to_N byte <> 0%N) ->
  DidUtils.toBigInt buffer1 = DidUtils.toBigInt buffer2 ->
  buffer1 = buffer2.
Proof.
  intros H1 H2 Hval. apply toBigInt_inj_length; [|done].
  destruct buffer1 as [|b1 buffer1], buffer2 as [|b2 buffer2]; [done| | |].
  - pose proof (toBigInt_bounds b2 buffer2 (H2 _ _ eq_refl)) as [Hle _].
    rewrite <- Hval in Hle. change (DidUtils.toBigInt []) with 0%N in Hle.
    pose proof (N.pow_nonzero 256 (N.of_nat (length buffer2))). lia.
  - pose proof (toBigInt_bounds b1 buffer1 (H1 _ _ eq_refl)) as [Hle _].
    rewrite Hval in Hle. change (DidUtils.toBigInt []) with 0%N in Hle.
    pose proof (N.pow_nonzero 256 (N.of_nat (length buffer1))). lia.
  - pose proof (toBigInt_bounds b1 buffer1 (H1 _ _ eq_refl)) as [Hle1 Hlt1].
    pose proof (toBigInt_bounds b2 buffer2 (H2 _ _ eq_refl)) as [Hle2 Hlt2].
    rewrite Hval in Hle1, Hlt1. simpl. f_equal.
    destruct (Nat.lt_trichotomy (length buffer1) (length buffer2)) as [Hlt|[Heq|Hlt]];
      [|done|].
    + assert (256 ^ N.of_nat (S (length buffer1)) <= 256 ^ N.of_nat (length buffer2))%N
        by (apply N.pow_le_mono_r; lia).
      lia.
    + assert (256 ^ N.of_nat (S (length buffer2)) <= 256 ^ N.of_nat (length buffer1))%N
        by (apply N.pow_le_mono_r; lia).
      lia.
Qed.

(** Runs of a character in front of strings that do not start with it
    can be told apart. *)
Lemma replicate_app_inj (a : N) (k1 k2 : nat) (s1 s2 : jsstring) :
  (forall c r, s1 = c :: r -> c <> a) ->
  (forall c r, s2 = c :: r -> c <> a) ->
  replicate k1 a ++ s1 = replicate k2 a ++ s2 ->
  k1 = k2 /\ s1 = s2.
Proof.
  revert k2. induction k1 as [|k1 IH]; intros [|k2] H1 H2; simpl.
  - done.
  - intros ->. by destruct (H1 _ _ eq_refl).
  - intros <-. by destruct (H2 _ _ eq_refl).
  - intros [= Heq]. destruct (IH k2 H1 H2 Heq) as [-> ->]. done.
Qed.

(** What [encodeBase58] returns. *)
Lemma encodeBase58_spec buffer :
  exists k rest ds,
    buffer = replicate k Byte.x00 ++ rest
    /\ (forall byte rest', rest = byte :: rest' -> Byte.to_N byte <> 0%N)
    /\ DidUtils.encodeBase58 buffer = replicate k 49%N ++ ds
    /\ DidUtils.fromBase58 ds = DidUtils.toBigInt rest
    /\ Forall (fun c => c ∈ DidUtils.base58Chars) ds
    /\ (forall c r, ds = c :: r -> c <> 49%N).
Proof.
  unfold DidUtils.encodeBase58. cbv zeta.
  destruct (loop_spec _ _ _ (digits_loop (N.to_nat (N.size (DidUtils.toBigInt buffer)))
                               (DidUtils.toBigInt buffer) [] (le_n _)))
    as (ds & Hds & Hvalue & Hchars & Hzero & Hhead).
  rewrite Hds, app_nil_r.
  destruct (leadingOnes_spec buffer ds) as (k & rest & Hbuffer & Hrest & ->).
  exists k, rest, ds. split_and!; try done.
  - by rewrite Hvalue, Hbuffer, toBigInt_zeros.
  - intros c r ->.
    destruct (N.eq_dec (DidUtils.toBigInt buffer) 0%N) as [Hz|Hz]; [by apply Hzero in Hz|].
    destruct Hhead as (c0 & ds0 & [= <- <-] & Hc0); [lia | done].
Qed.

Lemma encodeBase58_inj buffer1 buffer2 :
  DidUtils.encodeBase58 buffer1 = DidUtils.encodeBase58 buffer2 -> buffer1 = buffer2.
Proof.
  destruct (encodeBase58_spec buffer1)
    as (k1 & rest1 & ds1 & -> & Hrest1 & -> & Hvalue1 & _ & Hhead1).
  destruct (encodeBase58_spec buffer2)
    as (k2 & rest2 & ds2 & -> & Hrest2 & -> & Hvalue2 & _ & Hhead2).
  intros [-> ->]%replicate_app_inj; [|done..].
  f_equal. apply toBigInt_inj; [done..|]. by rewrite <- Hvalue1, <- Hvalue2.
Qed.

Lemma encodeBase58_alphabet buffer :
  Forall (fun c => c ∈ DidUtils.base58Chars) (DidUtils.encodeBase58 buffer).
Proof.
  destruct (encodeBase58_spec buffer) as (k & rest & ds & _ & _ & -> & _ & Hchars & _).
  apply Forall_app. split; [|done].
  apply Forall_replicate. apply list_elem_of_In. vm_compute. tauto.
Qed.

End Base58.

(** X29: [encodeBase58] writes only characters of its alphabet, the
    digits it writes stand for the number the bytes stand for, and it is
    injective: two different buffers never get the same encoding. *)
Theorem encodeBase58_loses_nothing (buffer : DidUtils.Buffer) :
  Forall (fun c => c ∈ DidUtils.base58Chars) (DidUtils.encodeBase58 buffer)
  /\ DidUtils.fromBase58 (DidUtils.encodeBase58 buffer) = DidUtils.toBigInt buffer
  /\ (forall buffer',
        DidUtils.encodeBase58 buffer' = DidUtils.encodeBase58 buffer ->
        buffer' = buffer).
Proof.
  split; [apply encodeBase58_alphabet|]. split; [|intros ?; apply encodeBase58_inj].
  destruct (encodeBase58_spec buffer)
    as (k & rest & ds & -> & _ & -> & Hvalue & _ & _).
  rewrite toBigInt_zeros, <- Hvalue. unfold DidUtils.fromBase58.
  rewrite fold_left_app. f_equal.
  induction k as [|k IH] using nat_ind; [done|].
  rewrite replicate_S_end, fold_left_app, IH. done.
Qed.

(** X30: a [did:key] that [publicKeyToDIDKey] returns passes
    [isValidDID]; resolving it gives a document with one verification
    method, which carries the multibase encoding of the prefixed key (and
    the Ed25519 type label, whatever the key type was); and it names one
    key only: no other public key and no other key type gets the same
    identifier. *)
Theorem did_key_names_one_key (publicKey : DidUtils.Buffer)
    (keyType : option jsstring) (did : jsstring) :
  DidUtils.publicKeyToDIDKey publicKey keyType = DidUtils.Returned did ->
  DidUtils.isValidDID did = true
  /\ (exists prefix,
        DidUtils.multicodec (default (js "ed25519") keyType) = Some prefix
        /\ forall uuidv4,
             DidUtils.DIDDocument.verificationMethod (DidUtils.resolveDIDKey uuidv4 did)
             = [DidUtils.VerificationMethod.mk (did ++ js "#" ++ uuidv4)
                  (js "Ed25519VerificationKey2020") did
                  (Some (DidUtils.encodeMultibase (prefix ++ publicKey) None))])
  /\ (forall publicKey' keyType',
        DidUtils.publicKeyToDIDKey publicKey' keyType' = DidUtils.Returned did ->
        publicKey' = publicKey
        /\ default (js "ed25519") keyType' = default (js "ed25519") keyType).
Proof.
  unfold DidUtils.publicKeyToDIDKey. cbv zeta.
  destruct (DidUtils.multicodec (default (js "ed25519") keyType)) as [prefix|] eqn:Hcodec;
    [|discriminate].
  intros Hdid.
  assert (did = js "did:key:" ++ DidUtils.encodeMultibase (prefix ++ publicKey) None)
    as -> by congruence.
  clear Hdid.
  assert (58%N ∉ DidUtils.encodeMultibase (prefix ++ publicKey) None) as Hnin.
  { unfold DidUtils.encodeMultibase. simpl default.
    intros [Hin|Hin]%elem_of_app.
    - apply list_elem_of_In in Hin. vm_compute in Hin. intuition discriminate.
    - pose proof (encodeBase58_alphabet (prefix ++ publicKey)) as Hchars.
      rewrite Forall_forall in Hchars. apply Hchars in Hin.
      apply list_elem_of_In in Hin. vm_compute in Hin. intuition discriminate. }
  assert (DidUtils.encodeMultibase (prefix ++ publicKey) None <> []) as Hne by done.
  destruct (isValidDID_key _ Hne Hnin) as [Hvalid Hsplit].
  split; [done|]. split.
  - exists prefix. split; [done|]. intros uuidv4.
    unfold DidUtils.resolveDIDKey, DidUtils.createDIDKeyDocument. cbv zeta.
    by rewrite Hsplit.
  - intros publicKey' keyType'.
    destruct (DidUtils.multicodec (default (js "ed25519") keyType'))
      as [prefix'|] eqn:Hcodec'; [|discriminate].
    intros Hdid.
    assert (js "did:key:" ++ DidUtils.encodeMultibase (prefix' ++ publicKey') None
            = js "did:key:" ++ DidUtils.encodeMultibase (prefix ++ publicKey) None)
      as Heq by congruence.
    apply (app_inv_head (js "did:key:")) in Heq.
    unfold DidUtils.encodeMultibase in Heq. simpl default in Heq.
    apply (app_inv_head (js "z")) in Heq. apply encodeBase58_inj in Heq.
    unfold DidUtils.multicodec in Hcodec, Hcodec'.
    clear Hdid Hvalid Hsplit Hnin Hne.
    revert Hcodec Hcodec'.
    generalize (default (js "ed25519") keyType) (default (js "ed25519") keyType').
    intros kt kt' Hcodec Hcodec'.
    repeat case_bool_decide; try discriminate;
      injection Hcodec as <-; injection Hcodec' as <-;
      try (exfalso; cbn [app] in Heq; congruence).
    + apply app_inv_head in Heq. split; congruence.
    + apply app_inv_head in Heq. split; congruence.
Qed.

(** X30, on an example: the Ed25519 key of thirty-two bytes [07]. *)
Lemma did_key_names_one_key_witness :
  let publicKey := repeat Byte.x07 32 in
  let did := js "did:key:z6Mkevh7bMWWUda468bFjfFGtDxLXgkG8L46bsaXEwHD9Z3L" in
  DidUtils.isValidDID did = true
  /\ (exists prefix,
        DidUtils.multicodec (default (js "ed25519") None) = Some prefix
        /\ forall uuidv4,
             DidUtils.DIDDocument.verificationMethod (DidUtils.resolveDIDKey uuidv4 did)
             = [DidUtils.VerificationMethod.mk (did ++ js "#" ++ uuidv4)
                  (js "Ed25519VerificationKey2020") did
                  (Some (DidUtils.encodeMultibase (prefix ++ publicKey) None))])
  /\ (forall publicKey' keyType',
        DidUtils.publicKeyToDIDKey publicKey' keyType' = DidUtils.Returned did ->
        publicKey' = publicKey
        /\ default (js "ed25519") keyType' = default (js "ed25519") None).
Proof.
  intros publicKey did.
  apply (did_key_names_one_key publicKey None did).
  by vm_compute.
Defined.

(** ** The gate in front of the protected routes *)

(** The first part of a string, and what follows it. *)
Lemma split_head_inv (sep : N) (s part : jsstring) (parts : list jsstring) :
  split sep s = part :: parts ->
  exists rest,
    s = part ++ rest /\ (sep ∉ part) /\ (rest = [] \/ exists r, rest = sep :: r).
Proof.
  destruct parts as [|part' parts].
  - intros [-> Hnin]%split_single_inv. exists []. rewrite app_nil_r. auto.
  - intros (s' & -> & Hnin & _)%split_cons_inv. exists (sep :: s'). eauto.
Qed.

Lemma split_head (sep : N) (part rest : jsstring) :
  sep ∉ part -> rest = [] \/ (exists r, rest = sep :: r) ->
  exists parts, split sep (part ++ rest) = part :: parts.
Proof.
  intros Hnin [->|[r ->]].
  - exists []. rewrite app_nil_r. by apply split_no_sep.
  - exists (split sep r). by apply split_app.
Qed.

(** X3: [authenticate] lets a request through exactly when the JWT secret
    is configured, the [Authorization] header is ["Bearer "] followed by a
    non-empty token without a space (anything after a further space is
    ignored), and [jwt.verify] accepts that token; the payload put in the
    request is the one [jwt.verify] decoded. *)
Theorem authenticate_passes_iff (JWT_SECRET : option jsstring)
    (jwt_verify : jsstring -> jsstring -> result UserJwtPayload.t)
    (authorization : option jsstring) (payload : UserJwtPayload.t) :
  AuthUtils.authenticate JWT_SECRET jwt_verify authorization
  = Return (AuthUtils.Next payload)
  <-> exists secret token rest,
        JWT_SECRET = Some secret /\ secret <> []
        /\ authorization = Some (js "Bearer " ++ token ++ rest)
        /\ token <> [] /\ (32%N ∉ token)
        /\ (rest = [] \/ exists r, rest = 32%N :: r)
        /\ jwt_verify token secret = Return payload.
Proof.
  unfold AuthUtils.authenticate, AuthUtils.extractTokenFromHeader, AuthUtils.verifyToken.
  cbv zeta. split.
  - destruct authorization as [header|]; [|done].
    change (default [] (Some header)) with header. cbn [truthy_opt].
    destruct (truthy header); [|done]. cbn [negb orb].
    destruct (startsWith (js "Bearer ") header) eqn:Hbearer;
      [|by cbn [negb truthy_opt]].
    apply startsWith_app in Hbearer as [tail ->]. cbn [negb].
    change (split 32 (js "Bearer " ++ tail)) with (js "Bearer" :: split 32 tail).
    cbn [nth_error].
    destruct (split 32 tail) as [|token parts] eqn:Hsplit; [done|].
    cbn [nth_error truthy_opt].
    change (default [] (Some token)) with token.
    destruct token as [|c token]; [done|]. cbn [truthy negb].
    destruct JWT_SECRET as [[|c' secret]|]; try done. cbn [truthy_opt truthy negb].
    change (default [] (Some (c' :: secret))) with (c' :: secret).
    destruct (jwt_verify (c :: token) (c' :: secret)) as [decoded|] eqn:Hverify; [|done].
    intros [= ->].
    apply split_head_inv in Hsplit as (rest & -> & Hnin & Hrest).
    exists (c' :: secret), (c :: token), rest. by split_and!.
  - intros (secret & token & rest & -> & Hsecret & -> & Htoken & Hnin & Hrest & Hverify).
    change (default [] (Some (js "Bearer " ++ token ++ rest)))
      with (js "Bearer " ++ token ++ rest).
    change (default [] (Some secret)) with secret. cbn [truthy_opt].
    change (truthy (js "Bearer " ++ token ++ rest)) with true.
    change (startsWith (js "Bearer ") (js "Bearer " ++ token ++ rest)) with true.
    cbn [negb orb].
    change (split 32 (js "Bearer " ++ token ++ rest))
      with (js "Bearer" :: split 32 (token ++ rest)).
    destruct (split_head 32 token rest Hnin Hrest) as [parts ->].
    cbn [nth_error truthy_opt].
    change (default [] (Some token)) with token.
    destruct token as [|c token]; [done|].
    destruct secret as [|c' secret]; [done|].
    cbn [truthy negb]. by rewrite Hverify.
Qed.
